(** * Appointment booking backend: scheduling core and tenant guard

    A shallow embedding of
      - [src/modules/appointment/appointment.controller.js]
        (availability helpers, [createAppointment], [updateAppointment],
        [cancelAppointment]), and
      - [src/lib/prismaWithTenant.js] (the tenant middleware),
    together with the properties of the specification that concern them.

    Conventions.  A JavaScript [Date] that is not "Invalid Date" is its time
    value, an integer number of milliseconds since the epoch ([Z]); a nullable
    column is an [option]; a Prisma table is the list of its rows, in the
    order the database returns them; a handler is a function from the store
    to a new store and an outcome, which is the handler when no other
    request writes while it runs (the section on requests that run at the
    same time gives each query of a handler the store as it finds it). *)

From Stdlib Require Import ZArith QArith Lqa List String Ascii Bool Lia.
From stdpp Require Import base gmap strings list pretty.

Local Open Scope string_scope.
Local Open Scope list_scope.
Local Open Scope Z_scope.

(** ** JavaScript values used by the controller *)

Module JS.

(** A JavaScript number: NaN, an infinity, or a finite value.  Arithmetic
    is exact: the rounding of IEEE doubles and the sign of zero are not
    represented. *)
Inductive jsnum : Type :=
| JNaN
| JInf (negative : bool)
| JFin (q : Q).

Definition ofZ (z : Z) : jsnum := JFin (inject_Z z).

Definition Qsign_neg (q : Q) : bool := negb (Qle_bool 0 q).
Definition Qis_zero (q : Q) : bool := Qle_bool q 0 && Qle_bool 0 q.

(** [a * b] *)
Definition mul (a b : jsnum) : jsnum :=
  match a, b with
  | JNaN, _ | _, JNaN => JNaN
  | JInf s, JInf t => JInf (xorb s t)
  | JInf s, JFin q | JFin q, JInf s =>
      if Qis_zero q then JNaN else JInf (xorb s (Qsign_neg q))
  | JFin p, JFin q => JFin (p * q)
  end.

(** [a + b] *)
Definition add (a b : jsnum) : jsnum :=
  match a, b with
  | JNaN, _ | _, JNaN => JNaN
  | JInf s, JInf t => if Bool.eqb s t then JInf s else JNaN
  | JInf s, JFin _ | JFin _, JInf s => JInf s
  | JFin p, JFin q => JFin (p + q)
  end.

(** [a <= b]; every comparison with NaN is false *)
Definition le (a b : jsnum) : bool :=
  match a, b with
  | JNaN, _ | _, JNaN => false
  | JInf true, _ => true
  | _, JInf false => true
  | JInf false, _ => false
  | _, JInf true => false
  | JFin p, JFin q => Qle_bool p q
  end.

(** [a >= b] *)
Definition ge (a b : jsnum) : bool := le b a.

(** [Number.isNaN(x)] for [x] a number or [undefined] ([None]):
    [undefined] is not of type Number, so the answer is [false]. *)
Definition Number_isNaN (x : option jsnum) : bool :=
  match x with
  | Some JNaN => true
  | _ => false
  end.

(** ToNumber of a number or [undefined]: [undefined] becomes NaN. *)
Definition toNumber (x : option jsnum) : jsnum :=
  match x with
  | Some n => n
  | None => JNaN
  end.

(** Truthiness of a nullable string: [null], [undefined] and the empty
    string are falsy. *)
Definition truthy_str (s : option string) : bool :=
  match s with
  | None | Some EmptyString => false
  | Some _ => true
  end.

(** Truthiness of a nullable integer: [null] and [0] are falsy. *)
Definition truthy_int (n : option Z) : bool :=
  match n with
  | None | Some 0 => false
  | Some _ => true
  end.

(** Truthiness of a nullable object (a [Date]): only [null] is falsy. *)
Definition truthy_obj {A} (o : option A) : bool :=
  match o with
  | None => false
  | Some _ => true
  end.

(** [s.split(":")] *)
Fixpoint split_colon (s : string) : list string :=
  match s with
  | EmptyString => [EmptyString]
  | String c r =>
      if Ascii.eqb c ":"%char then EmptyString :: split_colon r
      else match split_colon r with
           | h :: t => String c h :: t
           | [] => [String c EmptyString]
           end
  end.

(** *** Dates (ECMAScript time values) *)

Definition msPerMinute : Z := 60000.
Definition msPerHour : Z := 3600000.
Definition msPerDay : Z := 86400000.

(** [d.getUTCDay()]: 0 = Sunday .. 6 = Saturday; the epoch was a Thursday. *)
Definition getUTCDay (t : Z) : Z := (t / msPerDay + 4) mod 7.
(** [d.getUTCHours()] *)
Definition getUTCHours (t : Z) : Z := (t / msPerHour) mod 24.
(** [d.getUTCMinutes()] *)
Definition getUTCMinutes (t : Z) : Z := (t / msPerMinute) mod 60.

(** The object [new Date(v)] builds from a request field [v]: "Invalid
    Date" (its [getTime()] is NaN) or a date with a time value. *)
Inductive Date : Type :=
| InvalidDate
| TimeValue (t : Z).

(** [new Date(x).getTime()] for a number [x]: TimeClip turns a value out
    of range into NaN ([None]). *)
Definition timeClip (x : Z) : option Z :=
  if Z.abs x <=? 8640000000000000 then Some x else None.

(** The decimal digits of a string, most significant first. *)
Fixpoint digits_value (acc : Z) (s : string) : option Z :=
  match s with
  | EmptyString => Some acc
  | String c r =>
      let n := Z.of_nat (nat_of_ascii c) in
      if (48 <=? n) && (n <=? 57) then digits_value (acc * 10 + (n - 48)) r
      else None
  end.

(** An instance of the builtin [Number] on strings, used to run examples:
    it agrees with ECMAScript on strings of decimal digits (the empty
    string is 0) and answers NaN elsewhere. *)
Definition Number_digits (s : string) : jsnum :=
  match digits_value 0 s with
  | Some z => ofZ z
  | None => JNaN
  end.

End JS.

(** ** The store: the tables of the Prisma schema the controller touches *)

Inductive AppointmentStatus : Type :=
| PENDING | CONFIRMED | CANCELLED | COMPLETED | NO_SHOW | RESCHEDULED.

Inductive AvailabilityType : Type :=
| RECURRING | ONE_OFF.

#[global] Instance AppointmentStatus_eq_dec : EqDecision AppointmentStatus.
Proof. solve_decision. Defined.

#[global] Instance AvailabilityType_eq_dec : EqDecision AvailabilityType.
Proof. solve_decision. Defined.

Record Service : Type := mkService {
  svc_id : string;
  svc_tenantId : string;
  svc_title : string;
  svc_duration : Z;          (* minutes *)
  svc_price : Q;
  svc_currency : string;
  svc_active : bool;
  svc_deletedAt : option Z
}.

Record Staff : Type := mkStaff {
  stf_id : string;
  stf_tenantId : string;
  stf_deletedAt : option Z
}.

Record User : Type := mkUser {
  usr_id : string;
  usr_deletedAt : option Z
}.

(** Membership of a user in a tenant (table [TenantUser]). *)
Record TenantUser : Type := mkTenantUser {
  tu_tenantId : string;
  tu_userId : string
}.

Record StaffService : Type := mkStaffService {
  ss_staffId : string;
  ss_serviceId : string
}.

Record Availability : Type := mkAvailability {
  av_id : string;
  av_tenantId : string;
  av_staffId : string;
  av_type : AvailabilityType;
  av_dayOfWeek : option Z;
  av_startTime : option string;
  av_endTime : option string;
  av_startDate : option Z;
  av_endDate : option Z;
  av_deletedAt : option Z
}.

Record TimeOff : Type := mkTimeOff {
  to_id : string;
  to_tenantId : string;
  to_staffId : string;
  to_start : Z;
  to_end : Z;
  to_reason : option string
}.

Record Appointment : Type := mkAppointment {
  ap_id : string;
  ap_tenantId : string;
  ap_serviceId : string;
  ap_staffId : string;
  ap_clientId : string;
  ap_start : Z;
  ap_end : Z;
  ap_status : AppointmentStatus;
  ap_price : Q;
  ap_currency : string;
  ap_notes : option string;
  ap_updatedAt : Z;
  ap_canceledAt : option Z
}.

Record Notification : Type := mkNotification {
  nt_tenantId : string;
  nt_userId : option string;
  nt_type : string;
  nt_channel : string;
  nt_appointmentId : string;   (* payload.appointmentId *)
  nt_start : Z;                (* payload.start *)
  nt_serviceId : string;       (* payload.service.id *)
  nt_serviceTitle : string;    (* payload.service.title *)
  nt_status : string
}.

Record Db : Type := mkDb {
  services : list Service;
  staff : list Staff;
  users : list User;
  tenantUsers : list TenantUser;
  staffServices : list StaffService;
  availabilities : list Availability;
  timeOffs : list TimeOff;
  appointments : list Appointment;
  notifications : list Notification
}.

Definition set_appointments (l : list Appointment) (db : Db) : Db :=
  mkDb (services db) (staff db) (users db) (tenantUsers db) (staffServices db)
       (availabilities db) (timeOffs db) l (notifications db).

Definition set_notifications (l : list Notification) (db : Db) : Db :=
  mkDb (services db) (staff db) (users db) (tenantUsers db) (staffServices db)
       (availabilities db) (timeOffs db) (appointments db) l.

(** ** Errors and outcomes *)

(** What a handler throws: an [ApiError] with its HTTP status and message,
    or an error raised by the Prisma client. *)
Inductive Error : Type :=
| ApiError (statusCode : Z) (message : string)
| PrismaError (code : string).

Inductive outcome (A : Type) : Type :=
| Ok (a : A)
| Throw (e : Error).

Arguments Ok {A} a.
Arguments Throw {A} e.

Definition bind {A B} (c : outcome A) (k : A -> outcome B) : outcome B :=
  match c with
  | Ok a => k a
  | Throw e => Throw e
  end.

Declare Scope outcome_scope.
Delimit Scope outcome_scope with outcome.
Notation "x <- c ;; k" := (bind c (fun x => k))
  (at level 100, c at next level, right associativity) : outcome_scope.

(** [if (b) throw e;] *)
Definition throwIf (b : bool) (e : Error) : outcome unit :=
  if b then Throw e else Ok tt.

(** [const x = ...; if (!x) throw e;] for a lookup result *)
Definition orThrow {A} (o : option A) (e : Error) : outcome A :=
  match o with
  | Some a => Ok a
  | None => Throw e
  end.

(** [new ApiResponse(statusCode, data, message)] *)
Record ApiResponse (A : Type) : Type := mkApiResponse {
  rs_statusCode : Z;
  rs_data : A;
  rs_message : string
}.

Arguments mkApiResponse {A} _ _ _.
Arguments rs_statusCode {A} _.
Arguments rs_data {A} _.
Arguments rs_message {A} _.

(** ** Requests *)

(** [req.user], as the authentication middleware builds it from the token. *)
Record ReqUser : Type := mkReqUser {
  u_role : option string;
  u_tenantRole : option string
}.

(** A request: [req.tenantId], [req.user], [req.params.id], [req.body]. *)
Record Request (B : Type) : Type := mkRequest {
  req_tenantId : string;
  req_user : option ReqUser;
  req_id : string;
  req_body : B
}.

Arguments mkRequest {B} _ _ _ _.
Arguments req_tenantId {B} _.
Arguments req_user {B} _.
Arguments req_id {B} _.
Arguments req_body {B} _.

(** What the environment supplies during one request: the clock read by
    [new Date()] and the identifier the database gives a new row. *)
Record Env : Type := mkEnv {
  now : Z;
  freshId : string
}.

(** Body of [createAppointment].  A date field holds the [Date] that
    [new Date(field)] builds, or [None] when the field is falsy. *)
Record CreateBody : Type := mkCreateBody {
  cb_serviceId : option string;
  cb_staffId : option string;
  cb_clientId : option string;
  cb_start : option JS.Date;
  cb_end : option JS.Date;
  cb_notes : option string
}.

(** Body of [updateAppointment].  The status is a member of the enum
    [AppointmentStatus]: the Prisma client refuses any other string before
    it touches the store. *)
Record UpdateBody : Type := mkUpdateBody {
  ub_status : option AppointmentStatus;
  ub_start : option JS.Date;
  ub_end : option JS.Date;
  ub_notes : option string
}.

(** ** The appointment controller *)

Section Controller.

(** The builtin [Number] applied to a string (ECMAScript StringToNumber). *)
Variable Number : string -> JS.jsnum.

Local Open Scope outcome_scope.

(** [hhmmToMinutes(hhmm)]: [None] is the [null] it returns; the number it
    returns otherwise may be NaN (one piece only, as in ["9"], leaves [m]
    undefined, which [Number.isNaN] does not report). *)
Definition hhmmToMinutes (hhmm : option string) : option JS.jsnum :=
  match hhmm with
  | None | Some EmptyString => None
  | Some s =>
      let parts := List.map Number (JS.split_colon s) in
      let h := List.nth_error parts 0 in
      let m := List.nth_error parts 1 in
      if JS.Number_isNaN h || JS.Number_isNaN m then None
      else Some (JS.add (JS.mul (JS.toNumber h) (JS.ofZ 60)) (JS.toNumber m))
  end.

(** [isWithinRecurringAvailability(av, startDate, endDate)] *)
Definition isWithinRecurringAvailability
    (av : Availability) (startDate endDate : Z) : bool :=
  if negb (JS.truthy_int (av_dayOfWeek av))
     || negb (JS.truthy_str (av_startTime av))
     || negb (JS.truthy_str (av_endTime av))
  then false
  else
    let startDow := JS.getUTCDay startDate in
    let avDow := av_dayOfWeek av in
    if negb (bool_decide (Some startDow = avDow)) then false
    else
      let apptStartMinutes :=
        JS.getUTCHours startDate * 60 + JS.getUTCMinutes startDate in
      let apptEndMinutes :=
        JS.getUTCHours endDate * 60 + JS.getUTCMinutes endDate in
      match hhmmToMinutes (av_startTime av), hhmmToMinutes (av_endTime av) with
      | Some avStart, Some avEnd =>
          JS.ge (JS.ofZ apptStartMinutes) avStart
          && JS.le (JS.ofZ apptEndMinutes) avEnd
      | _, _ => false
      end.

(** [isWithinOneOffAvailability(av, startDate, endDate)] *)
Definition isWithinOneOffAvailability
    (av : Availability) (startDate endDate : Z) : bool :=
  match av_startDate av, av_endDate av with
  | Some avStart, Some avEnd =>
      (startDate >=? avStart) && (endDate <=? avEnd)
  | _, _ => false
  end.

(** The callback of [availabilities.some(...)]. *)
Definition availabilityCovers
    (startDate endDate : Z) (av : Availability) : bool :=
  match av_type av with
  | ONE_OFF => isWithinOneOffAvailability av startDate endDate
  | RECURRING => isWithinRecurringAvailability av startDate endDate
  end.

(** [where: { staffId, tenantId, deletedAt: null }] on [availability] *)
Definition availabilityWhere
    (tenantId staffId : string) (av : Availability) : bool :=
  String.eqb (av_staffId av) staffId
  && String.eqb (av_tenantId av) tenantId
  && negb (JS.truthy_obj (av_deletedAt av)).

(** [where: { staffId, tenantId, OR: [{ start: { lte: endDate },
    end: { gte: startDate } }] }] on [timeOff] *)
Definition timeOffWhere
    (tenantId staffId : string) (startDate endDate : Z) (tf : TimeOff) : bool :=
  String.eqb (to_staffId tf) staffId
  && String.eqb (to_tenantId tf) tenantId
  && ((to_start tf <=? endDate) && (to_end tf >=? startDate)).

(** [tf.reason || "Time off"] *)
Definition timeOffReason (tf : TimeOff) : string :=
  match to_reason tf with
  | None | Some EmptyString => "Time off"
  | Some r => r
  end.

Definition timeOffError (tf : TimeOff) : Error :=
  ApiError 409
    ("Staff is on time off (" +:+ timeOffReason tf +:+ ") during requested time").

Definition outsideAvailabilityError : Error :=
  ApiError 409 "Requested time is outside staff availability".

(** [validateStaffAvailabilityAndTimeOff(tenantId, staffId, startDate,
    endDate)]: returns, or throws an [ApiError]. *)
Definition validateStaffAvailabilityAndTimeOff
    (db : Db) (tenantId staffId : string) (startDate endDate : Z)
    : outcome unit :=
  let avs := List.filter (availabilityWhere tenantId staffId) (availabilities db) in
  let offs :=
    List.filter (timeOffWhere tenantId staffId startDate endDate) (timeOffs db) in
  match offs with
  | tf :: _ => Throw (timeOffError tf)
  | [] =>
      match avs with
      | [] => Ok tt
      | _ :: _ =>
          let ok := List.existsb (availabilityCovers startDate endDate) avs in
          if negb ok then Throw outsideAvailabilityError else Ok tt
      end
  end.

(** [allowed.includes(x)] for a possibly undefined [x] *)
Definition includes (allowed : list string) (x : option string) : bool :=
  match x with
  | Some s => List.existsb (String.eqb s) allowed
  | None => false
  end.

(** [requireTenantRole(user, roles)] *)
Definition requireTenantRole
    (user : option ReqUser) (roles : list string) : outcome unit :=
  let allowed := roles in
  throwIf (negb (includes allowed (user ≫= u_role))
           && negb (includes allowed (user ≫= u_tenantRole)))
          (ApiError 403 "Forbidden – insufficient permissions").

(** A required string field: [if (!x) throw e]. *)
Definition required_str (x : option string) (e : Error) : outcome string :=
  match x with
  | None | Some EmptyString => Throw e
  | Some s => Ok s
  end.

(** *** Conflict queries *)

(** [status: { in: ["PENDING", "CONFIRMED"] }] *)
Definition activeStatus (st : AppointmentStatus) : bool :=
  bool_decide (st = PENDING) || bool_decide (st = CONFIRMED).

(** [OR: [{ start: { lt: endDate }, end: { gt: startDate } }]] *)
Definition overlapWhere (startDate endDate : Z) (a : Appointment) : bool :=
  (ap_start a <? endDate) && (ap_end a >? startDate).

(** [id: { not: id }], present in the queries of [updateAppointment] only *)
Definition notId (exclude : option string) (a : Appointment) : bool :=
  match exclude with
  | Some id => negb (String.eqb (ap_id a) id)
  | None => true
  end.

(** The [where] of the staff double-booking query. *)
Definition staffConflictWhere
    (tenantId staffId : string) (exclude : option string)
    (startDate endDate : Z) (a : Appointment) : bool :=
  String.eqb (ap_tenantId a) tenantId
  && String.eqb (ap_staffId a) staffId
  && notId exclude a
  && activeStatus (ap_status a)
  && overlapWhere startDate endDate a.

(** The [where] of the client double-booking query. *)
Definition clientConflictWhere
    (tenantId clientId : string) (exclude : option string)
    (startDate endDate : Z) (a : Appointment) : bool :=
  String.eqb (ap_tenantId a) tenantId
  && String.eqb (ap_clientId a) clientId
  && notId exclude a
  && activeStatus (ap_status a)
  && overlapWhere startDate endDate a.

(** *** createAppointment *)

Definition missingFieldsError : Error :=
  ApiError 400 "Missing required fields: serviceId, staffId, clientId, start, end".

(** [where: { id: serviceId, tenantId: req.tenantId, active: true,
    deletedAt: null }] *)
Definition serviceWhere (tenantId serviceId : string) (s : Service) : bool :=
  String.eqb (svc_id s) serviceId
  && String.eqb (svc_tenantId s) tenantId
  && svc_active s
  && negb (JS.truthy_obj (svc_deletedAt s)).

(** [where: { id: staffId, tenantId: req.tenantId, deletedAt: null }] *)
Definition staffWhere (tenantId staffId : string) (s : Staff) : bool :=
  String.eqb (stf_id s) staffId
  && String.eqb (stf_tenantId s) tenantId
  && negb (JS.truthy_obj (stf_deletedAt s)).

(** [where: { id: clientId, deletedAt: null }] on [user] *)
Definition clientWhere (clientId : string) (u : User) : bool :=
  String.eqb (usr_id u) clientId
  && negb (JS.truthy_obj (usr_deletedAt u)).

(** [where: { staffId_serviceId: { staffId, serviceId } }] *)
Definition assignedWhere (staffId serviceId : string) (l : StaffService) : bool :=
  String.eqb (ss_staffId l) staffId && String.eqb (ss_serviceId l) serviceId.

(** [expectedEnd.getTime() !== endDate.getTime()], with
    [expectedEnd = new Date(startDate.getTime() + service.duration * 60000)] *)
Definition durationMismatch (service : Service) (startDate endDate : Z) : bool :=
  let expectedEnd := JS.timeClip (startDate + svc_duration service * 60000) in
  negb (bool_decide (expectedEnd = Some endDate)).

(** What the first part of [createAppointment] establishes: the fields of
    the body, the two dates and the service found. *)
Record Resolved : Type := mkResolved {
  r_serviceId : string;
  r_staffId : string;
  r_clientId : string;
  r_startDate : Z;
  r_endDate : Z;
  r_service : Service
}.

(** [createAppointment], from the start to the staff-assignment check. *)
Definition createAppointment_resolve
    (env : Env) (req : Request CreateBody) (db : Db) : outcome Resolved :=
  let body := req_body req in
  serviceId <- required_str (cb_serviceId body) missingFieldsError ;;
  staffId <- required_str (cb_staffId body) missingFieldsError ;;
  clientId <- required_str (cb_clientId body) missingFieldsError ;;
  start <- orThrow (cb_start body) missingFieldsError ;;
  end_ <- orThrow (cb_end body) missingFieldsError ;;
  match start, end_ with
  | JS.TimeValue startDate, JS.TimeValue endDate =>
      _ <- throwIf (endDate <=? startDate)
             (ApiError 400 "end must be after start") ;;
      _ <- throwIf (startDate <? now env)
             (ApiError 400 "Cannot create appointments in the past") ;;
      let service :=
        List.find (serviceWhere (req_tenantId req) serviceId) (services db) in
      let staff_ :=
        List.find (staffWhere (req_tenantId req) staffId) (staff db) in
      let client := List.find (clientWhere clientId) (users db) in
      service <- orThrow service (ApiError 404 "Service not found") ;;
      _ <- orThrow staff_ (ApiError 404 "Staff not found") ;;
      _ <- orThrow client (ApiError 404 "Client not found") ;;
      let assigned :=
        List.find (assignedWhere staffId serviceId) (staffServices db) in
      _ <- orThrow assigned
             (ApiError 400 "Selected staff does not provide this service") ;;
      Ok (mkResolved serviceId staffId clientId startDate endDate service)
  | _, _ => Throw (ApiError 400 "Invalid start or end date")
  end.

(** [notes || null] *)
Definition notesOrNull (notes : option string) : option string :=
  match notes with
  | None | Some EmptyString => None
  | Some n => Some n
  end.

(** The row [tx.appointment.create] inserts. *)
Definition newAppointment
    (env : Env) (tenantId : string) (r : Resolved) (notes : option string)
    : Appointment :=
  mkAppointment (freshId env) tenantId (r_serviceId r) (r_staffId r)
    (r_clientId r) (r_startDate r) (r_endDate r) PENDING
    (svc_price (r_service r)) (svc_currency (r_service r))
    (notesOrNull notes) (now env) None.

(** The row [tx.notification.create] inserts. *)
Definition newNotification
    (tenantId : string) (r : Resolved) (appt : Appointment) : Notification :=
  mkNotification tenantId (Some (r_clientId r)) "booking_created" "email"
    (ap_id appt) (ap_start appt) (svc_id (r_service r))
    (svc_title (r_service r)) "queued".

Definition durationError (service : Service) : Error :=
  ApiError 400
    ("End time must be exactly " +:+ pretty (svc_duration service)
     +:+ " minutes after start").

(** The checks of [createAppointment] that follow the lookups, up to the
    transaction. *)
Definition createAppointment_validate
    (tenantId : string) (r : Resolved) (db : Db) : outcome unit :=
  _ <- throwIf (durationMismatch (r_service r) (r_startDate r) (r_endDate r))
         (durationError (r_service r)) ;;
  _ <- validateStaffAvailabilityAndTimeOff db tenantId (r_staffId r)
         (r_startDate r) (r_endDate r) ;;
  let staffConflict :=
    List.find (staffConflictWhere tenantId (r_staffId r) None
                 (r_startDate r) (r_endDate r)) (appointments db) in
  _ <- throwIf (JS.truthy_obj staffConflict)
         (ApiError 409 "Staff already booked for this time slot") ;;
  let clientConflict :=
    List.find (clientConflictWhere tenantId (r_clientId r) None
                 (r_startDate r) (r_endDate r)) (appointments db) in
  throwIf (JS.truthy_obj clientConflict)
    (ApiError 409 "Client already has an appointment in this time slot").

(** [createAppointment]: the store after the request and what the handler
    answers.  Nothing is written before the transaction, and the
    transaction inserts the appointment and its notification together. *)
Definition createAppointment
    (env : Env) (req : Request CreateBody) (db : Db)
    : Db * outcome (ApiResponse Appointment) :=
  let checked :=
    r <- createAppointment_resolve env req db ;;
    _ <- createAppointment_validate (req_tenantId req) r db ;;
    Ok r in
  match checked with
  | Throw e => (db, Throw e)
  | Ok r =>
      let appt := newAppointment env (req_tenantId req) r (cb_notes (req_body req)) in
      let note := newNotification (req_tenantId req) r appt in
      let db' :=
        set_notifications (notifications db ++ [note])
          (set_appointments (appointments db ++ [appt]) db) in
      (db', Ok (mkApiResponse 201 appt "Appointment created successfully"))
  end.

(** *** updateAppointment *)

(** [prisma.<model>.update({ where, data })] on a unique [where]: the
    matching row is rewritten and returned; no row is Prisma's P2025. *)
Fixpoint updateUnique {A} (p : A -> bool) (f : A -> A) (l : list A)
    : option (list A * A) :=
  match l with
  | [] => None
  | x :: rest =>
      if p x then Some (f x :: rest, f x)
      else match updateUnique p f rest with
           | Some (rest', y) => Some (x :: rest', y)
           | None => None
           end
  end.

Definition rescheduleDurationError (service : Service) : Error :=
  ApiError 400
    ("Rescheduled end must be exactly " +:+ pretty (svc_duration service)
     +:+ " minutes after start").

(** The body of [if (start || end) { ... }]: the new interval, once every
    check on it has passed. *)
Definition updateAppointment_reschedule
    (env : Env) (req : Request UpdateBody) (db : Db) (appointment : Appointment)
    : outcome (Z * Z) :=
  let body := req_body req in
  _ <- throwIf (negb (JS.truthy_obj (ub_start body))
                || negb (JS.truthy_obj (ub_end body)))
         (ApiError 400 "Both start and end required for reschedule") ;;
  match ub_start body, ub_end body with
  | Some (JS.TimeValue newStart), Some (JS.TimeValue newEnd) =>
      _ <- throwIf (newEnd <=? newStart)
             (ApiError 400 "end must be after start") ;;
      _ <- throwIf (newStart <? now env)
             (ApiError 400 "Cannot reschedule to the past") ;;
      service <- orThrow
        (List.find (fun s => String.eqb (svc_id s) (ap_serviceId appointment))
           (services db))
        (ApiError 500 "Associated service not found") ;;
      _ <- throwIf (durationMismatch service newStart newEnd)
             (rescheduleDurationError service) ;;
      _ <- validateStaffAvailabilityAndTimeOff db (req_tenantId req)
             (ap_staffId appointment) newStart newEnd ;;
      let staffConflict :=
        List.find (staffConflictWhere (req_tenantId req) (ap_staffId appointment)
                     (Some (req_id req)) newStart newEnd) (appointments db) in
      _ <- throwIf (JS.truthy_obj staffConflict)
             (ApiError 409 "Staff already booked at the new time") ;;
      let clientConflict :=
        List.find (clientConflictWhere (req_tenantId req) (ap_clientId appointment)
                     (Some (req_id req)) newStart newEnd) (appointments db) in
      _ <- throwIf (JS.truthy_obj clientConflict)
             (ApiError 409 "Client already has appointment at the new time") ;;
      Ok (newStart, newEnd)
  | _, _ => Throw (ApiError 400 "Invalid start or end")
  end.

(** The [data] of the final [update]: a field set to [undefined] is left
    as it is.  Both [start] and [end] are guarded by [start]. *)
Definition updateData
    (env : Env) (body : UpdateBody) (newStart newEnd : Z) (a : Appointment)
    : Appointment :=
  mkAppointment (ap_id a) (ap_tenantId a) (ap_serviceId a) (ap_staffId a)
    (ap_clientId a)
    (if JS.truthy_obj (ub_start body) then newStart else ap_start a)
    (if JS.truthy_obj (ub_start body) then newEnd else ap_end a)
    (match ub_status body with Some st => st | None => ap_status a end)
    (ap_price a) (ap_currency a)
    (match ub_notes body with Some n => Some n | None => ap_notes a end)
    (now env) (ap_canceledAt a).

(** [updateAppointment] *)
Definition updateAppointment
    (env : Env) (req : Request UpdateBody) (db : Db)
    : Db * outcome (ApiResponse Appointment) :=
  let body := req_body req in
  let checked :=
    _ <- requireTenantRole (req_user req) ["OWNER"; "ADMIN"; "STAFF"] ;;
    appointment <- orThrow
      (List.find (fun a => String.eqb (ap_id a) (req_id req)
                           && String.eqb (ap_tenantId a) (req_tenantId req))
         (appointments db))
      (ApiError 404 "Appointment not found") ;;
    if JS.truthy_obj (ub_start body) || JS.truthy_obj (ub_end body)
    then updateAppointment_reschedule env req db appointment
    else Ok (ap_start appointment, ap_end appointment) in
  match checked with
  | Throw e => (db, Throw e)
  | Ok (newStart, newEnd) =>
      match updateUnique (fun a => String.eqb (ap_id a) (req_id req))
              (updateData env body newStart newEnd) (appointments db) with
      | Some (rows, updated) =>
          (set_appointments rows db,
           Ok (mkApiResponse 200 updated "Appointment updated successfully"))
      | None => (db, Throw (PrismaError "P2025"))
      end
  end.

(** *** cancelAppointment *)

(** [where: { id, tenantId: req.tenantId, status: { not: "CANCELLED" } }] *)
Definition cancelWhere (tenantId id : string) (a : Appointment) : bool :=
  String.eqb (ap_id a) id
  && String.eqb (ap_tenantId a) tenantId
  && negb (bool_decide (ap_status a = CANCELLED)).

(** [data: { status: "CANCELLED", canceledAt: new Date() }]; [updatedAt]
    is a column Prisma refreshes on every write. *)
Definition cancelData (env : Env) (a : Appointment) : Appointment :=
  mkAppointment (ap_id a) (ap_tenantId a) (ap_serviceId a) (ap_staffId a)
    (ap_clientId a) (ap_start a) (ap_end a) CANCELLED
    (ap_price a) (ap_currency a) (ap_notes a) (now env) (Some (now env)).

(** [prisma.<model>.updateMany({ where, data })]: the rows after the
    write and the count of rows matched. *)
Definition updateMany {A} (p : A -> bool) (f : A -> A) (l : list A)
    : list A * Z :=
  (List.map (fun x => if p x then f x else x) l,
   Z.of_nat (List.length (List.filter p l))).

(** [cancelAppointment] *)
Definition cancelAppointment
    (env : Env) (req : Request unit) (db : Db)
    : Db * outcome (ApiResponse string) :=
  let id := req_id req in
  let '(rows, count) :=
    updateMany (cancelWhere (req_tenantId req) id) (cancelData env)
      (appointments db) in
  let db' := set_appointments rows db in
  if count =? 0
  then (db', Throw (ApiError 404 "Appointment not found or already cancelled"))
  else (db', Ok (mkApiResponse 200 id "Appointment cancelled successfully")).

End Controller.

(** ** The tenant middleware ([prismaWithTenant]) *)

Module TenantGuard.

#[local] Set Warnings "-register-all".

(** A value held by a field of a Prisma argument object. *)
Inductive jsval : Type :=
| VNull
| VBool (b : bool)
| VNum (n : Z)
| VStr (s : string)
| VObj (fields : gmap string jsval)
| VArr (items : list jsval).

(** [params.args]: the [where] and [data] properties ([None] when
    undefined) and every other property ([select], [include], ...). *)
Record Args : Type := mkArgs {
  args_where : option (gmap string jsval);
  args_data : option (gmap string jsval);
  args_rest : gmap string jsval
}.

(** [params] of a Prisma middleware: the model (undefined for raw
    queries), the action, and the arguments (undefined when the call has
    none). *)
Record Params : Type := mkParams {
  model : option string;
  action : string;
  args : option Args
}.

Definition tenantModels : list string :=
  ["Appointment"; "Service"; "Staff"; "Availability"; "TimeOff";
   "StaffService"; "Payment"; "Notification"; "Subscription"; "Location"].

(** [list.includes(x)] *)
Definition includes (l : list string) (x : string) : bool :=
  List.existsb (String.eqb x) l.

(** [{ ...where, tenantId }] *)
Definition spreadTenant (where_ : option (gmap string jsval)) (tenantId : string)
    : gmap string jsval :=
  <["tenantId" := VStr tenantId]> (default ∅ where_).

(** [params.args.where = { ...params.args.where, tenantId }]; reading a
    property of an undefined [params.args] is a TypeError ([None]). *)
Definition setWhere (tenantId : string) (p : Params) : option Params :=
  a ← args p;
  Some (mkParams (model p) (action p)
          (Some (mkArgs (Some (spreadTenant (args_where a) tenantId))
                   (args_data a) (args_rest a)))).

(** [params.args.data.tenantId = tenantId]; an undefined [params.args] or
    [params.args.data] is a TypeError ([None]). *)
Definition setData (tenantId : string) (p : Params) : option Params :=
  a ← args p;
  d ← args_data a;
  Some (mkParams (model p) (action p)
          (Some (mkArgs (args_where a)
                   (Some (<["tenantId" := VStr tenantId]> d)) (args_rest a)))).

(** The callback given to [prisma.$use] by [prismaWithTenant(tenantId)]:
    the [params] handed to [next], or [None] when the callback throws. *)
Definition prismaWithTenant (tenantId : string) (params : Params)
    : option Params :=
  match model params with
  | Some m =>
      if includes tenantModels m then
        p1 ← (if includes ["findMany"; "findFirst"; "findUnique"] (action params)
              then setWhere tenantId params else Some params);
        p2 ← (if String.eqb (action p1) "create"
              then setData tenantId p1 else Some p1);
        (if includes ["update"; "delete"; "updateMany"; "deleteMany"] (action p2)
         then setWhere tenantId p2 else Some p2)
      else Some params
  | None => Some params
  end.

End TenantGuard.

(** ** The specification's predicates *)

Module Spec.

(** Strict overlap of an existing appointment with a candidate interval. *)
Definition strictOverlap (startDate endDate : Z) (a : Appointment) : Prop :=
  ap_start a < endDate /\ ap_end a > startDate.

(** An existing appointment conflicts with a candidate: same tenant, same
    subject (read by [subjectOf]), status PENDING or CONFIRMED, not the
    excluded appointment, strictly overlapping. *)
Definition conflicts
    (subjectOf : Appointment -> string) (tenantId subject : string)
    (exclude : option string) (startDate endDate : Z) (a : Appointment) : Prop :=
  ap_tenantId a = tenantId
  /\ subjectOf a = subject
  /\ (ap_status a = PENDING \/ ap_status a = CONFIRMED)
  /\ (forall id, exclude = Some id -> ap_id a <> id)
  /\ strictOverlap startDate endDate a.

(** A TimeOff record of the staff member blocks a candidate interval. *)
Definition blocks
    (tenantId staffId : string) (startDate endDate : Z) (tf : TimeOff) : Prop :=
  to_staffId tf = staffId /\ to_tenantId tf = tenantId
  /\ to_start tf <= endDate /\ to_end tf >= startDate.

(** A non-deleted Availability record of the staff member. *)
Definition availabilityOf
    (tenantId staffId : string) (av : Availability) : Prop :=
  av_staffId av = staffId /\ av_tenantId av = tenantId /\ av_deletedAt av = None.

(** A ONE_OFF record contains the interval: [startDate, endDate]
    inclusive holds both ends. *)
Definition oneOffContains (startDate endDate : Z) (av : Availability) : Prop :=
  exists a b, av_startDate av = Some a /\ av_endDate av = Some b
              /\ a <= startDate /\ endDate <= b.

(** Minutes since midnight, UTC. *)
Definition minutesOfDay (t : Z) : Z :=
  JS.getUTCHours t * 60 + JS.getUTCMinutes t.

(** A RECURRING record contains the interval: the start falls on the
    record's day of the week (UTC, 0 = Sunday .. 6 = Saturday), the end
    falls on the UTC day of the start, a window not spanning midnight, and
    the minutes since midnight of both ends lie within
    [[startTime, endTime]], the two bounds being the record's HH:MM strings
    turned into minutes and compared as numbers. *)
Definition recurringContains
    (Number : string -> JS.jsnum) (startDate endDate : Z) (av : Availability)
    : Prop :=
  exists d a b,
    av_dayOfWeek av = Some d /\ JS.getUTCDay startDate = d
    /\ startDate / JS.msPerDay = endDate / JS.msPerDay
    /\ hhmmToMinutes Number (av_startTime av) = Some a
    /\ hhmmToMinutes Number (av_endTime av) = Some b
    /\ JS.le a (JS.ofZ (minutesOfDay startDate)) = true
    /\ JS.le (JS.ofZ (minutesOfDay startDate)) b = true
    /\ JS.le a (JS.ofZ (minutesOfDay endDate)) = true
    /\ JS.le (JS.ofZ (minutesOfDay endDate)) b = true.

(** A record contains the interval: a ONE_OFF record by its dates, a
    RECURRING record by its weekly window. *)
Definition contains
    (Number : string -> JS.jsnum) (startDate endDate : Z) (av : Availability)
    : Prop :=
  (av_type av = ONE_OFF /\ oneOffContains startDate endDate av)
  \/ (av_type av = RECURRING /\ recurringContains Number startDate endDate av).

(** The error is the time-off rejection, whatever reason it quotes. *)
Definition isTimeOffError (err : Error) : Prop :=
  exists reason,
    err = ApiError 409
            ("Staff is on time off (" +:+ reason +:+ ") during requested time").

(** The appointment a cancellation request targets and can still cancel. *)
Definition cancellable (tenantId id : string) (a : Appointment) : Prop :=
  ap_id a = id /\ ap_tenantId a = tenantId /\ ap_status a <> CANCELLED.

End Spec.

(** ** A scenario: one tenant, one service of 30 minutes, one staff member
    available on Mondays from 09:00 to 12:00, and a client who belongs to
    another tenant only. *)

Module Scenario.

Definition mon_0900 : Z := 1793610000000.   (* 2026-11-02T09:00Z, a Monday *)
Definition mon_0915 : Z := 1793610900000.
Definition mon_0930 : Z := 1793611800000.
Definition mon_0945 : Z := 1793612700000.
Definition mon_1000 : Z := 1793613600000.
Definition mon_2300 : Z := 1793660400000.
Definition tue_0030 : Z := 1793665800000.   (* 2026-11-03T00:30Z *)
Definition sun_1000 : Z := 1793527200000.   (* 2026-11-01T10:00Z, a Sunday *)
Definition sun_1030 : Z := 1793529000000.

Definition env0 : Env := mkEnv sun_1000 "a1".
Definition env1 : Env := mkEnv sun_1030 "a2".

Definition svc30 : Service :=
  mkService "svc" "t1" "Haircut" 30 50 "USD" true None.
Definition svc90 : Service :=
  mkService "svc90" "t1" "Colour" 90 120 "USD" true None.

Definition monday : Availability :=
  mkAvailability "av1" "t1" "s1" RECURRING (Some 1) (Some "09:00")
    (Some "12:00") None None None.
Definition mondayLate : Availability :=
  mkAvailability "av2" "t1" "s2" RECURRING (Some 1) (Some "09:00")
    (Some "23:30") None None None.
Definition sunday : Availability :=
  mkAvailability "av3" "t1" "s3" RECURRING (Some 0) (Some "09:00")
    (Some "12:00") None None None.

Definition off : TimeOff :=
  mkTimeOff "off1" "t1" "s1" mon_0900 mon_1000 (Some "Vacation").

Definition db0 : Db :=
  mkDb [svc30; svc90]
       [mkStaff "s1" "t1" None; mkStaff "s2" "t1" None; mkStaff "s3" "t1" None]
       [mkUser "c1" None; mkUser "c2" None]
       [mkTenantUser "t2" "c1"]
       [mkStaffService "s1" "svc"; mkStaffService "s2" "svc90";
        mkStaffService "s3" "svc"]
       [monday; mondayLate; sunday]
       []
       []
       [].

Definition dbOff : Db :=
  mkDb (services db0) (staff db0) (users db0) (tenantUsers db0)
       (staffServices db0) (availabilities db0) [off] [] [].

Definition owner : option ReqUser := Some (mkReqUser (Some "OWNER") None).

Definition book (staffId clientId : string) (s e : Z) : Request CreateBody :=
  mkRequest "t1" owner ""
    (mkCreateBody (Some "svc") (Some staffId) (Some clientId)
       (Some (JS.TimeValue s)) (Some (JS.TimeValue e)) None).

(** The store after the first booking of the scenario. *)
Definition db1 : Db :=
  fst (createAppointment JS.Number_digits env0
         (book "s1" "c1" mon_0900 mon_0930) db0).

(** The appointment that booking creates. *)
Definition appt1 : Appointment :=
  mkAppointment "a1" "t1" "svc" "s1" "c1" mon_0900 mon_0930 PENDING 50 "USD"
    None sun_1000 None.

Definition reschedule (id : string) (s e : Z) : Request UpdateBody :=
  mkRequest "t1" owner id
    (mkUpdateBody None (Some (JS.TimeValue s)) (Some (JS.TimeValue e)) None).

Definition setStatus (id : string) (st : AppointmentStatus) : Request UpdateBody :=
  mkRequest "t1" owner id (mkUpdateBody (Some st) None None None).

Definition cancel (tenantId id : string) : Request unit :=
  mkRequest tenantId owner id tt.

End Scenario.

(** ** The rest of the appointment controller *)

(** [getAppointment]: a read fenced by [req.tenantId].  The relations that
    [include] joins to the row are left out of the answer. *)
Definition getAppointment (req : Request unit) (db : Db)
    : outcome (ApiResponse Appointment) :=
  match List.find (fun a => String.eqb (ap_id a) (req_id req)
                            && String.eqb (ap_tenantId a) (req_tenantId req))
          (appointments db) with
  | Some appointment =>
      Ok (mkApiResponse 200 appointment "Appointment fetched successfully")
  | None => Throw (ApiError 404 "Appointment not found")
  end.

(** ** The service controller ([service.controller.js])

    A [Service] row of the store carries the columns the appointment
    controller reads; the [description] a service handler writes is a column
    the store does not carry.  A [duration] of a body is an integer and a
    [price] a rational, or absent. *)

Definition set_services (l : list Service) (db : Db) : Db :=
  mkDb l (staff db) (users db) (tenantUsers db) (staffServices db)
       (availabilities db) (timeOffs db) (appointments db) (notifications db).

Definition set_staff (l : list Staff) (db : Db) : Db :=
  mkDb (services db) l (users db) (tenantUsers db) (staffServices db)
       (availabilities db) (timeOffs db) (appointments db) (notifications db).

Definition set_staffServices (l : list StaffService) (db : Db) : Db :=
  mkDb (services db) (staff db) (users db) (tenantUsers db) l
       (availabilities db) (timeOffs db) (appointments db) (notifications db).

Record CreateServiceBody : Type := mkCreateServiceBody {
  csb_title : option string;
  csb_description : option string;
  csb_duration : option Z;
  csb_price : option Q;
  csb_currency : option string
}.

Record UpdateServiceBody : Type := mkUpdateServiceBody {
  usb_title : option string;
  usb_description : option string;
  usb_duration : option Z;
  usb_price : option Q;
  usb_currency : option string;
  usb_active : option bool
}.

Record AssignStaffBody : Type := mkAssignStaffBody {
  asb_staffId : option string
}.

Record AssignServiceBody : Type := mkAssignServiceBody {
  avb_serviceId : option string
}.

(** Truthiness of a possibly absent price: [undefined] and 0 are falsy. *)
Definition truthy_price (p : option Q) : bool :=
  match p with
  | None => false
  | Some q => negb (JS.Qis_zero q)
  end.

(** [x || y] on strings that may be absent *)
Definition orElse (x y : option string) : option string :=
  if JS.truthy_str x then x else y.

(** [where: { id, tenantId: req.tenantId, deletedAt: null }] on [service] *)
Definition liveServiceWhere (tenantId id : string) (s : Service) : bool :=
  String.eqb (svc_id s) id
  && String.eqb (svc_tenantId s) tenantId
  && negb (JS.truthy_obj (svc_deletedAt s)).

(** [duration] is an [Int] of the schema, an INTEGER column of 32 bits: the
    client refuses to write a number that does not fit, with its error
    P2020 (value out of range), and no row is written. *)
Definition int4Max : Z := 2147483647.

Definition fitsInt4 (n : Z) : bool := (- int4Max - 1 <=? n) && (n <=? int4Max).

Definition outOfRange : Error := PrismaError "P2020".

Section ServiceController.

(** The builtin [String.prototype.trim]. *)
Variable trim : string -> string.

Local Open Scope outcome_scope.

(** [createService].  [currentTenantCurrency] is [req.currentTenant?.currency].
    The tenant of the request is taken to be a row of the Tenant table,
    which the store leaves out: the foreign key of the new row holds. *)
Definition createService
    (env : Env) (currentTenantCurrency : option string)
    (req : Request CreateServiceBody) (db : Db)
    : Db * outcome (ApiResponse Service) :=
  let body := req_body req in
  let checked :=
    _ <- requireTenantRole (req_user req) ["OWNER"; "ADMIN"] ;;
    _ <- throwIf (negb (JS.truthy_str (csb_title body))
                  || negb (JS.truthy_int (csb_duration body))
                  || negb (truthy_price (csb_price body)))
           (ApiError 400 "Missing required fields: title, duration, price") ;;
    match csb_title body, csb_duration body, csb_price body with
    | Some title, Some duration, Some price =>
        _ <- throwIf (duration <=? 0) (ApiError 400 "Duration must be positive") ;;
        _ <- throwIf (negb (Qle_bool 0 price)) (ApiError 400 "Price must be >= 0") ;;
        _ <- throwIf (negb (fitsInt4 duration)) outOfRange ;;
        Ok (mkService (freshId env) (req_tenantId req) (trim title) duration price
              (default "USD"
                 (orElse (orElse (csb_currency body) currentTenantCurrency)
                    (Some "USD")))
              true None)
    | _, _, _ => Throw (ApiError 400 "Missing required fields: title, duration, price")
    end in
  match checked with
  | Throw e => (db, Throw e)
  | Ok service =>
      (set_services (services db ++ [service]) db,
       Ok (mkApiResponse 201 service "Service created successfully"))
  end.

End ServiceController.

(** [getService] *)
Definition getService (req : Request unit) (db : Db)
    : outcome (ApiResponse Service) :=
  match List.find (liveServiceWhere (req_tenantId req) (req_id req)) (services db) with
  | Some service => Ok (mkApiResponse 200 service "Service fetched successfully")
  | None => Throw (ApiError 404 "Service not found")
  end.

(** The [data] of [updateService]: a field that is [undefined] is left as
    it is. *)
Definition updateServiceData (body : UpdateServiceBody) (s : Service) : Service :=
  mkService (svc_id s) (svc_tenantId s)
    (default (svc_title s) (usb_title body))
    (default (svc_duration s) (usb_duration body))
    (default (svc_price s) (usb_price body))
    (default (svc_currency s) (usb_currency body))
    (default (svc_active s) (usb_active body))
    (svc_deletedAt s).

(** [updateService] *)
Definition updateService (req : Request UpdateServiceBody) (db : Db)
    : Db * outcome (ApiResponse (option Service)) :=
  let body := req_body req in
  let id := req_id req in
  let checked :=
    (_ <- requireTenantRole (req_user req) ["OWNER"; "ADMIN"] ;;
     _ <- throwIf (match usb_duration body with
                   | Some duration => duration <=? 0
                   | None => false
                   end)
            (ApiError 400 "Duration must be positive") ;;
     _ <- throwIf (match usb_price body with
                   | Some price => negb (Qle_bool 0 price)
                   | None => false
                   end)
            (ApiError 400 "Price must be >= 0") ;;
     throwIf (match usb_duration body with
              | Some duration => negb (fitsInt4 duration)
              | None => false
              end)
       outOfRange)%outcome in
  match checked with
  | Throw e => (db, Throw e)
  | Ok _ =>
      let '(rows, count) :=
        updateMany (liveServiceWhere (req_tenantId req) id) (updateServiceData body)
          (services db) in
      let db' := set_services rows db in
      if count =? 0 then (db', Throw (ApiError 404 "Service not found"))
      else
        let service :=
          List.find (fun s => String.eqb (svc_id s) id
                              && String.eqb (svc_tenantId s) (req_tenantId req))
            rows in
        (db', Ok (mkApiResponse 200 service "Service updated successfully"))
  end.

(** [data: { deletedAt: new Date(), active: false }] *)
Definition deleteServiceData (env : Env) (s : Service) : Service :=
  mkService (svc_id s) (svc_tenantId s) (svc_title s) (svc_duration s)
    (svc_price s) (svc_currency s) false (Some (now env)).

(** [deleteService]: a soft delete. *)
Definition deleteService (env : Env) (req : Request unit) (db : Db)
    : Db * outcome (ApiResponse string) :=
  match requireTenantRole (req_user req) ["OWNER"; "ADMIN"] with
  | Throw e => (db, Throw e)
  | Ok _ =>
      let id := req_id req in
      let '(rows, count) :=
        updateMany (liveServiceWhere (req_tenantId req) id) (deleteServiceData env)
          (services db) in
      let db' := set_services rows db in
      if count =? 0
      then (db', Throw (ApiError 404 "Service not found or already deleted"))
      else (db', Ok (mkApiResponse 200 id "Service deleted successfully"))
  end.

(** [prisma.staffService.create({ data: { serviceId, staffId } })]: the
    pair is the primary key, and a second row with it is Prisma's P2002. *)
Definition createStaffService (staffId serviceId : string) (l : list StaffService)
    : outcome (list StaffService * StaffService) :=
  if List.existsb (assignedWhere staffId serviceId) l
  then Throw (PrismaError "P2002")
  else Ok (l ++ [mkStaffService staffId serviceId], mkStaffService staffId serviceId).

(** [try { ... } catch (err) { if (err.code === "P2002") throw new
    ApiError(409, message); throw err; }] *)
Definition catchP2002 {A} (c : outcome A) (message : string) : outcome A :=
  match c with
  | Throw (PrismaError "P2002") => Throw (ApiError 409 message)
  | other => other
  end.

(** [assignStaff]: [req.params.id] is the service, the body names the staff. *)
Definition assignStaff (req : Request AssignStaffBody) (db : Db)
    : Db * outcome (ApiResponse StaffService) :=
  let id := req_id req in
  let checked :=
    (_ <- requireTenantRole (req_user req) ["OWNER"; "ADMIN"] ;;
     staffId <- required_str (asb_staffId (req_body req))
                  (ApiError 400 "staffId is required") ;;
     _ <- orThrow (List.find (liveServiceWhere (req_tenantId req) id) (services db))
            (ApiError 404 "Service not found") ;;
     _ <- orThrow (List.find (staffWhere (req_tenantId req) staffId) (staff db))
            (ApiError 404 "Staff not found") ;;
     catchP2002 (createStaffService staffId id (staffServices db))
       "Staff already assigned to this service")%outcome in
  match checked with
  | Throw e => (db, Throw e)
  | Ok (rows, relation) =>
      (set_staffServices rows db,
       Ok (mkApiResponse 200 relation "Staff assigned to service successfully"))
  end.

(** ** The staff controller ([staff.controller.js]) *)

(** [getStaff] *)
Definition getStaff (req : Request unit) (db : Db) : outcome (ApiResponse Staff) :=
  match List.find (staffWhere (req_tenantId req) (req_id req)) (staff db) with
  | Some st => Ok (mkApiResponse 200 st "Staff fetched successfully")
  | None => Throw (ApiError 404 "Staff not found")
  end.

(** [data: { deletedAt: new Date() }] *)
Definition deleteStaffData (env : Env) (s : Staff) : Staff :=
  mkStaff (stf_id s) (stf_tenantId s) (Some (now env)).

(** [deleteStaff]: a soft delete. *)
Definition deleteStaff (env : Env) (req : Request unit) (db : Db)
    : Db * outcome (ApiResponse string) :=
  match requireTenantRole (req_user req) ["OWNER"; "ADMIN"] with
  | Throw e => (db, Throw e)
  | Ok _ =>
      let id := req_id req in
      let '(rows, count) :=
        updateMany (staffWhere (req_tenantId req) id) (deleteStaffData env)
          (staff db) in
      let db' := set_staff rows db in
      if count =? 0
      then (db', Throw (ApiError 404 "Staff not found or already deleted"))
      else (db', Ok (mkApiResponse 200 id "Staff deleted successfully"))
  end.

(** [assignService]: [req.params.id] is the staff, the body names the
    service. *)
Definition assignService (req : Request AssignServiceBody) (db : Db)
    : Db * outcome (ApiResponse StaffService) :=
  let id := req_id req in
  let checked :=
    (_ <- requireTenantRole (req_user req) ["OWNER"; "ADMIN"] ;;
     serviceId <- required_str (avb_serviceId (req_body req))
                    (ApiError 400 "serviceId is required") ;;
     _ <- orThrow (List.find (staffWhere (req_tenantId req) id) (staff db))
            (ApiError 404 "Staff not found") ;;
     _ <- orThrow (List.find (liveServiceWhere (req_tenantId req) serviceId)
                     (services db))
            (ApiError 404 "Service not found") ;;
     catchP2002 (createStaffService id serviceId (staffServices db))
       "Service already assigned to this staff")%outcome in
  match checked with
  | Throw e => (db, Throw e)
  | Ok (rows, relation) =>
      (set_staffServices rows db,
       Ok (mkApiResponse 200 relation "Service assigned to staff successfully"))
  end.

(** [prisma.<model>.deleteMany({ where })]: the rows left and the count of
    rows deleted. *)
Definition deleteMany {A} (p : A -> bool) (l : list A) : list A * Z :=
  (List.filter (fun x => negb (p x)) l, Z.of_nat (List.length (List.filter p l))).

(** [unassignService]: the answer names the pair ([{ staffId, serviceId }]). *)
Definition unassignService (req : Request AssignServiceBody) (db : Db)
    : Db * outcome (ApiResponse (string * string)) :=
  let id := req_id req in
  let checked :=
    (_ <- requireTenantRole (req_user req) ["OWNER"; "ADMIN"] ;;
     required_str (avb_serviceId (req_body req))
       (ApiError 400 "serviceId is required"))%outcome in
  match checked with
  | Throw e => (db, Throw e)
  | Ok serviceId =>
      let '(rows, count) :=
        deleteMany (assignedWhere id serviceId) (staffServices db) in
      let db' := set_staffServices rows db in
      if count =? 0
      then (db', Throw (ApiError 404 "Service not assigned to this staff"))
      else (db', Ok (mkApiResponse 200 (id, serviceId)
                       "Service unassigned from staff successfully"))
  end.

(** ** The shared Prisma client and its middlewares

    [prismaWithTenant(tenantId)] calls [prisma.$use] on the one client of
    the process and returns that client.  The client is the list of the
    tenants of the middlewares registered on it, in the order of
    registration; a query runs through them in that order, each handing its
    [params] to the next. *)

Module SharedClient.

Definition client : Type := list string.

(** [prismaWithTenant(tenantId)]: the client after the call; the handle
    returned is that same client. *)
Definition prismaWithTenant (tenantId : string) (c : client) : client :=
  c ++ [tenantId].

(** The [params] that reach the query engine, or [None] when a middleware
    throws. *)
Definition run (c : client) (params : TenantGuard.Params)
    : option TenantGuard.Params :=
  List.fold_left (fun acc tenantId => acc ≫= TenantGuard.prismaWithTenant tenantId)
    c (Some params).

End SharedClient.

(** ** Invariants of the appointments table *)

Module Invariant.

(** Two appointments that book the same staff member or the same client of
    one tenant, both PENDING or CONFIRMED, over intervals that strictly
    overlap. *)
Definition doubleBooked (a b : Appointment) : Prop :=
  ap_tenantId a = ap_tenantId b
  /\ (ap_staffId a = ap_staffId b \/ ap_clientId a = ap_clientId b)
  /\ activeStatus (ap_status a) = true
  /\ activeStatus (ap_status b) = true
  /\ ap_start a < ap_end b
  /\ ap_start b < ap_end a.

(** No two rows of the table are double-booked. *)
Definition noDoubleBooking (l : list Appointment) : Prop :=
  List.ForallOrdPairs (fun a b => ~ doubleBooked a b) l.

(** Every appointment ends after it starts. *)
Definition wellFormed (l : list Appointment) : Prop :=
  List.Forall (fun a => ap_start a < ap_end a) l.

(** Every appointment has a notification that names it. *)
Definition notified (db : Db) : Prop :=
  forall a, In a (appointments db) ->
            exists n, In n (notifications db) /\ nt_appointmentId n = ap_id a.

(** Every service lasts a positive number of minutes. *)
Definition positiveDurations (l : list Service) : Prop :=
  List.Forall (fun s => 0 < svc_duration s) l.

(** Every link joins a staff member and a service of one tenant. *)
Definition linksWithinTenant (db : Db) : Prop :=
  forall l, In l (staffServices db) ->
            exists st sv,
              In st (staff db) /\ In sv (services db)
              /\ stf_id st = ss_staffId l /\ svc_id sv = ss_serviceId l
              /\ stf_tenantId st = svc_tenantId sv.

(** The columns of an appointment that no handler rewrites. *)
Definition identity (a : Appointment)
    : string * string * string * string * string * Q * string :=
  (ap_id a, ap_tenantId a, ap_serviceId a, ap_staffId a, ap_clientId a,
   ap_price a, ap_currency a).

End Invariant.

(** ** Requests that run at the same time

    A handler gives way at each [await]: between two of its queries, and
    between its last query and its write, other requests may write.
    [createAppointment] and [updateAppointment] above are the handlers
    when nothing else writes while they run.  Here every query is given
    the store as it finds it.  The queries of a request that read
    different tables share one view, whose tables stand for what each of
    them found; the two double-booking queries, which read the table the
    request then writes, have a view each. *)

Record Views : Type := mkViews {
  (** the lookups by id and the two queries of
      [validateStaffAvailabilityAndTimeOff] *)
  atLookups : Db;
  (** the staff double-booking query *)
  atStaffConflict : Db;
  (** the client double-booking query *)
  atClientConflict : Db;
  (** the transaction of [createAppointment], the [update] of
      [updateAppointment] *)
  atWrite : Db
}.

(** Nothing else writes while the request runs. *)
Definition serial (db : Db) : Views := mkViews db db db db.

(** The checks of [createAppointment] that follow the lookups, each query
    on its view. *)
Definition createAppointment_checks
    (Number : string -> JS.jsnum) (tenantId : string) (r : Resolved) (v : Views)
    : outcome unit :=
  (_ <- throwIf (durationMismatch (r_service r) (r_startDate r) (r_endDate r))
          (durationError (r_service r)) ;;
   _ <- validateStaffAvailabilityAndTimeOff Number (atLookups v) tenantId
          (r_staffId r) (r_startDate r) (r_endDate r) ;;
   let staffConflict :=
     List.find (staffConflictWhere tenantId (r_staffId r) None
                  (r_startDate r) (r_endDate r))
       (appointments (atStaffConflict v)) in
   _ <- throwIf (JS.truthy_obj staffConflict)
          (ApiError 409 "Staff already booked for this time slot") ;;
   let clientConflict :=
     List.find (clientConflictWhere tenantId (r_clientId r) None
                  (r_startDate r) (r_endDate r))
       (appointments (atClientConflict v)) in
   throwIf (JS.truthy_obj clientConflict)
     (ApiError 409 "Client already has an appointment in this time slot"))%outcome.

(** [createAppointment] among other requests: the store the transaction
    leaves, or the store as it is for a request that is refused, and what
    the handler answers. *)
Definition createAppointment_interleaved
    (Number : string -> JS.jsnum) (env : Env) (req : Request CreateBody) (v : Views)
    : Db * outcome (ApiResponse Appointment) :=
  let checked :=
    (r <- createAppointment_resolve env req (atLookups v) ;;
     _ <- createAppointment_checks Number (req_tenantId req) r v ;;
     Ok r)%outcome in
  match checked with
  | Throw e => (atWrite v, Throw e)
  | Ok r =>
      let appt := newAppointment env (req_tenantId req) r (cb_notes (req_body req)) in
      let note := newNotification (req_tenantId req) r appt in
      let db' :=
        set_notifications (notifications (atWrite v) ++ [note])
          (set_appointments (appointments (atWrite v) ++ [appt]) (atWrite v)) in
      (db', Ok (mkApiResponse 201 appt "Appointment created successfully"))
  end.

(** The body of [if (start || end) { ... }] of [updateAppointment], each
    query on its view. *)
Definition updateAppointment_reschedule_interleaved
    (Number : string -> JS.jsnum) (env : Env) (req : Request UpdateBody) (v : Views)
    (appointment : Appointment) : outcome (Z * Z) :=
  let body := req_body req in
  (_ <- throwIf (negb (JS.truthy_obj (ub_start body))
                 || negb (JS.truthy_obj (ub_end body)))
          (ApiError 400 "Both start and end required for reschedule") ;;
   match ub_start body, ub_end body with
   | Some (JS.TimeValue newStart), Some (JS.TimeValue newEnd) =>
       _ <- throwIf (newEnd <=? newStart)
              (ApiError 400 "end must be after start") ;;
       _ <- throwIf (newStart <? now env)
              (ApiError 400 "Cannot reschedule to the past") ;;
       service <- orThrow
         (List.find (fun s => String.eqb (svc_id s) (ap_serviceId appointment))
            (services (atLookups v)))
         (ApiError 500 "Associated service not found") ;;
       _ <- throwIf (durationMismatch service newStart newEnd)
              (rescheduleDurationError service) ;;
       _ <- validateStaffAvailabilityAndTimeOff Number (atLookups v)
              (req_tenantId req) (ap_staffId appointment) newStart newEnd ;;
       let staffConflict :=
         List.find (staffConflictWhere (req_tenantId req) (ap_staffId appointment)
                      (Some (req_id req)) newStart newEnd)
           (appointments (atStaffConflict v)) in
       _ <- throwIf (JS.truthy_obj staffConflict)
              (ApiError 409 "Staff already booked at the new time") ;;
       let clientConflict :=
         List.find (clientConflictWhere (req_tenantId req) (ap_clientId appointment)
                      (Some (req_id req)) newStart newEnd)
           (appointments (atClientConflict v)) in
       _ <- throwIf (JS.truthy_obj clientConflict)
              (ApiError 409 "Client already has appointment at the new time") ;;
       Ok (newStart, newEnd)
   | _, _ => Throw (ApiError 400 "Invalid start or end")
   end)%outcome.

(** [updateAppointment] among other requests. *)
Definition updateAppointment_interleaved
    (Number : string -> JS.jsnum) (env : Env) (req : Request UpdateBody) (v : Views)
    : Db * outcome (ApiResponse Appointment) :=
  let body := req_body req in
  let checked :=
    (_ <- requireTenantRole (req_user req) ["OWNER"; "ADMIN"; "STAFF"] ;;
     appointment <- orThrow
       (List.find (fun a => String.eqb (ap_id a) (req_id req)
                            && String.eqb (ap_tenantId a) (req_tenantId req))
          (appointments (atLookups v)))
       (ApiError 404 "Appointment not found") ;;
     if JS.truthy_obj (ub_start body) || JS.truthy_obj (ub_end body)
     then updateAppointment_reschedule_interleaved Number env req v appointment
     else Ok (ap_start appointment, ap_end appointment))%outcome in
  match checked with
  | Throw e => (atWrite v, Throw e)
  | Ok (newStart, newEnd) =>
      match updateUnique (fun a => String.eqb (ap_id a) (req_id req))
              (updateData env body newStart newEnd) (appointments (atWrite v)) with
      | Some (rows, updated) =>
          (set_appointments rows (atWrite v),
           Ok (mkApiResponse 200 updated "Appointment updated successfully"))
      | None => (atWrite v, Throw (PrismaError "P2025"))
      end
  end.

(** The store a request would have met had all its queries and its write
    found one store: the tables its lookups found, under the appointments
    and notifications its write found. *)
Definition asOneStore (v : Views) : Db :=
  mkDb (services (atLookups v)) (staff (atLookups v)) (users (atLookups v))
       (tenantUsers (atLookups v)) (staffServices (atLookups v))
       (availabilities (atLookups v)) (timeOffs (atLookups v))
       (appointments (atWrite v)) (notifications (atWrite v)).

(** ** Scenario checks *)

Example scenario_booking_succeeds :
  snd (createAppointment JS.Number_digits Scenario.env0
         (Scenario.book "s1" "c1" Scenario.mon_0900 Scenario.mon_0930) Scenario.db0)
  = Ok (mkApiResponse 201
          (mkAppointment "a1" "t1" "svc" "s1" "c1" Scenario.mon_0900
             Scenario.mon_0930 PENDING 50 "USD" None Scenario.sun_1000 None)
          "Appointment created successfully").
Proof. vm_compute. reflexivity. Qed.

Example scenario_second_booking_conflicts :
  snd (createAppointment JS.Number_digits Scenario.env1
         (Scenario.book "s1" "c2" Scenario.mon_0915 Scenario.mon_0945) Scenario.db1)
  = Throw (ApiError 409 "Staff already booked for this time slot").
Proof. vm_compute. reflexivity. Qed.

Example scenario_time_off_blocks :
  snd (createAppointment JS.Number_digits Scenario.env0
         (Scenario.book "s1" "c1" Scenario.mon_0900 Scenario.mon_0930) Scenario.dbOff)
  = Throw (ApiError 409 "Staff is on time off (Vacation) during requested time").
Proof. vm_compute. reflexivity. Qed.

Example scenario_reschedule_over_itself :
  exists db' r,
    updateAppointment JS.Number_digits Scenario.env1
      (Scenario.reschedule "a1" Scenario.mon_0915 Scenario.mon_0945) Scenario.db1
    = (db', Ok r)
    /\ ap_start (rs_data r) = Scenario.mon_0915
    /\ ap_end (rs_data r) = Scenario.mon_0945.
Proof. eexists _, _. vm_compute. repeat split. Qed.

(** ** Lemmas on queries *)

Lemma find_Some_iff {A} (p : A -> bool) (l : list A) :
  (exists a, List.find p l = Some a) <-> (exists a, In a l /\ p a = true).
Proof.
  split.
  - intros [a Ha]. exists a. now apply List.find_some in Ha.
  - intros [a [Hin Hp]]. induction l as [|x l IH]; [destruct Hin|].
    simpl. destruct (p x) eqn:Hx; [now exists x|].
    destruct Hin as [->|Hin]; [congruence|now apply IH].
Qed.

Lemma find_None_iff {A} (p : A -> bool) (l : list A) :
  List.find p l = None <-> (forall a, In a l -> p a = false).
Proof.
  split.
  - intros H a Ha. now apply (List.find_none p l H).
  - intros H. destruct (List.find p l) as [a|] eqn:E; [|reflexivity].
    apply List.find_some in E as [Hin Hp]. rewrite (H a Hin) in Hp. discriminate.
Qed.

Lemma filter_nil_iff {A} (p : A -> bool) (l : list A) :
  List.filter p l = [] <-> (forall a, In a l -> p a = false).
Proof.
  induction l as [|x l IH]; simpl.
  - split; [intros _ a []|reflexivity].
  - destruct (p x) eqn:Hx.
    + split; [discriminate|]. intros H. specialize (H x (or_introl eq_refl)).
      congruence.
    + rewrite IH. split.
      * intros H a [<-|Ha]; [assumption|now apply H].
      * intros H a Ha. apply H. now right.
Qed.

(** The first row a filter keeps is the first row of the table that
    satisfies the predicate. *)
Lemma filter_head_split {A} (p : A -> bool) (l : list A) (x : A) (rest : list A) :
  List.filter p l = x :: rest ->
  exists before after,
    l = before ++ x :: after /\ p x = true
    /\ (forall y, In y before -> p y = false).
Proof.
  induction l as [|y l IH]; simpl; [discriminate|].
  destruct (p y) eqn:Hy.
  - intros [= -> <-]. exists [], l. repeat split; [assumption|intros ? []].
  - intros H. destruct (IH H) as (before & after & -> & Hx & Hb).
    exists (y :: before), after. repeat split; [assumption|].
    intros z [<-|Hz]; [assumption|now apply Hb].
Qed.

Lemma notId_spec (exclude : option string) (a : Appointment) :
  notId exclude a = true <-> (forall id, exclude = Some id -> ap_id a <> id).
Proof.
  destruct exclude as [x|]; simpl.
  - rewrite negb_true_iff, String.eqb_neq. split.
    + intros H id [= <-]. assumption.
    + intros H. now apply H.
  - split; [intros _ id; discriminate|reflexivity].
Qed.

Lemma activeStatus_spec (st : AppointmentStatus) :
  activeStatus st = true <-> (st = PENDING \/ st = CONFIRMED).
Proof.
  unfold activeStatus. now rewrite orb_true_iff, !bool_decide_eq_true.
Qed.

Lemma overlapWhere_spec (s e : Z) (a : Appointment) :
  overlapWhere s e a = true <-> Spec.strictOverlap s e a.
Proof.
  unfold overlapWhere, Spec.strictOverlap.
  rewrite andb_true_iff, Z.ltb_lt, Z.gtb_gt. reflexivity.
Qed.

Lemma staffConflictWhere_spec t sub ex s e a :
  staffConflictWhere t sub ex s e a = true
  <-> Spec.conflicts ap_staffId t sub ex s e a.
Proof.
  unfold staffConflictWhere, Spec.conflicts.
  rewrite !andb_true_iff, !String.eqb_eq, notId_spec, activeStatus_spec,
    overlapWhere_spec.
  tauto.
Qed.

Lemma clientConflictWhere_spec t sub ex s e a :
  clientConflictWhere t sub ex s e a = true
  <-> Spec.conflicts ap_clientId t sub ex s e a.
Proof.
  unfold clientConflictWhere, Spec.conflicts.
  rewrite !andb_true_iff, !String.eqb_eq, notId_spec, activeStatus_spec,
    overlapWhere_spec.
  tauto.
Qed.

Lemma timeOffWhere_spec t st s e tf :
  timeOffWhere t st s e tf = true <-> Spec.blocks t st s e tf.
Proof.
  unfold timeOffWhere, Spec.blocks.
  rewrite !andb_true_iff, !String.eqb_eq, Z.leb_le, Z.geb_le.
  split; intros; repeat split; try tauto; lia.
Qed.

Lemma availabilityWhere_spec t st av :
  availabilityWhere t st av = true <-> Spec.availabilityOf t st av.
Proof.
  unfold availabilityWhere, Spec.availabilityOf.
  rewrite !andb_true_iff, !String.eqb_eq, negb_true_iff.
  destruct (av_deletedAt av); simpl; split; intros; repeat split;
    try tauto; try (destruct H as [_ H]; discriminate);
    try (destruct H as (_ & _ & H); discriminate).
Qed.


(** ** Lemmas on the handlers *)


Lemma durationMismatch_false (service : Service) (s e : Z) :
  durationMismatch service s e = false -> e = s + svc_duration service * 60000.
Proof.
  unfold durationMismatch, JS.timeClip. rewrite negb_false_iff, bool_decide_eq_true.
  destruct (_ <=? _); [|discriminate]. now intros [= <-].
Qed.

Lemma durationMismatch_true (service : Service) (s e : Z) :
  e <> s + svc_duration service * 60000 -> durationMismatch service s e = true.
Proof.
  intros H. destruct (durationMismatch service s e) eqn:E; [reflexivity|].
  now apply durationMismatch_false in E.
Qed.

Section HandlerLemmas.

Variable Number : string -> JS.jsnum.

(** What a passed [createAppointment_validate] has established. *)
Lemma createAppointment_validate_Ok_inv tenantId r db u :
  createAppointment_validate Number tenantId r db = Ok u ->
  durationMismatch (r_service r) (r_startDate r) (r_endDate r) = false
  /\ validateStaffAvailabilityAndTimeOff Number db tenantId (r_staffId r)
       (r_startDate r) (r_endDate r) = Ok tt
  /\ List.find (staffConflictWhere tenantId (r_staffId r) None
                  (r_startDate r) (r_endDate r)) (appointments db) = None
  /\ List.find (clientConflictWhere tenantId (r_clientId r) None
                  (r_startDate r) (r_endDate r)) (appointments db) = None.
Proof.
  unfold createAppointment_validate.
  destruct (durationMismatch _ _ _); cbn; [discriminate|].
  destruct (validateStaffAvailabilityAndTimeOff _ _ _ _ _ _) as [[]|];
    cbn; [|discriminate].
  destruct (List.find (staffConflictWhere _ _ _ _ _) _); cbn; [discriminate|].
  destruct (List.find (clientConflictWhere _ _ _ _ _) _); cbn; [discriminate|].
  intros _. repeat split.
Qed.

(** A successful [createAppointment], taken apart. *)
Lemma createAppointment_Ok_inv env req db db' resp :
  createAppointment Number env req db = (db', Ok resp) ->
  exists r,
    createAppointment_resolve env req db = Ok r
    /\ createAppointment_validate Number (req_tenantId req) r db = Ok tt
    /\ rs_data resp = newAppointment env (req_tenantId req) r (cb_notes (req_body req))
    /\ appointments db' = appointments db ++ [rs_data resp].
Proof.
  unfold createAppointment.
  destruct (createAppointment_resolve env req db) as [r|];
    cbn [bind]; [|discriminate].
  destruct (createAppointment_validate _ _ _ _) as [[]|] eqn:Hv;
    cbn [bind]; [|discriminate].
  intros [= <- <-]. exists r. cbn. repeat split; assumption || reflexivity.
Qed.

(** A failed check leaves the store as it was. *)
Lemma createAppointment_Throw_inv env req db db' err :
  createAppointment Number env req db = (db', Throw err) -> db' = db.
Proof.
  unfold createAppointment.
  destruct (bind _ _); [discriminate|]. now intros [= <- _].
Qed.

(** What [createAppointment_resolve] has established. *)
Lemma createAppointment_resolve_Ok_inv env req db r :
  createAppointment_resolve env req db = Ok r ->
  cb_serviceId (req_body req) = Some (r_serviceId r)
  /\ cb_staffId (req_body req) = Some (r_staffId r)
  /\ cb_clientId (req_body req) = Some (r_clientId r)
  /\ cb_start (req_body req) = Some (JS.TimeValue (r_startDate r))
  /\ cb_end (req_body req) = Some (JS.TimeValue (r_endDate r))
  /\ r_startDate r < r_endDate r
  /\ now env <= r_startDate r
  /\ List.find (serviceWhere (req_tenantId req) (r_serviceId r)) (services db)
     = Some (r_service r)
  /\ (exists st, List.find (staffWhere (req_tenantId req) (r_staffId r)) (staff db)
                 = Some st)
  /\ (exists c, List.find (clientWhere (r_clientId r)) (users db) = Some c)
  /\ (exists l, List.find (assignedWhere (r_staffId r) (r_serviceId r))
                  (staffServices db) = Some l).
Proof.
  unfold createAppointment_resolve.
  destruct (cb_serviceId (req_body req)) as [[|c1 s1]|]; cbn; try discriminate.
  destruct (cb_staffId (req_body req)) as [[|c2 s2]|]; cbn; try discriminate.
  destruct (cb_clientId (req_body req)) as [[|c3 s3]|]; cbn; try discriminate.
  destruct (cb_start (req_body req)) as [[|s]|]; cbn; try discriminate;
    destruct (cb_end (req_body req)) as [[|e]|]; cbn; try discriminate.
  destruct (e <=? s) eqn:Hes; cbn; [discriminate|].
  destruct (s <? now env) eqn:Hnow; cbn; [discriminate|].
  destruct (List.find (serviceWhere _ _) _) as [svc|] eqn:Hsvc;
    cbn; [|discriminate].
  destruct (List.find (staffWhere _ _) _) as [st|] eqn:Hst;
    cbn; [|discriminate].
  destruct (List.find (clientWhere _) _) as [c|] eqn:Hc;
    cbn; [|discriminate].
  destruct (List.find (assignedWhere _ _) _) as [l|] eqn:Hl;
    cbn; [|discriminate].
  intros [= <-]. cbn. apply Z.leb_gt in Hes. apply Z.ltb_ge in Hnow.
  repeat split; eauto.
Qed.

End HandlerLemmas.

Lemma updateUnique_Some_inv {A} (p : A -> bool) (f : A -> A) (l rows : list A) (y : A) :
  updateUnique p f l = Some (rows, y) ->
  exists before a after,
    l = before ++ a :: after /\ p a = true
    /\ (forall x, In x before -> p x = false)
    /\ rows = before ++ f a :: after /\ y = f a.
Proof.
  revert rows y. induction l as [|x l IH]; simpl; intros rows y; [discriminate|].
  destruct (p x) eqn:Hx.
  - intros [= <- <-]. exists [], x, l. repeat split; [assumption|intros ? []].
  - destruct (updateUnique p f l) as [[rest' z]|]; [|discriminate].
    intros [= <- <-]. destruct (IH rest' z eq_refl) as (b & a & af & -> & Ha & Hb & -> & ->).
    exists (x :: b), a, af. repeat split; [assumption|].
    intros w [<-|Hw]; [assumption|now apply Hb].
Qed.

Lemma updateUnique_is_Some {A} (p : A -> bool) (f : A -> A) (l : list A) :
  (exists a, In a l /\ p a = true) ->
  exists rows y, updateUnique p f l = Some (rows, y).
Proof.
  intros [a [Hin Hp]]. induction l as [|x l IH]; [destruct Hin|].
  simpl. destruct (p x) eqn:Hx; [now eexists _, _|].
  destruct Hin as [->|Hin]; [congruence|].
  destruct (IH Hin) as (rows & y & ->). now eexists _, _.
Qed.

Section UpdateLemmas.

Variable Number : string -> JS.jsnum.

(** What a passed reschedule block has established. *)
Lemma updateAppointment_reschedule_Ok_inv env req db appointment s e :
  updateAppointment_reschedule Number env req db appointment = Ok (s, e) ->
  ub_start (req_body req) = Some (JS.TimeValue s)
  /\ ub_end (req_body req) = Some (JS.TimeValue e)
  /\ s < e
  /\ now env <= s
  /\ exists service,
       List.find (fun sv => String.eqb (svc_id sv) (ap_serviceId appointment))
         (services db) = Some service
       /\ durationMismatch service s e = false
       /\ validateStaffAvailabilityAndTimeOff Number db (req_tenantId req)
            (ap_staffId appointment) s e = Ok tt
       /\ List.find (staffConflictWhere (req_tenantId req) (ap_staffId appointment)
                       (Some (req_id req)) s e) (appointments db) = None
       /\ List.find (clientConflictWhere (req_tenantId req) (ap_clientId appointment)
                       (Some (req_id req)) s e) (appointments db) = None.
Proof.
  unfold updateAppointment_reschedule.
  destruct (ub_start (req_body req)) as [[|s0]|]; cbn; try discriminate;
    destruct (ub_end (req_body req)) as [[|e0]|]; cbn; try discriminate.
  destruct (e0 <=? s0) eqn:Hes; cbn; [discriminate|].
  destruct (s0 <? now env) eqn:Hnow; cbn; [discriminate|].
  destruct (List.find _ (services db)) as [svc|] eqn:Hsvc; cbn; [|discriminate].
  destruct (durationMismatch svc s0 e0) eqn:Hd; cbn; [discriminate|].
  destruct (validateStaffAvailabilityAndTimeOff _ _ _ _ _ _) as [[]|] eqn:Hv;
    cbn; [|discriminate].
  destruct (List.find (staffConflictWhere _ _ _ _ _) _) eqn:Hs;
    cbn; [discriminate|].
  destruct (List.find (clientConflictWhere _ _ _ _ _) _) eqn:Hc;
    cbn; [discriminate|].
  intros [= <- <-]. apply Z.leb_gt in Hes. apply Z.ltb_ge in Hnow.
  repeat split; try assumption. exists svc. repeat split; assumption.
Qed.

(** A successful [updateAppointment], taken apart. *)
Lemma updateAppointment_Ok_inv env req db db' resp :
  updateAppointment Number env req db = (db', Ok resp) ->
  exists appointment newStart newEnd rows,
    requireTenantRole (req_user req) ["OWNER"; "ADMIN"; "STAFF"] = Ok tt
    /\ List.find (fun a => String.eqb (ap_id a) (req_id req)
                           && String.eqb (ap_tenantId a) (req_tenantId req))
         (appointments db) = Some appointment
    /\ (if JS.truthy_obj (ub_start (req_body req))
           || JS.truthy_obj (ub_end (req_body req))
        then updateAppointment_reschedule Number env req db appointment
        else Ok (ap_start appointment, ap_end appointment))
       = Ok (newStart, newEnd)
    /\ updateUnique (fun a => String.eqb (ap_id a) (req_id req))
         (updateData env (req_body req) newStart newEnd) (appointments db)
       = Some (rows, rs_data resp)
    /\ db' = set_appointments rows db.
Proof.
  unfold updateAppointment.
  destruct (requireTenantRole _ _) as [[]|] eqn:Hrole; cbn [bind];
    [|discriminate].
  destruct (List.find _ (appointments db)) as [appointment|] eqn:Hfind;
    cbn [bind orThrow]; [|discriminate].
  match goal with
  | |- context [match ?c with Ok _ => _ | Throw _ => _ end] =>
      destruct c as [[newStart newEnd]|] eqn:Hchk
  end; [|discriminate].
  destruct (updateUnique _ _ _) as [[rows updated]|] eqn:Hupd; [|discriminate].
  intros [= <- <-]. exists appointment, newStart, newEnd, rows.
  repeat split; assumption.
Qed.

Lemma updateAppointment_Throw_inv env req db db' err :
  updateAppointment Number env req db = (db', Throw err) -> db' = db.
Proof.
  unfold updateAppointment.
  destruct (bind _ _) as [[newStart newEnd]|]; [|now intros [= <- _]].
  destruct (updateUnique _ _ _) as [[rows updated]|]; [discriminate|].
  now intros [= <- _].
Qed.

End UpdateLemmas.

Lemma NoDup_map_eq {A B} (f : A -> B) (l : list A) (a b : A) :
  List.NoDup (List.map f l) -> In a l -> In b l -> f a = f b -> a = b.
Proof.
  induction l as [|x l IH]; simpl; [intros _ []|].
  intros Hnd Ha Hb Hf. apply List.NoDup_cons_iff in Hnd as [Hx Hnd].
  destruct Ha as [->|Ha], Hb as [->|Hb]; auto.
  - exfalso. apply Hx. rewrite Hf. now apply List.in_map.
  - exfalso. apply Hx. rewrite <- Hf. now apply List.in_map.
Qed.

(** * The claims *)

(** C1 (duration law).  An appointment that [createAppointment] creates, or
    that [updateAppointment] moves to a new interval, lasts exactly the
    duration of its service: [end - start] is [service.duration] minutes.
    When the end sent differs from [start + service.duration] minutes and
    the request has reached the duration check, the handler throws the 400
    error that names the expected duration, and the store is left as it
    was. *)
Theorem duration_law :
  forall (Number : string -> JS.jsnum) (env : Env) (db : Db),
    (forall req db' resp,
       createAppointment Number env req db = (db', Ok resp) ->
       exists service,
         List.find (serviceWhere (req_tenantId req) (ap_serviceId (rs_data resp)))
           (services db) = Some service
         /\ ap_end (rs_data resp) - ap_start (rs_data resp)
            = svc_duration service * JS.msPerMinute
         /\ In (rs_data resp) (appointments db'))
    /\ (forall req r,
          createAppointment_resolve env req db = Ok r ->
          r_endDate r <> r_startDate r + svc_duration (r_service r) * JS.msPerMinute ->
          createAppointment Number env req db
          = (db, Throw (ApiError 400
                          ("End time must be exactly "
                           +:+ pretty (svc_duration (r_service r))
                           +:+ " minutes after start"))))
    /\ (forall req db' resp,
          ub_start (req_body req) <> None \/ ub_end (req_body req) <> None ->
          updateAppointment Number env req db = (db', Ok resp) ->
          exists appointment service s e,
            List.find (fun a => String.eqb (ap_id a) (req_id req)
                                && String.eqb (ap_tenantId a) (req_tenantId req))
              (appointments db) = Some appointment
            /\ List.find (fun sv => String.eqb (svc_id sv) (ap_serviceId appointment))
                 (services db) = Some service
            /\ ub_start (req_body req) = Some (JS.TimeValue s)
            /\ ub_end (req_body req) = Some (JS.TimeValue e)
            /\ ap_start (rs_data resp) = s
            /\ ap_end (rs_data resp) = e
            /\ ap_end (rs_data resp) - ap_start (rs_data resp)
               = svc_duration service * JS.msPerMinute
            /\ In (rs_data resp) (appointments db')
            /\ (List.NoDup (List.map ap_id (appointments db)) ->
                ap_serviceId (rs_data resp) = ap_serviceId appointment))
    /\ (forall req appointment service s e,
          requireTenantRole (req_user req) ["OWNER"; "ADMIN"; "STAFF"] = Ok tt ->
          List.find (fun a => String.eqb (ap_id a) (req_id req)
                              && String.eqb (ap_tenantId a) (req_tenantId req))
            (appointments db) = Some appointment ->
          ub_start (req_body req) = Some (JS.TimeValue s) ->
          ub_end (req_body req) = Some (JS.TimeValue e) ->
          s < e ->
          now env <= s ->
          List.find (fun sv => String.eqb (svc_id sv) (ap_serviceId appointment))
            (services db) = Some service ->
          e <> s + svc_duration service * JS.msPerMinute ->
          updateAppointment Number env req db
          = (db, Throw (ApiError 400
                          ("Rescheduled end must be exactly "
                           +:+ pretty (svc_duration service)
                           +:+ " minutes after start")))).
Proof.
  intros Number env db. unfold JS.msPerMinute. repeat apply conj.
  - intros req db' resp H.
    apply createAppointment_Ok_inv in H as (r & Hres & Hval & Hdata & Happ).
    apply createAppointment_resolve_Ok_inv in Hres as Hr.
    destruct Hr as (_ & _ & _ & _ & _ & _ & _ & Hsvc & _).
    apply createAppointment_validate_Ok_inv in Hval as (Hd & _).
    apply durationMismatch_false in Hd.
    exists (r_service r). rewrite Hdata at 1 2 3. cbn.
    repeat split; [assumption|lia|].
    rewrite Happ. apply List.in_or_app. right. now left.
  - intros req r Hres Hne. unfold createAppointment. rewrite Hres. cbn [bind].
    unfold createAppointment_validate.
    rewrite (durationMismatch_true _ _ _ Hne). reflexivity.
  - intros req db' resp Hnew H.
    apply updateAppointment_Ok_inv in H
      as (appointment & newStart & newEnd & rows & _ & Hfind & Hchk & Hupd & ->).
    assert (Htruthy : JS.truthy_obj (ub_start (req_body req))
                      || JS.truthy_obj (ub_end (req_body req)) = true).
    { destruct (ub_start (req_body req)), (ub_end (req_body req)); cbn;
        try reflexivity. destruct Hnew; congruence. }
    rewrite Htruthy in Hchk.
    apply updateAppointment_reschedule_Ok_inv in Hchk
      as (Hs & He & _ & _ & service & Hsvc & Hd & _).
    apply durationMismatch_false in Hd.
    apply updateUnique_Some_inv in Hupd
      as (before & a & after & Hl & Ha & Hbefore & -> & Hy).
    exists appointment, service, newStart, newEnd.
    rewrite Hy. unfold updateData. rewrite Hs. cbn.
    repeat split; try assumption; try lia.
    + apply List.in_or_app. right. now left.
    + intros Hnd. apply List.find_some in Hfind as [Hin Hp].
      apply andb_true_iff in Hp as [Hid _].
      apply String.eqb_eq in Hid, Ha.
      f_equal. apply (NoDup_map_eq ap_id (appointments db)); try assumption.
      * rewrite Hl. apply List.in_or_app. right. now left.
      * congruence.
  - intros req appointment service s e Hrole Hfind Hs He Hlt Hnow Hsvc Hne.
    unfold updateAppointment. rewrite Hrole, Hfind. cbn [bind orThrow].
    rewrite Hs. cbn [JS.truthy_obj orb].
    unfold updateAppointment_reschedule. rewrite Hs, He. cbn [JS.truthy_obj negb orb throwIf bind].
    apply Z.leb_gt in Hlt. apply Z.ltb_ge in Hnow. rewrite Hlt, Hnow.
    cbn [throwIf bind]. rewrite Hsvc. cbn [orThrow bind].
    rewrite (durationMismatch_true _ _ _ Hne). reflexivity.
Qed.

Lemma duration_law_witness :
  (exists service,
     List.find (serviceWhere "t1" "svc") (services Scenario.db0) = Some service
     /\ Scenario.mon_0930 - Scenario.mon_0900 = svc_duration service * JS.msPerMinute
     /\ In Scenario.appt1 (appointments Scenario.db1))
  /\ createAppointment JS.Number_digits Scenario.env0
       (Scenario.book "s1" "c1" Scenario.mon_0900 Scenario.mon_0945) Scenario.db0
     = (Scenario.db0,
        Throw (ApiError 400 "End time must be exactly 30 minutes after start"))
  /\ updateAppointment JS.Number_digits Scenario.env1
       (Scenario.reschedule "a1" Scenario.mon_0915 Scenario.mon_1000) Scenario.db1
     = (Scenario.db1,
        Throw (ApiError 400 "Rescheduled end must be exactly 30 minutes after start")).
Proof.
  pose proof (duration_law JS.Number_digits Scenario.env0 Scenario.db0)
    as (Hcreated & Hrejected & _).
  pose proof (duration_law JS.Number_digits Scenario.env1 Scenario.db1)
    as (_ & _ & _ & Hreschedule).
  split; [|split].
  - apply (Hcreated (Scenario.book "s1" "c1" Scenario.mon_0900 Scenario.mon_0930)
             Scenario.db1
             (mkApiResponse 201 Scenario.appt1 "Appointment created successfully")).
    vm_compute. reflexivity.
  - apply (Hrejected (Scenario.book "s1" "c1" Scenario.mon_0900 Scenario.mon_0945)
             (mkResolved "svc" "s1" "c1" Scenario.mon_0900 Scenario.mon_0945
                Scenario.svc30)).
    + vm_compute. reflexivity.
    + vm_compute. discriminate.
  - apply (Hreschedule
             (Scenario.reschedule "a1" Scenario.mon_0915 Scenario.mon_1000)
             Scenario.appt1 Scenario.svc30 Scenario.mon_0915 Scenario.mon_1000).
    + vm_compute. reflexivity.
    + vm_compute. reflexivity.
    + reflexivity.
    + reflexivity.
    + vm_compute. reflexivity.
    + vm_compute. discriminate.
    + vm_compute. reflexivity.
    + vm_compute. discriminate.
Defined.



Lemma isWithinOneOffAvailability_spec (av : Availability) (s e : Z) :
  isWithinOneOffAvailability av s e = true <-> Spec.oneOffContains s e av.
Proof.
  unfold isWithinOneOffAvailability, Spec.oneOffContains.
  destruct (av_startDate av) as [a|], (av_endDate av) as [b|].
  - rewrite andb_true_iff, Z.geb_le, Z.leb_le. split.
    + intros [H1 H2]. now exists a, b.
    + intros (a' & b' & [= <-] & [= <-] & H1 & H2). now split.
  - split; [discriminate|]. intros (a' & b' & _ & H & _). discriminate.
  - split; [discriminate|]. intros (a' & b' & H & _). discriminate.
  - split; [discriminate|]. intros (a' & b' & H & _). discriminate.
Qed.

Lemma hhmmToMinutes_Some_truthy Number (hhmm : option string) (n : JS.jsnum) :
  hhmmToMinutes Number hhmm = Some n -> JS.truthy_str hhmm = true.
Proof. destruct hhmm as [[|c r]|]; simpl; [discriminate|reflexivity|discriminate]. Qed.

Lemma JS_le_trans (a b c : JS.jsnum) :
  JS.le a b = true -> JS.le b c = true -> JS.le a c = true.
Proof.
  destruct a as [|[]|p], b as [|[]|q], c as [|[]|r]; simpl;
    try discriminate; try reflexivity.
  rewrite !Qle_bool_iff. apply Qle_trans.
Qed.

Lemma JS_le_ofZ (x y : Z) : JS.le (JS.ofZ x) (JS.ofZ y) = true <-> x <= y.
Proof. unfold JS.ofZ. simpl. now rewrite Qle_bool_iff, <- Zle_Qle. Qed.

(** Within one UTC day the minutes since midnight grow with the time. *)
Lemma minutesOfDay_within_day (s e : Z) :
  s <= e -> s / JS.msPerDay = e / JS.msPerDay ->
  Spec.minutesOfDay s <= Spec.minutesOfDay e.
Proof.
  unfold Spec.minutesOfDay, JS.getUTCHours, JS.getUTCMinutes, JS.msPerDay,
    JS.msPerHour, JS.msPerMinute.
  intros Hle Hday. Z.div_mod_to_equations. lia.
Qed.

(** A record that contains the interval is accepted by the weekly test,
    unless it is a record for Sunday. *)
Lemma recurring_contains_accepted Number (av : Availability) (s e : Z) :
  av_dayOfWeek av <> Some 0 ->
  Spec.recurringContains Number s e av ->
  isWithinRecurringAvailability Number av s e = true.
Proof.
  intros Hnz (d & a & b & Hd & Hday & _ & Ha & Hb & H1 & _ & _ & H4).
  unfold isWithinRecurringAvailability.
  rewrite (hhmmToMinutes_Some_truthy _ _ _ Ha), (hhmmToMinutes_Some_truthy _ _ _ Hb).
  rewrite Hd, Ha, Hb.
  assert (Ht : JS.truthy_int (Some d) = true).
  { destruct d; [now rewrite Hd in Hnz|reflexivity..]. }
  rewrite Ht. cbn [negb orb].
  rewrite Hday, bool_decide_true by reflexivity. cbn [negb].
  unfold JS.ge. unfold Spec.minutesOfDay in H1, H4. now rewrite H1, H4.
Qed.

(** An interval within one UTC day that the weekly test accepts is
    contained in the record. *)
Lemma recurring_accepted_contains Number (av : Availability) (s e : Z) :
  s <= e -> s / JS.msPerDay = e / JS.msPerDay ->
  isWithinRecurringAvailability Number av s e = true ->
  Spec.recurringContains Number s e av.
Proof.
  intros Hle Hsame H. unfold isWithinRecurringAvailability in H.
  destruct (negb (JS.truthy_int (av_dayOfWeek av)) || _ || _); [discriminate|].
  destruct (bool_decide (Some (JS.getUTCDay s) = av_dayOfWeek av)) eqn:Hday;
    cbn [negb] in H; [|discriminate].
  apply bool_decide_eq_true in Hday.
  destruct (hhmmToMinutes Number (av_startTime av)) as [a|] eqn:Ha; [|discriminate].
  destruct (hhmmToMinutes Number (av_endTime av)) as [b|] eqn:Hb; [|discriminate].
  apply andb_true_iff in H as [H1 H4]. unfold JS.ge in H1.
  fold (Spec.minutesOfDay s) in H1. fold (Spec.minutesOfDay e) in H4.
  pose proof (proj2 (JS_le_ofZ _ _) (minutesOfDay_within_day s e Hle Hsame)) as Hmid.
  exists (JS.getUTCDay s), a, b.
  split; [now symmetry|]. split; [reflexivity|]. split; [assumption|].
  split; [assumption|]. split; [assumption|]. split; [assumption|].
  split; [now apply JS_le_trans with (JS.ofZ (Spec.minutesOfDay e))|].
  split; [now apply JS_le_trans with (JS.ofZ (Spec.minutesOfDay s))|assumption].
Qed.

(** Where the test of [availabilities.some] and containment agree: on an
    interval within one UTC day, for a record that is not a RECURRING record
    for Sunday. *)
Lemma availabilityCovers_within_day Number (s e : Z) (av : Availability) :
  s <= e -> s / JS.msPerDay = e / JS.msPerDay ->
  (av_type av = RECURRING -> av_dayOfWeek av <> Some 0) ->
  availabilityCovers Number s e av = true <-> Spec.contains Number s e av.
Proof.
  intros Hle Hsame Hnz. unfold availabilityCovers, Spec.contains.
  destruct (av_type av); [|rewrite isWithinOneOffAvailability_spec].
  - split.
    + intros H. right. split; [reflexivity|].
      now apply recurring_accepted_contains.
    + intros [[H _]|[_ H]]; [discriminate|].
      apply recurring_contains_accepted; auto.
  - split; [intros H; left; now split|].
    intros [[_ H]|[H _]]; [assumption|discriminate].
Qed.

(** What the availability part of the check computes, when no time off
    blocks: permitted iff the staff member has no record, or has one that
    the test of [availabilities.some] accepts. *)
Lemma availability_check_runs Number (db : Db) (tenantId staffId : string) (s e : Z) :
  (forall tf, In tf (timeOffs db) -> ~ Spec.blocks tenantId staffId s e tf) ->
  validateStaffAvailabilityAndTimeOff Number db tenantId staffId s e
  = match List.filter (availabilityWhere tenantId staffId) (availabilities db) with
    | [] => Ok tt
    | avs => if List.existsb (availabilityCovers Number s e) avs
             then Ok tt else Throw outsideAvailabilityError
    end.
Proof.
  intros Hoff.
  assert (Hoffs : List.filter (timeOffWhere tenantId staffId s e) (timeOffs db) = []).
  { apply filter_nil_iff. intros tf Hin. apply not_true_is_false. intros H.
    apply timeOffWhere_spec in H. now apply (Hoff tf). }
  unfold validateStaffAvailabilityAndTimeOff. rewrite Hoffs.
  destruct (List.filter (availabilityWhere tenantId staffId) (availabilities db));
    [reflexivity|].
  now destruct (List.existsb _ _).
Qed.

(** The part of C3 the code keeps: on an interval within one UTC day, for a
    staff member without a RECURRING record for Sunday, and when no time off
    blocks, the check permits the interval iff the staff member has no
    record or has one that contains the interval, and it answers the 409
    error "Requested time is outside staff availability" otherwise. *)
Lemma availability_check_within_day
    Number (db : Db) (tenantId staffId : string) (s e : Z) :
  (forall tf, In tf (timeOffs db) -> ~ Spec.blocks tenantId staffId s e tf) ->
  s <= e -> s / JS.msPerDay = e / JS.msPerDay ->
  (forall av, In av (availabilities db) ->
              Spec.availabilityOf tenantId staffId av ->
              av_type av = RECURRING -> av_dayOfWeek av <> Some 0) ->
  (validateStaffAvailabilityAndTimeOff Number db tenantId staffId s e = Ok tt
   <-> (forall av, In av (availabilities db) ->
                   ~ Spec.availabilityOf tenantId staffId av)
       \/ (exists av, In av (availabilities db)
                      /\ Spec.availabilityOf tenantId staffId av
                      /\ Spec.contains Number s e av))
  /\ (validateStaffAvailabilityAndTimeOff Number db tenantId staffId s e = Ok tt
      \/ validateStaffAvailabilityAndTimeOff Number db tenantId staffId s e
         = Throw (ApiError 409 "Requested time is outside staff availability")).
Proof.
  intros Hoff Hle Hsame Hnz.
  rewrite (availability_check_runs Number db tenantId staffId s e Hoff).
  destruct (List.filter (availabilityWhere tenantId staffId) (availabilities db))
    as [|av1 avs] eqn:Havs.
  - split; [|now left]. split; [|reflexivity]. intros _. left.
    intros av Hin Hof. rewrite filter_nil_iff in Havs.
    apply availabilityWhere_spec in Hof. rewrite (Havs av Hin) in Hof. discriminate.
  - assert (Hmem : forall av, In av (av1 :: avs)
                              <-> In av (availabilities db)
                                  /\ Spec.availabilityOf tenantId staffId av).
    { intros av. rewrite <- Havs, List.filter_In. now rewrite availabilityWhere_spec. }
    destruct (List.existsb (availabilityCovers Number s e) (av1 :: avs)) eqn:Hok.
    + split; [|now left]. split; [|reflexivity]. intros _. right.
      apply List.existsb_exists in Hok as (av & Hin & Hc).
      apply Hmem in Hin as [Hin Hof]. exists av.
      split; [assumption|split; [assumption|]].
      apply availabilityCovers_within_day; auto.
    + split; [|now right]. split; [discriminate|].
      intros [Hnone|(av & Hin & Hof & Hc)].
      * exfalso. apply (Hnone av1); apply (Hmem av1); now left.
      * exfalso. assert (Hex : List.existsb (availabilityCovers Number s e)
                                 (av1 :: avs) = true).
        { apply List.existsb_exists. exists av. split; [now apply Hmem|].
          apply availabilityCovers_within_day; auto. }
        rewrite Hok in Hex. discriminate.
Qed.

(** C3 (availability containment), at the two inputs where the check and
    containment part.  In the scenario no time off exists.  Staff member s3
    has one record, RECURRING for Sunday 09:00-12:00: it contains Sunday
    2026-11-01 10:00-10:30 UTC, and the check answers the 409 error
    "Requested time is outside staff availability".  Staff member s2 has one
    record, RECURRING for Monday 09:00-23:30: no record of s2 contains
    Monday 23:00 - Tuesday 00:30, and the check permits it. *)
Theorem availability_containment_fails_on_weekly_records :
  timeOffs Scenario.db0 = []
  /\ (In Scenario.sunday (availabilities Scenario.db0)
      /\ Spec.availabilityOf "t1" "s3" Scenario.sunday
      /\ Spec.contains JS.Number_digits Scenario.sun_1000 Scenario.sun_1030
           Scenario.sunday
      /\ validateStaffAvailabilityAndTimeOff JS.Number_digits Scenario.db0 "t1" "s3"
           Scenario.sun_1000 Scenario.sun_1030
         = Throw (ApiError 409 "Requested time is outside staff availability"))
  /\ (In Scenario.mondayLate (availabilities Scenario.db0)
      /\ Spec.availabilityOf "t1" "s2" Scenario.mondayLate
      /\ (forall av, In av (availabilities Scenario.db0) ->
                     Spec.availabilityOf "t1" "s2" av ->
                     ~ Spec.contains JS.Number_digits Scenario.mon_2300
                         Scenario.tue_0030 av)
      /\ validateStaffAvailabilityAndTimeOff JS.Number_digits Scenario.db0 "t1" "s2"
           Scenario.mon_2300 Scenario.tue_0030
         = Ok tt).
Proof.
  split; [reflexivity|split].
  - split; [right; right; left; reflexivity|].
    split; [repeat split|]. split; [|vm_compute; reflexivity].
    right. split; [reflexivity|].
    exists 0, (JS.ofZ 540), (JS.ofZ 720).
    repeat apply conj; vm_compute; reflexivity.
  - split; [right; left; reflexivity|].
    split; [repeat split|]. split; [|vm_compute; reflexivity].
    intros av [<-|[<-|[<-|[]]]] [Hst _]; try (vm_compute in Hst; discriminate Hst).
    intros [[Ht _]|[_ (d & a & b & _ & _ & Hday & _)]].
    + vm_compute in Ht. discriminate Ht.
    + vm_compute in Hday. discriminate Hday.
Qed.

(** C4 (blackout precedence).  The check reports a time-off rejection iff
    some TimeOff record of the staff member satisfies
    [record.start <= candidate.end] and [record.end >= candidate.start].
    The rejection quotes the reason of the first such record in the table,
    or "Time off" when that record has none; it is raised whatever the
    Availability records say, also when one of them contains the interval,
    and [createAppointment] passes it on without writing. *)
Theorem blackout_precedence :
  forall (Number : string -> JS.jsnum) (db : Db) (tenantId staffId : string)
         (s e : Z),
    ((exists tf, In tf (timeOffs db) /\ Spec.blocks tenantId staffId s e tf)
     <-> (exists err,
            validateStaffAvailabilityAndTimeOff Number db tenantId staffId s e
            = Throw err /\ Spec.isTimeOffError err))
    /\ (forall tf,
          In tf (timeOffs db) -> Spec.blocks tenantId staffId s e tf ->
          exists first before after,
            timeOffs db = before ++ first :: after
            /\ Spec.blocks tenantId staffId s e first
            /\ (forall x, In x before -> ~ Spec.blocks tenantId staffId s e x)
            /\ validateStaffAvailabilityAndTimeOff Number db tenantId staffId s e
               = Throw (ApiError 409
                          ("Staff is on time off ("
                           +:+ match to_reason first with
                               | None | Some EmptyString => "Time off"
                               | Some reason => reason
                               end
                           +:+ ") during requested time"))
            /\ (forall env req r,
                  createAppointment_resolve env req db = Ok r ->
                  req_tenantId req = tenantId -> r_staffId r = staffId ->
                  r_startDate r = s -> r_endDate r = e ->
                  durationMismatch (r_service r) s e = false ->
                  createAppointment Number env req db
                  = (db, Throw (timeOffError first)))).
Proof.
  intros Number db tenantId staffId s e.
  assert (Hfirst : forall tf,
             In tf (timeOffs db) -> Spec.blocks tenantId staffId s e tf ->
             exists first rest,
               List.filter (timeOffWhere tenantId staffId s e) (timeOffs db)
               = first :: rest).
  { intros tf Hin Hb.
    destruct (List.filter _ (timeOffs db)) as [|first rest] eqn:Hf;
      [|now exists first, rest].
    rewrite filter_nil_iff in Hf. apply timeOffWhere_spec in Hb.
    rewrite (Hf tf Hin) in Hb. discriminate. }
  split; [split|].
  - intros (tf & Hin & Hb). destruct (Hfirst tf Hin Hb) as (first & rest & Hf).
    exists (timeOffError first). unfold validateStaffAvailabilityAndTimeOff.
    rewrite Hf. split; [reflexivity|]. now exists (timeOffReason first).
  - intros (err & Hrun & reason & ->).
    unfold validateStaffAvailabilityAndTimeOff in Hrun.
    destruct (List.filter (timeOffWhere _ _ _ _) (timeOffs db))
      as [|first rest] eqn:Hf.
    + exfalso. destruct (List.filter (availabilityWhere _ _) _); [discriminate|].
      destruct (negb _); [|discriminate].
      unfold outsideAvailabilityError in Hrun. cbn in Hrun. discriminate.
    + exists first.
      assert (Hin : In first (List.filter (timeOffWhere tenantId staffId s e)
                                (timeOffs db))) by (rewrite Hf; now left).
      apply List.filter_In in Hin as [Hin Hw]. split; [assumption|].
      now apply timeOffWhere_spec.
  - intros tf Hin Hb. destruct (Hfirst tf Hin Hb) as (first & rest & Hf).
    destruct (filter_head_split _ _ _ _ Hf) as (before & after & Hl & Hw & Hbefore).
    assert (Hrun : validateStaffAvailabilityAndTimeOff Number db tenantId staffId s e
                   = Throw (timeOffError first)).
    { unfold validateStaffAvailabilityAndTimeOff. now rewrite Hf. }
    exists first, before, after. split; [|split; [|split; [|split]]].
    + assumption.
    + now apply timeOffWhere_spec.
    + intros x Hx Hbx. apply timeOffWhere_spec in Hbx.
      rewrite (Hbefore x Hx) in Hbx. discriminate.
    + exact Hrun.
    + intros env req r Hres <- <- <- <- Hdur.
      unfold createAppointment. rewrite Hres. cbn [bind].
      unfold createAppointment_validate. rewrite Hdur. cbn [throwIf bind].
      rewrite Hrun. reflexivity.
Qed.

Lemma blackout_precedence_witness :
  Spec.contains JS.Number_digits Scenario.mon_0900 Scenario.mon_0930 Scenario.monday
  /\ exists first before after,
       timeOffs Scenario.dbOff = before ++ first :: after
       /\ Spec.blocks "t1" "s1" Scenario.mon_0900 Scenario.mon_0930 first
       /\ (forall x, In x before ->
                     ~ Spec.blocks "t1" "s1" Scenario.mon_0900 Scenario.mon_0930 x)
       /\ validateStaffAvailabilityAndTimeOff JS.Number_digits Scenario.dbOff
            "t1" "s1" Scenario.mon_0900 Scenario.mon_0930
          = Throw (ApiError 409
                     ("Staff is on time off ("
                      +:+ match to_reason first with
                          | None | Some EmptyString => "Time off"
                          | Some reason => reason
                          end
                      +:+ ") during requested time"))
       /\ (forall env req r,
             createAppointment_resolve env req Scenario.dbOff = Ok r ->
             req_tenantId req = "t1" -> r_staffId r = "s1" ->
             r_startDate r = Scenario.mon_0900 -> r_endDate r = Scenario.mon_0930 ->
             durationMismatch (r_service r) Scenario.mon_0900 Scenario.mon_0930
             = false ->
             createAppointment JS.Number_digits env req Scenario.dbOff
             = (Scenario.dbOff, Throw (timeOffError first))).
Proof.
  split.
  - right. split; [reflexivity|].
    exists 1, (JS.ofZ 540), (JS.ofZ 720).
    repeat apply conj; vm_compute; reflexivity.
  - apply (proj2 (blackout_precedence JS.Number_digits Scenario.dbOff "t1" "s1"
                    Scenario.mon_0900 Scenario.mon_0930) Scenario.off).
    + left. reflexivity.
    + repeat split; vm_compute; discriminate.
Defined.

(** ** The weekly test *)

(** A record whose [dayOfWeek] is a day from Monday to Saturday, and whose
    times parse to finite numbers, matches iff the start falls on that day,
    at or after [startTime], and the end's minutes of the day are at or
    before [endTime]. *)
Lemma recurring_match_weekday Number (av : Availability) (s e d : Z) (a b : Q) :
  av_dayOfWeek av = Some d -> d <> 0 ->
  hhmmToMinutes Number (av_startTime av) = Some (JS.JFin a) ->
  hhmmToMinutes Number (av_endTime av) = Some (JS.JFin b) ->
  isWithinRecurringAvailability Number av s e = true
  <-> JS.getUTCDay s = d
      /\ (a <= inject_Z (Spec.minutesOfDay s))%Q
      /\ (inject_Z (Spec.minutesOfDay e) <= b)%Q.
Proof.
  intros Hd Hnz Ha Hb. unfold isWithinRecurringAvailability.
  rewrite (hhmmToMinutes_Some_truthy _ _ _ Ha), (hhmmToMinutes_Some_truthy _ _ _ Hb).
  rewrite Hd, Ha, Hb.
  assert (Ht : JS.truthy_int (Some d) = true) by (destruct d; [lia|reflexivity..]).
  rewrite Ht. cbn [negb orb].
  unfold JS.ge, JS.le, JS.ofZ, Spec.minutesOfDay.
  destruct (bool_decide (Some (JS.getUTCDay s) = Some d)) eqn:Hday; cbn [negb].
  - apply bool_decide_eq_true in Hday. injection Hday as Hday.
    rewrite andb_true_iff, !Qle_bool_iff. tauto.
  - apply bool_decide_eq_false in Hday. split; [discriminate|].
    intros [H _]. destruct Hday. now rewrite H.
Qed.

(** A time that does not parse to a number ([null] or NaN) makes the record
    match nothing; no error is raised, the function being total. *)
Lemma recurring_unparsed_never_matches Number (av : Availability) (s e : Z) :
  hhmmToMinutes Number (av_startTime av) = None
  \/ hhmmToMinutes Number (av_startTime av) = Some JS.JNaN
  \/ hhmmToMinutes Number (av_endTime av) = None
  \/ hhmmToMinutes Number (av_endTime av) = Some JS.JNaN ->
  isWithinRecurringAvailability Number av s e = false.
Proof.
  intros H. unfold isWithinRecurringAvailability.
  destruct (_ || _ || _); [reflexivity|].
  destruct (negb _); [reflexivity|].
  destruct H as [H|[H|[H|H]]]; rewrite H.
  - reflexivity.
  - destruct (hhmmToMinutes Number (av_endTime av)); [|reflexivity].
    reflexivity.
  - now destruct (hhmmToMinutes Number (av_startTime av)).
  - destruct (hhmmToMinutes Number (av_startTime av)) as [n|]; [|reflexivity].
    unfold JS.ge, JS.le, JS.ofZ. rewrite andb_false_r. reflexivity.
Qed.

(** [!av.dayOfWeek] is true of 0: a record for Sunday is taken for a record
    without a day. *)
Lemma recurring_dayOfWeek_zero Number (av : Availability) (s e : Z) :
  av_dayOfWeek av = Some 0 -> isWithinRecurringAvailability Number av s e = false.
Proof. intros H. unfold isWithinRecurringAvailability. now rewrite H. Qed.

(** C5 (the weekly test), at a record for Sunday.  The candidate
    2026-11-01 10:00-10:30 UTC is a Sunday, the record's [dayOfWeek] is 0,
    its times parse to 540 and 720 minutes, and both ends (600 and 630
    minutes) lie between them; the test answers [false]. *)
Theorem recurring_sunday_record_rejected :
  JS.getUTCDay Scenario.sun_1000 = 0
  /\ av_dayOfWeek Scenario.sunday = Some 0
  /\ hhmmToMinutes JS.Number_digits (av_startTime Scenario.sunday)
     = Some (JS.ofZ 540)
  /\ hhmmToMinutes JS.Number_digits (av_endTime Scenario.sunday)
     = Some (JS.ofZ 720)
  /\ Spec.minutesOfDay Scenario.sun_1000 = 600
  /\ Spec.minutesOfDay Scenario.sun_1030 = 630
  /\ isWithinRecurringAvailability JS.Number_digits Scenario.sunday
       Scenario.sun_1000 Scenario.sun_1030 = false.
Proof. repeat split; vm_compute; reflexivity. Qed.

(** C6 (no booking across midnight), at a record for Monday 09:00-23:30.
    The candidate 2026-11-02 23:00 - 2026-11-03 00:30 UTC starts on the
    Monday and ends on the Tuesday; its end, 30 minutes into the day, is
    below [endTime], and the test answers [true]. *)
Theorem recurring_cross_midnight_accepted :
  JS.getUTCDay Scenario.mon_2300 = 1
  /\ Scenario.mon_2300 / JS.msPerDay < Scenario.tue_0030 / JS.msPerDay
  /\ Spec.minutesOfDay Scenario.mon_2300 = 1380
  /\ Spec.minutesOfDay Scenario.tue_0030 = 30
  /\ hhmmToMinutes JS.Number_digits (av_startTime Scenario.mondayLate)
     = Some (JS.ofZ 540)
  /\ hhmmToMinutes JS.Number_digits (av_endTime Scenario.mondayLate)
     = Some (JS.ofZ 1410)
  /\ isWithinRecurringAvailability JS.Number_digits Scenario.mondayLate
       Scenario.mon_2300 Scenario.tue_0030 = true.
Proof. repeat split; vm_compute; reflexivity. Qed.

Example scenario_sunday_booking_rejected :
  snd (createAppointment JS.Number_digits Scenario.env0
         (Scenario.book "s3" "c1" Scenario.sun_1000 Scenario.sun_1030) Scenario.db0)
  = Throw (ApiError 409 "Requested time is outside staff availability").
Proof. vm_compute. reflexivity. Qed.

Example scenario_cross_midnight_booking_succeeds :
  exists appt,
    snd (createAppointment JS.Number_digits Scenario.env0
           (mkRequest "t1" Scenario.owner ""
              (mkCreateBody (Some "svc90") (Some "s2") (Some "c1")
                 (Some (JS.TimeValue Scenario.mon_2300))
                 (Some (JS.TimeValue Scenario.tue_0030)) None))
           Scenario.db0)
    = Ok (mkApiResponse 201 appt "Appointment created successfully")
    /\ ap_start appt = Scenario.mon_2300 /\ ap_end appt = Scenario.tue_0030.
Proof. eexists. vm_compute. repeat split. Qed.

(** ** Cancellation *)

Lemma cancelWhere_spec tenantId id (a : Appointment) :
  cancelWhere tenantId id a = true <-> Spec.cancellable tenantId id a.
Proof.
  unfold cancelWhere, Spec.cancellable.
  rewrite !andb_true_iff, !String.eqb_eq, negb_true_iff, bool_decide_eq_false.
  tauto.
Qed.

Lemma cancelWhere_cancelData env tenantId id (a : Appointment) :
  cancelWhere tenantId id (cancelData env a) = false.
Proof. unfold cancelWhere. cbn. now rewrite andb_false_r. Qed.

Lemma set_appointments_same (db : Db) : set_appointments (appointments db) db = db.
Proof. now destruct db. Qed.

Lemma map_if_none {A} (p : A -> bool) (f : A -> A) (l : list A) :
  (forall a, In a l -> p a = false) ->
  List.map (fun x => if p x then f x else x) l = l.
Proof.
  induction l as [|x l IH]; simpl; [reflexivity|]. intros H.
  rewrite (H x (or_introl eq_refl)), IH; [reflexivity|].
  intros a Ha. apply H. now right.
Qed.

Lemma cancelAppointment_unfold env req db :
  cancelAppointment env req db
  = let rows := List.map (fun a => if cancelWhere (req_tenantId req) (req_id req) a
                                   then cancelData env a else a) (appointments db) in
    if Z.of_nat (List.length (List.filter (cancelWhere (req_tenantId req) (req_id req))
                                (appointments db))) =? 0
    then (set_appointments rows db,
          Throw (ApiError 404 "Appointment not found or already cancelled"))
    else (set_appointments rows db,
          Ok (mkApiResponse 200 (req_id req) "Appointment cancelled successfully")).
Proof. reflexivity. Qed.

(** C7 (cancellation).  A cancellation that matches no row (the appointment
    is missing, belongs to another tenant, or is already CANCELLED) throws
    the 404 error "Appointment not found or already cancelled" and changes
    nothing.  A cancellation of an appointment of the tenant whose status is
    not CANCELLED succeeds: the row becomes CANCELLED with [canceledAt] set
    to the time of the request, every other row is untouched, and the same
    cancellation sent again fails with the 404 error and changes nothing, so
    the stamp is set once. *)
Theorem cancellation_once :
  forall (env : Env) (req : Request unit) (db : Db),
    ((forall a, In a (appointments db) ->
                ~ Spec.cancellable (req_tenantId req) (req_id req) a) ->
     cancelAppointment env req db
     = (db, Throw (ApiError 404 "Appointment not found or already cancelled")))
    /\ ((exists a, In a (appointments db)
                   /\ Spec.cancellable (req_tenantId req) (req_id req) a) ->
        exists db',
          cancelAppointment env req db
          = (db', Ok (mkApiResponse 200 (req_id req)
                        "Appointment cancelled successfully"))
          /\ List.Forall2
               (fun a a' =>
                  (Spec.cancellable (req_tenantId req) (req_id req) a
                   /\ ap_status a' = CANCELLED
                   /\ ap_canceledAt a' = Some (now env)
                   /\ ap_id a' = ap_id a /\ ap_tenantId a' = ap_tenantId a
                   /\ ap_start a' = ap_start a /\ ap_end a' = ap_end a)
                  \/ (~ Spec.cancellable (req_tenantId req) (req_id req) a
                      /\ a' = a))
               (appointments db) (appointments db')
          /\ (forall env2,
                cancelAppointment env2 req db'
                = (db', Throw (ApiError 404
                                 "Appointment not found or already cancelled")))).
Proof.
  intros env req db. split.
  - intros Hnone.
    assert (Hp : forall a, In a (appointments db) ->
                           cancelWhere (req_tenantId req) (req_id req) a = false).
    { intros a Hin. apply not_true_is_false. intros H.
      apply cancelWhere_spec in H. now apply (Hnone a). }
    rewrite cancelAppointment_unfold. cbv zeta.
    rewrite (map_if_none _ _ _ Hp), set_appointments_same.
    apply filter_nil_iff in Hp. now rewrite Hp.
  - intros (a0 & Hin0 & Hc0).
    set (p := cancelWhere (req_tenantId req) (req_id req)).
    set (rows := List.map (fun a => if p a then cancelData env a else a)
                   (appointments db)).
    exists (set_appointments rows db). split; [|split].
    + rewrite cancelAppointment_unfold. cbv zeta. fold p. fold rows.
      destruct (List.filter p (appointments db)) as [|x xs] eqn:Hf.
      * exfalso. rewrite filter_nil_iff in Hf. apply cancelWhere_spec in Hc0.
        fold p in Hc0. rewrite (Hf a0 Hin0) in Hc0. discriminate.
      * reflexivity.
    + cbn. subst rows. clear Hin0.
      induction (appointments db) as [|x l IH]; simpl; [constructor|].
      constructor; [|assumption].
      destruct (p x) eqn:Hx.
      * left. apply cancelWhere_spec in Hx. cbn. repeat split; apply Hx.
      * right. split; [|reflexivity]. intros H. apply cancelWhere_spec in H.
        fold p in H. congruence.
    + intros env2.
      assert (Hp : forall a, In a rows -> p a = false).
      { intros a Hin. apply List.in_map_iff in Hin as (x & <- & _).
        destruct (p x) eqn:Hx; [apply cancelWhere_cancelData|assumption]. }
      rewrite cancelAppointment_unfold. cbv zeta. cbn [appointments set_appointments].
      fold p. rewrite (map_if_none _ _ _ Hp).
      apply filter_nil_iff in Hp. rewrite Hp. reflexivity.
Qed.

Lemma cancellation_once_witness :
  cancelAppointment Scenario.env1 (Scenario.cancel "t2" "a1") Scenario.db1
  = (Scenario.db1, Throw (ApiError 404 "Appointment not found or already cancelled"))
  /\ exists db',
       cancelAppointment Scenario.env1 (Scenario.cancel "t1" "a1") Scenario.db1
       = (db', Ok (mkApiResponse 200 "a1" "Appointment cancelled successfully"))
       /\ List.map ap_status (appointments db') = [CANCELLED]
       /\ List.map ap_canceledAt (appointments db') = [Some Scenario.sun_1030]
       /\ cancelAppointment Scenario.env0 (Scenario.cancel "t1" "a1") db'
          = (db', Throw (ApiError 404 "Appointment not found or already cancelled")).
Proof.
  split.
  - apply (proj1 (cancellation_once Scenario.env1 (Scenario.cancel "t2" "a1")
                    Scenario.db1)).
    intros a Hin (_ & Ht & _). vm_compute in Hin. destruct Hin as [<-|[]].
    vm_compute in Ht. discriminate Ht.
  - destruct (proj2 (cancellation_once Scenario.env1 (Scenario.cancel "t1" "a1")
                       Scenario.db1)) as (db' & Hrun & _ & Hagain).
    + exists Scenario.appt1. split; [vm_compute; left; reflexivity|].
      repeat split. vm_compute. discriminate.
    + exists db'. split; [exact Hrun|].
      assert (Hdb : db' = fst (cancelAppointment Scenario.env1
                                 (Scenario.cancel "t1" "a1") Scenario.db1))
        by now rewrite Hrun.
      split; [|split].
      * rewrite Hdb. vm_compute. reflexivity.
      * rewrite Hdb. vm_compute. reflexivity.
      * apply Hagain.
Defined.

(** ** The tenant middleware *)

Lemma includes_In (l : list string) (x : string) :
  TenantGuard.includes l x = true <-> In x l.
Proof.
  unfold TenantGuard.includes. rewrite List.existsb_exists. split.
  - intros (y & Hin & Heq). apply String.eqb_eq in Heq. now subst.
  - intros Hin. exists x. split; [assumption|apply String.eqb_refl].
Qed.

Lemma spreadTenant_lookup (where_ : option (gmap string TenantGuard.jsval))
    (tenantId : string) :
  TenantGuard.spreadTenant where_ tenantId !! "tenantId"
  = Some (TenantGuard.VStr tenantId)
  /\ (forall k, k <> "tenantId" ->
                TenantGuard.spreadTenant where_ tenantId !! k
                = default ∅ where_ !! k).
Proof.
  unfold TenantGuard.spreadTenant. split.
  - apply lookup_insert_eq.
  - intros k Hk. now apply lookup_insert_ne.
Qed.

(** C8 (tenant guard).  For a model that is not tenant-scoped the middleware
    hands the call on unchanged.  For a tenant-scoped model: when the action
    is findMany, findFirst, findUnique, update, delete, updateMany or
    deleteMany, the call handed on carries a [where] whose [tenantId] is the
    guard's tenant, whatever the caller had put there, its other fields
    being the caller's; when the action is create, the [data] handed on
    carries the guard's tenant as [tenantId], its other fields being the
    caller's.  The call is handed on whenever its arguments (and, for
    create, its [data]) are present. *)
Theorem tenant_guard_injects_tenant :
  forall (tenantId : string) (p : TenantGuard.Params),
    ((forall m, TenantGuard.model p = Some m -> ~ In m TenantGuard.tenantModels) ->
     TenantGuard.prismaWithTenant tenantId p = Some p)
    /\ (forall m,
          TenantGuard.model p = Some m -> In m TenantGuard.tenantModels ->
          (In (TenantGuard.action p)
              ["findMany"; "findFirst"; "findUnique";
               "update"; "delete"; "updateMany"; "deleteMany"] ->
           (forall a, TenantGuard.args p = Some a ->
                      exists w,
                        TenantGuard.prismaWithTenant tenantId p
                        = Some (TenantGuard.mkParams (TenantGuard.model p)
                                  (TenantGuard.action p)
                                  (Some (TenantGuard.mkArgs (Some w)
                                           (TenantGuard.args_data a)
                                           (TenantGuard.args_rest a))))
                        /\ w !! "tenantId" = Some (TenantGuard.VStr tenantId)
                        /\ (forall k, k <> "tenantId" ->
                                      w !! k
                                      = default ∅ (TenantGuard.args_where a) !! k))
           /\ (forall p',
                 TenantGuard.prismaWithTenant tenantId p = Some p' ->
                 exists a' w,
                   TenantGuard.args p' = Some a'
                   /\ TenantGuard.args_where a' = Some w
                   /\ w !! "tenantId" = Some (TenantGuard.VStr tenantId)))
          /\ (TenantGuard.action p = "create" ->
              (forall a d,
                 TenantGuard.args p = Some a -> TenantGuard.args_data a = Some d ->
                 exists d',
                   TenantGuard.prismaWithTenant tenantId p
                   = Some (TenantGuard.mkParams (TenantGuard.model p)
                             (TenantGuard.action p)
                             (Some (TenantGuard.mkArgs (TenantGuard.args_where a)
                                      (Some d') (TenantGuard.args_rest a))))
                   /\ d' !! "tenantId" = Some (TenantGuard.VStr tenantId)
                   /\ (forall k, k <> "tenantId" -> d' !! k = d !! k))
              /\ (forall p',
                    TenantGuard.prismaWithTenant tenantId p = Some p' ->
                    exists a' d',
                      TenantGuard.args p' = Some a'
                      /\ TenantGuard.args_data a' = Some d'
                      /\ d' !! "tenantId" = Some (TenantGuard.VStr tenantId)))).
Proof.
  intros tenantId [mo act ar]. cbn [TenantGuard.model TenantGuard.action TenantGuard.args].
  split.
  - intros Hnot. unfold TenantGuard.prismaWithTenant. cbn [TenantGuard.model].
    destruct mo as [m|]; [|reflexivity].
    destruct (TenantGuard.includes TenantGuard.tenantModels m) eqn:E; [|reflexivity].
    exfalso. apply (Hnot m eq_refl). now apply includes_In.
  - intros m -> Hin. apply includes_In in Hin.
    unfold TenantGuard.prismaWithTenant. cbn [TenantGuard.model TenantGuard.action].
    rewrite Hin. split.
    + intros Hact.
      assert (Hrun : forall a, ar = Some a ->
                TenantGuard.prismaWithTenant tenantId
                  (TenantGuard.mkParams (Some m) act ar)
                = Some (TenantGuard.mkParams (Some m) act
                          (Some (TenantGuard.mkArgs
                                   (Some (TenantGuard.spreadTenant
                                            (TenantGuard.args_where a) tenantId))
                                   (TenantGuard.args_data a)
                                   (TenantGuard.args_rest a))))).
      { intros a ->. unfold TenantGuard.prismaWithTenant.
        cbn [TenantGuard.model TenantGuard.action]. rewrite Hin.
        repeat (destruct Hact as [<-|Hact]; [reflexivity|]). destruct Hact. }
      unfold TenantGuard.prismaWithTenant in Hrun.
      cbn [TenantGuard.model TenantGuard.action] in Hrun. rewrite Hin in Hrun.
      split.
      * intros a Ha. eexists. split; [exact (Hrun a Ha)|].
        apply spreadTenant_lookup.
      * intros p' Hp'. destruct ar as [a|].
        -- rewrite (Hrun a eq_refl) in Hp'. injection Hp' as <-.
           eexists _, _. cbn. repeat split. apply spreadTenant_lookup.
        -- exfalso. revert Hp'.
           repeat (destruct Hact as [<-|Hact]; [discriminate|]). destruct Hact.
    + intros ->. cbn. split.
      * intros a d -> Hd. cbn. rewrite Hd. cbn. eexists. split; [reflexivity|].
        split; [apply lookup_insert_eq|]. intros k Hk. now apply lookup_insert_ne.
      * intros p'. destruct ar as [a|]; cbn; [|discriminate].
        destruct (TenantGuard.args_data a) as [d|]; cbn; [|discriminate].
        intros [= <-]. eexists _, _. cbn. repeat split. apply lookup_insert_eq.
Qed.

Lemma tenant_guard_injects_tenant_witness :
  TenantGuard.prismaWithTenant "t1"
    (TenantGuard.mkParams (Some "User") "findMany" None)
  = Some (TenantGuard.mkParams (Some "User") "findMany" None)
  /\ (exists w,
        TenantGuard.prismaWithTenant "t1"
          (TenantGuard.mkParams (Some "Appointment") "updateMany"
             (Some (TenantGuard.mkArgs
                      (Some {[ "tenantId" := TenantGuard.VStr "t2" ]}) None ∅)))
        = Some (TenantGuard.mkParams (Some "Appointment") "updateMany"
                  (Some (TenantGuard.mkArgs (Some w) None ∅)))
        /\ w !! "tenantId" = Some (TenantGuard.VStr "t1")
        /\ (forall k, k <> "tenantId" ->
                      w !! k
                      = default (∅ : gmap string TenantGuard.jsval)
                          (Some {[ "tenantId" := TenantGuard.VStr "t2" ]}) !! k))
  /\ (exists d',
        TenantGuard.prismaWithTenant "t1"
          (TenantGuard.mkParams (Some "Service") "create"
             (Some (TenantGuard.mkArgs None
                      (Some {[ "title" := TenantGuard.VStr "Haircut" ]}) ∅)))
        = Some (TenantGuard.mkParams (Some "Service") "create"
                  (Some (TenantGuard.mkArgs None (Some d') ∅)))
        /\ d' !! "tenantId" = Some (TenantGuard.VStr "t1")
        /\ (forall k, k <> "tenantId" ->
                      d' !! k
                      = ({[ "title" := TenantGuard.VStr "Haircut" ]}
                           : gmap string TenantGuard.jsval) !! k)).
Proof.
  split; [|split].
  - apply (proj1 (tenant_guard_injects_tenant "t1"
                    (TenantGuard.mkParams (Some "User") "findMany" None))).
    intros m [= <-] Hin. unfold TenantGuard.tenantModels in Hin.
    repeat (destruct Hin as [H|Hin]; [discriminate H|]). destruct Hin.
  - apply (proj1 (proj1 (proj2 (tenant_guard_injects_tenant "t1"
                                  (TenantGuard.mkParams (Some "Appointment")
                                     "updateMany"
                                     (Some (TenantGuard.mkArgs
                                              (Some {[ "tenantId" :=
                                                         TenantGuard.VStr "t2" ]})
                                              None ∅))))
                          "Appointment" eq_refl
                          (or_introl eq_refl))
                   (or_intror (or_intror (or_intror (or_intror (or_intror
                      (or_introl eq_refl)))))))
             _ eq_refl).
  - apply (proj1 (proj2 (proj2 (tenant_guard_injects_tenant "t1"
                                  (TenantGuard.mkParams (Some "Service") "create"
                                     (Some (TenantGuard.mkArgs None
                                              (Some {[ "title" :=
                                                         TenantGuard.VStr "Haircut" ]})
                                              ∅))))
                          "Service" eq_refl
                          (or_intror (or_introl eq_refl)))
                   eq_refl)
             _ _ eq_refl eq_refl).
Defined.

(** ** Updates without a new interval *)

(** C9 (status-only and notes-only updates).  When the body has neither
    [start] nor [end], an update by an allowed role of an appointment of the
    tenant succeeds whatever the services, availabilities, time off and
    other appointments are: no duration, availability, blackout or conflict
    check stands in its way, and the answer does not depend on the other
    tables.  The row written keeps its [start] and [end]; its status is the
    status supplied, whatever the current status is (or the current one when
    none is supplied), and its notes are the notes supplied. *)
Theorem status_only_update_skips_validation :
  forall (Number : string -> JS.jsnum) (env : Env) (req : Request UpdateBody)
         (db : Db) (appointment : Appointment),
    requireTenantRole (req_user req) ["OWNER"; "ADMIN"; "STAFF"] = Ok tt ->
    List.find (fun a => String.eqb (ap_id a) (req_id req)
                        && String.eqb (ap_tenantId a) (req_tenantId req))
      (appointments db) = Some appointment ->
    ub_start (req_body req) = None ->
    ub_end (req_body req) = None ->
    (exists before a after,
       appointments db = before ++ a :: after
       /\ ap_id a = req_id req
       /\ (forall x, In x before -> ap_id x <> req_id req)
       /\ (List.NoDup (List.map ap_id (appointments db)) -> a = appointment)
       /\ let updated :=
            mkAppointment (ap_id a) (ap_tenantId a) (ap_serviceId a) (ap_staffId a)
              (ap_clientId a) (ap_start a) (ap_end a)
              (match ub_status (req_body req) with
               | Some st => st
               | None => ap_status a
               end)
              (ap_price a) (ap_currency a)
              (match ub_notes (req_body req) with
               | Some n => Some n
               | None => ap_notes a
               end)
              (now env) (ap_canceledAt a) in
          updateAppointment Number env req db
          = (set_appointments (before ++ updated :: after) db,
             Ok (mkApiResponse 200 updated "Appointment updated successfully")))
    /\ (forall db2,
          appointments db2 = appointments db ->
          snd (updateAppointment Number env req db2)
          = snd (updateAppointment Number env req db)).
Proof.
  intros Number env req db appointment Hrole Hfind Hs He.
  assert (Hrun : forall d,
            appointments d = appointments db ->
            updateAppointment Number env req d
            = match updateUnique (fun a => String.eqb (ap_id a) (req_id req))
                      (updateData env (req_body req) (ap_start appointment)
                         (ap_end appointment)) (appointments db) with
              | Some (rows, updated) =>
                  (set_appointments rows d,
                   Ok (mkApiResponse 200 updated "Appointment updated successfully"))
              | None => (d, Throw (PrismaError "P2025"))
              end).
  { intros d Hd. unfold updateAppointment. rewrite Hrole, Hd, Hfind, Hs, He.
    reflexivity. }
  split.
  - rewrite (Hrun db eq_refl).
    apply List.find_some in Hfind as Hfound. destruct Hfound as [Hin Hp].
    apply andb_true_iff in Hp as [Hid _].
    destruct (updateUnique_is_Some (fun a => String.eqb (ap_id a) (req_id req))
                (updateData env (req_body req) (ap_start appointment)
                   (ap_end appointment)) (appointments db))
      as (rows & updated & Hupd); [now exists appointment|].
    rewrite Hupd.
    apply updateUnique_Some_inv in Hupd
      as (before & a & after & Hl & Ha & Hbefore & -> & ->).
    apply String.eqb_eq in Ha, Hid.
    exists before, a, after. split; [assumption|]. split; [assumption|].
    split; [|split].
    + intros x Hx. apply String.eqb_neq. now apply Hbefore.
    + intros Hnd. apply (NoDup_map_eq ap_id (appointments db));
        [assumption| |assumption|congruence].
      rewrite Hl. apply List.in_or_app. right. now left.
    + cbv zeta. unfold updateData. rewrite Hs. reflexivity.
  - intros db2 Hd. rewrite (Hrun db2 Hd), (Hrun db eq_refl).
    now destruct (updateUnique _ _ _) as [[rows updated]|].
Qed.

Lemma status_only_update_skips_validation_witness :
  exists db',
    updateAppointment JS.Number_digits Scenario.env1
      (Scenario.setStatus "a1" COMPLETED)
      (mkDb [] [] [] [] [] [Scenario.sunday] [Scenario.off]
         [mkAppointment "a1" "t1" "svc" "s1" "c1" Scenario.mon_0900
            Scenario.mon_0930 CANCELLED 50 "USD" None Scenario.sun_1000 None]
         [])
    = (db',
       Ok (mkApiResponse 200
             (mkAppointment "a1" "t1" "svc" "s1" "c1" Scenario.mon_0900
                Scenario.mon_0930 COMPLETED 50 "USD" None Scenario.sun_1030 None)
             "Appointment updated successfully")).
Proof.
  destruct (proj1 (status_only_update_skips_validation JS.Number_digits
                     Scenario.env1 (Scenario.setStatus "a1" COMPLETED)
                     (mkDb [] [] [] [] [] [Scenario.sunday] [Scenario.off]
                        [mkAppointment "a1" "t1" "svc" "s1" "c1" Scenario.mon_0900
                           Scenario.mon_0930 CANCELLED 50 "USD" None
                           Scenario.sun_1000 None]
                        [])
                     (mkAppointment "a1" "t1" "svc" "s1" "c1" Scenario.mon_0900
                        Scenario.mon_0930 CANCELLED 50 "USD" None
                        Scenario.sun_1000 None)
                     eq_refl eq_refl eq_refl eq_refl))
    as (before & a & after & Hl & _ & _ & Hsame & Hrun).
  cbn [appointments List.map ap_id] in Hl, Hsame.
  assert (Ha : a = mkAppointment "a1" "t1" "svc" "s1" "c1" Scenario.mon_0900
                     Scenario.mon_0930 CANCELLED 50 "USD" None
                     Scenario.sun_1000 None).
  { apply Hsame. constructor; [intros []|constructor]. }
  subst a. cbv zeta in Hrun. rewrite Hrun. eexists. reflexivity.
Defined.

(** ** The client lookup *)

Lemma clientWhere_spec (clientId : string) (u : User) :
  clientWhere clientId u = true <-> usr_id u = clientId /\ usr_deletedAt u = None.
Proof.
  unfold clientWhere. rewrite andb_true_iff, String.eqb_eq, negb_true_iff.
  destruct (usr_deletedAt u); simpl; split; intros [H1 H2];
    (split; [assumption|]); congruence.
Qed.

(** C10 (the client is not fenced by tenant).  The client lookup of
    [createAppointment] keeps a user iff its id is the one asked for and it
    is not deleted: neither the tenant of the request nor the memberships
    table takes part.  So when a non-deleted user has the id sent as
    [clientId]: the handler never answers "Client not found"; what it does
    is the same whatever the memberships table holds, also when no row of it
    joins the user to the tenant; and once the service, staff and assignment
    lookups find their rows and the checks on the interval pass, the
    booking succeeds: the appointment is appended to the table with that
    user as its client. *)
Theorem client_lookup_ignores_tenant :
  forall (Number : string -> JS.jsnum) (env : Env) (req : Request CreateBody)
         (db : Db) (clientId : string),
    cb_clientId (req_body req) = Some clientId ->
    (exists u, In u (users db) /\ usr_id u = clientId /\ usr_deletedAt u = None) ->
    (exists u, List.find (clientWhere clientId) (users db) = Some u
               /\ usr_id u = clientId /\ usr_deletedAt u = None)
    /\ (forall db',
          createAppointment Number env req db
          <> (db', Throw (ApiError 404 "Client not found")))
    /\ (forall memberships,
          snd (createAppointment Number env req
                 (mkDb (services db) (staff db) (users db) memberships
                    (staffServices db) (availabilities db) (timeOffs db)
                    (appointments db) (notifications db)))
          = snd (createAppointment Number env req db))
    /\ (forall serviceId staffId s e sv st l,
          clientId <> "" ->
          cb_serviceId (req_body req) = Some serviceId -> serviceId <> "" ->
          cb_staffId (req_body req) = Some staffId -> staffId <> "" ->
          cb_start (req_body req) = Some (JS.TimeValue s) ->
          cb_end (req_body req) = Some (JS.TimeValue e) ->
          s < e -> now env <= s ->
          List.find (serviceWhere (req_tenantId req) serviceId) (services db)
          = Some sv ->
          List.find (staffWhere (req_tenantId req) staffId) (staff db) = Some st ->
          List.find (assignedWhere staffId serviceId) (staffServices db) = Some l ->
          createAppointment_validate Number (req_tenantId req)
            (mkResolved serviceId staffId clientId s e sv) db = Ok tt ->
          exists db' appt,
            createAppointment Number env req db
            = (db', Ok (mkApiResponse 201 appt "Appointment created successfully"))
            /\ appointments db' = appointments db ++ [appt]
            /\ ap_clientId appt = clientId
            /\ ap_tenantId appt = req_tenantId req
            /\ ap_staffId appt = staffId
            /\ ap_start appt = s /\ ap_end appt = e
            /\ ap_status appt = PENDING)
    /\ (forall db' resp,
          createAppointment Number env req db = (db', Ok resp) ->
          appointments db' = appointments db ++ [rs_data resp]
          /\ ap_clientId (rs_data resp) = clientId
          /\ ap_tenantId (rs_data resp) = req_tenantId req).
Proof.
  intros Number env req db clientId Hbody (u & Hin & Hid & Hdel).
  assert (Hfind : exists u', List.find (clientWhere clientId) (users db) = Some u').
  { apply find_Some_iff. exists u. split; [assumption|].
    now apply clientWhere_spec. }
  destruct Hfind as (u' & Hfind).
  split; [|split; [|split; [|split]]].
  - exists u'. split; [assumption|].
    apply List.find_some in Hfind as [_ H]. now apply clientWhere_spec.
  - intros db' H. unfold createAppointment in H.
    destruct (createAppointment_resolve env req db) as [r|e] eqn:Hres;
      cbn [bind] in H.
    + destruct (createAppointment_validate Number (req_tenantId req) r db)
        as [[]|e] eqn:Hval; cbn [bind] in H; [discriminate|].
      injection H as _ ->.
      unfold createAppointment_validate, validateStaffAvailabilityAndTimeOff,
        durationError, timeOffError, outsideAvailabilityError in Hval.
      destruct (durationMismatch _ _ _); cbn in Hval; [discriminate|].
      destruct (List.filter (timeOffWhere _ _ _ _) _); cbn in Hval; [|discriminate].
      destruct (List.filter (availabilityWhere _ _) _); cbn in Hval.
      * destruct (List.find (staffConflictWhere _ _ _ _ _) _); cbn in Hval;
          [discriminate|].
        destruct (List.find (clientConflictWhere _ _ _ _ _) _); cbn in Hval;
          discriminate.
      * destruct (negb _); cbn in Hval; [discriminate|].
        destruct (List.find (staffConflictWhere _ _ _ _ _) _); cbn in Hval;
          [discriminate|].
        destruct (List.find (clientConflictWhere _ _ _ _ _) _); cbn in Hval;
          discriminate.
    + injection H as _ ->. unfold createAppointment_resolve in Hres.
      rewrite Hbody in Hres. unfold missingFieldsError in Hres.
      destruct (cb_serviceId (req_body req)) as [[|c1 s1]|]; cbn in Hres;
        try discriminate.
      destruct (cb_staffId (req_body req)) as [[|c2 s2]|]; cbn in Hres;
        try discriminate.
      destruct clientId as [|c3 s3]; cbn in Hres; try discriminate.
      destruct (cb_start (req_body req)) as [[|s]|]; cbn in Hres; try discriminate;
        destruct (cb_end (req_body req)) as [[|e]|]; cbn in Hres; try discriminate.
      destruct (e <=? s); cbn in Hres; [discriminate|].
      destruct (s <? now env); cbn in Hres; [discriminate|].
      destruct (List.find (serviceWhere _ _) _); cbn in Hres; [|discriminate].
      destruct (List.find (staffWhere _ _) _); cbn in Hres; [|discriminate].
      rewrite Hfind in Hres. cbn in Hres.
      destruct (List.find (assignedWhere _ _) _); cbn in Hres; discriminate.
  - intros memberships. unfold createAppointment.
    change (createAppointment_resolve env req
              (mkDb (services db) (staff db) (users db) memberships
                 (staffServices db) (availabilities db) (timeOffs db)
                 (appointments db) (notifications db)))
      with (createAppointment_resolve env req db).
    destruct (createAppointment_resolve env req db) as [r|e]; cbn [bind];
      [|reflexivity].
    change (createAppointment_validate Number (req_tenantId req) r
              (mkDb (services db) (staff db) (users db) memberships
                 (staffServices db) (availabilities db) (timeOffs db)
                 (appointments db) (notifications db)))
      with (createAppointment_validate Number (req_tenantId req) r db).
    now destruct (createAppointment_validate Number (req_tenantId req) r db)
      as [[]|e].
  - intros serviceId staffId s e sv st l Hcne Hsv Hsne Hst Hstne Hs He Hlt Hnow
      Hfs Hfst Hfl Hval.
    assert (Hres : createAppointment_resolve env req db
                   = Ok (mkResolved serviceId staffId clientId s e sv)).
    { unfold createAppointment_resolve. rewrite Hsv, Hst, Hbody, Hs, He.
      destruct serviceId as [|c1 s1]; [congruence|].
      destruct staffId as [|c2 s2]; [congruence|].
      destruct clientId as [|c3 s3]; [congruence|].
      cbn [required_str orThrow bind].
      rewrite (proj2 (Z.leb_gt _ _) Hlt), (proj2 (Z.ltb_ge _ _) Hnow).
      cbn [throwIf bind]. rewrite Hfs, Hfst, Hfind, Hfl. reflexivity. }
    unfold createAppointment. rewrite Hres. cbn [bind]. rewrite Hval. cbn [bind].
    eexists _, _. split; [reflexivity|]. cbn. repeat split.
  - intros db' resp H.
    apply createAppointment_Ok_inv in H as (r & Hres & _ & -> & Happ).
    apply createAppointment_resolve_Ok_inv in Hres as (_ & _ & Hc & _).
    cbn. split; [|split; [congruence|reflexivity]]. exact Happ.
Qed.

Lemma client_lookup_ignores_tenant_witness :
  (forall m, In m (tenantUsers Scenario.db0) ->
             ~ (tu_tenantId m = "t1" /\ tu_userId m = "c1"))
  /\ exists db' appt,
       createAppointment JS.Number_digits Scenario.env0
         (Scenario.book "s1" "c1" Scenario.mon_0900 Scenario.mon_0930) Scenario.db0
       = (db', Ok (mkApiResponse 201 appt "Appointment created successfully"))
       /\ appointments db' = appointments Scenario.db0 ++ [appt]
       /\ ap_clientId appt = "c1"
       /\ ap_tenantId appt = "t1"
       /\ ap_staffId appt = "s1"
       /\ ap_start appt = Scenario.mon_0900 /\ ap_end appt = Scenario.mon_0930
       /\ ap_status appt = PENDING.
Proof.
  split.
  - intros m [<-|[]] [H _]. discriminate H.
  - apply (proj1 (proj2 (proj2 (proj2
             (client_lookup_ignores_tenant JS.Number_digits Scenario.env0
                (Scenario.book "s1" "c1" Scenario.mon_0900 Scenario.mon_0930)
                Scenario.db0 "c1" eq_refl
                (ex_intro _ (mkUser "c1" None)
                   (conj (or_introl eq_refl) (conj eq_refl eq_refl)))))))
             "svc" "s1" Scenario.mon_0900 Scenario.mon_0930 Scenario.svc30
             (mkStaff "s1" "t1" None) (mkStaffService "s1" "svc"));
      try reflexivity; try discriminate.
Defined.

(** ** The weekly test within one day *)

(** On a day from Monday to Saturday, for an interval whose end's minutes of
    the day are not before its start's, a record that matches holds both
    ends within [startTime, endTime]. *)
Lemma recurring_match_same_day Number (av : Availability) (s e d : Z) (a b : Q) :
  av_dayOfWeek av = Some d -> d <> 0 ->
  hhmmToMinutes Number (av_startTime av) = Some (JS.JFin a) ->
  hhmmToMinutes Number (av_endTime av) = Some (JS.JFin b) ->
  Spec.minutesOfDay s <= Spec.minutesOfDay e ->
  isWithinRecurringAvailability Number av s e = true
  <-> JS.getUTCDay s = d
      /\ (a <= inject_Z (Spec.minutesOfDay s) <= b)%Q
      /\ (a <= inject_Z (Spec.minutesOfDay e) <= b)%Q.
Proof.
  intros Hd Hnz Ha Hb Hle.
  rewrite (recurring_match_weekday Number av s e d a b Hd Hnz Ha Hb).
  rewrite Zle_Qle in Hle. split.
  - intros (Hday & Hs & He). repeat split; try assumption.
    + now apply Qle_trans with (inject_Z (Spec.minutesOfDay e)).
    + now apply Qle_trans with (inject_Z (Spec.minutesOfDay s)).
  - intros (Hday & [Hs _] & [_ He]). now repeat split.
Qed.

(** * Further properties of the controllers *)

(** ** Who may call *)

Lemma includes_spec (allowed : list string) (x : option string) :
  includes allowed x = true <-> exists r, x = Some r /\ In r allowed.
Proof.
  destruct x as [s|]; simpl.
  - rewrite List.existsb_exists. split.
    + intros (r & Hin & Heq). apply String.eqb_eq in Heq. subst. now exists r.
    + intros (r & [= ->] & Hin). exists r. split; [assumption|apply String.eqb_refl].
  - split; [discriminate|]. intros (r & H & _). discriminate.
Qed.

Lemma requireTenantRole_cases (user : option ReqUser) (roles : list string) :
  requireTenantRole user roles = Ok tt
  \/ requireTenantRole user roles
     = Throw (ApiError 403 "Forbidden – insufficient permissions").
Proof. unfold requireTenantRole, throwIf. destruct (_ && _); auto. Qed.

Lemma requireTenantRole_Ok_iff (user : option ReqUser) (roles : list string) :
  requireTenantRole user roles = Ok tt
  <-> exists u r, user = Some u /\ In r roles
                  /\ (u_role u = Some r \/ u_tenantRole u = Some r).
Proof.
  unfold requireTenantRole, throwIf.
  destruct (includes roles (user ≫= u_role)) eqn:H1;
    destruct (includes roles (user ≫= u_tenantRole)) eqn:H2; cbn [negb andb].
  1,2: apply includes_spec in H1 as (r & Hr & Hin);
       destruct user as [u|]; [|discriminate];
       split; [intros _; exists u, r; auto|reflexivity].
  - apply includes_spec in H2 as (r & Hr & Hin).
    destruct user as [u|]; [|discriminate].
    split; [intros _; exists u, r; auto|reflexivity].
  - split; [discriminate|]. intros (u & r & -> & Hin & [Hr|Hr]).
    + assert (H : includes roles (Some u ≫= u_role) = true)
        by (apply includes_spec; now exists r).
      congruence.
    + assert (H : includes roles (Some u ≫= u_tenantRole) = true)
        by (apply includes_spec; now exists r).
      congruence.
Qed.

(** X1.  [requireTenantRole] lets a request pass iff it has a user whose
    [role] or [tenantRole] is one of the roles allowed.  Any other request
    to a guarded handler is answered by the 403 error, and the store is left
    as it was. *)
Theorem guarded_handlers_refuse_other_roles :
  forall (Number : string -> JS.jsnum) (trim : string -> string)
         (user : option ReqUser),
    (forall roles,
       requireTenantRole user roles = Ok tt
       <-> exists u r, user = Some u /\ In r roles
                       /\ (u_role u = Some r \/ u_tenantRole u = Some r))
    /\ (~ (exists u r, user = Some u /\ In r ["OWNER"; "ADMIN"; "STAFF"]
                       /\ (u_role u = Some r \/ u_tenantRole u = Some r)) ->
        forall env tenantId id body db,
          updateAppointment Number env (mkRequest tenantId user id body) db
          = (db, Throw (ApiError 403 "Forbidden – insufficient permissions")))
    /\ (~ (exists u r, user = Some u /\ In r ["OWNER"; "ADMIN"]
                       /\ (u_role u = Some r \/ u_tenantRole u = Some r)) ->
        forall env tenantId id db,
          let forbidden {A} : outcome A :=
            Throw (ApiError 403 "Forbidden – insufficient permissions") in
          (forall currency body,
             createService trim env currency (mkRequest tenantId user id body) db
             = (db, forbidden))
          /\ (forall body,
                updateService (mkRequest tenantId user id body) db = (db, forbidden))
          /\ deleteService env (mkRequest tenantId user id tt) db = (db, forbidden)
          /\ (forall body,
                assignStaff (mkRequest tenantId user id body) db = (db, forbidden))
          /\ deleteStaff env (mkRequest tenantId user id tt) db = (db, forbidden)
          /\ (forall body,
                assignService (mkRequest tenantId user id body) db = (db, forbidden))
          /\ (forall body,
                unassignService (mkRequest tenantId user id body) db
                = (db, forbidden))).
Proof.
  intros Number trim user. split; [|split].
  - intros roles. apply requireTenantRole_Ok_iff.
  - intros Hno env tenantId id body db.
    destruct (requireTenantRole_cases user ["OWNER"; "ADMIN"; "STAFF"]) as [H|H].
    + apply requireTenantRole_Ok_iff in H. contradiction.
    + unfold updateAppointment. cbn [req_user]. now rewrite H.
  - intros Hno env tenantId id db.
    assert (H : requireTenantRole user ["OWNER"; "ADMIN"]
                = Throw (ApiError 403 "Forbidden – insufficient permissions")).
    { destruct (requireTenantRole_cases user ["OWNER"; "ADMIN"]) as [H|H];
        [|assumption].
      apply requireTenantRole_Ok_iff in H. contradiction. }
    cbv zeta.
    unfold createService, updateService, deleteService, assignStaff, deleteStaff,
      assignService, unassignService.
    cbn [req_user]. rewrite H. cbn [bind]. repeat split.
Qed.

Lemma guarded_handlers_refuse_other_roles_witness :
  updateAppointment JS.Number_digits Scenario.env1
    (mkRequest "t1" (Some (mkReqUser (Some "SUPERADMIN") None)) "a1"
       (mkUpdateBody (Some CONFIRMED) None None None)) Scenario.db1
  = (Scenario.db1, Throw (ApiError 403 "Forbidden – insufficient permissions"))
  /\ deleteService Scenario.env1 (mkRequest "t1" None "svc" tt) Scenario.db1
     = (Scenario.db1, Throw (ApiError 403 "Forbidden – insufficient permissions")).
Proof.
  split.
  - apply (proj1 (proj2 (guarded_handlers_refuse_other_roles JS.Number_digits
                           (fun s => s)
                           (Some (mkReqUser (Some "SUPERADMIN") None))))).
    intros (u & r & [= <-] & Hin & [H|H]); cbn in H; [|discriminate H].
    injection H as <-. cbn in Hin.
    repeat (destruct Hin as [Hin|Hin]; [discriminate Hin|]). destruct Hin.
  - apply (proj2 (proj2 (guarded_handlers_refuse_other_roles JS.Number_digits
                           (fun s => s) None))).
    intros (u & r & H & _). discriminate H.
Defined.

(** ** Reads *)

Lemma liveServiceWhere_spec tenantId id (s : Service) :
  liveServiceWhere tenantId id s = true
  <-> svc_id s = id /\ svc_tenantId s = tenantId /\ svc_deletedAt s = None.
Proof.
  unfold liveServiceWhere.
  rewrite !andb_true_iff, !String.eqb_eq, negb_true_iff.
  destruct (svc_deletedAt s); simpl; intuition congruence.
Qed.

Lemma staffWhere_spec tenantId id (s : Staff) :
  staffWhere tenantId id s = true
  <-> stf_id s = id /\ stf_tenantId s = tenantId /\ stf_deletedAt s = None.
Proof.
  unfold staffWhere.
  rewrite !andb_true_iff, !String.eqb_eq, negb_true_iff.
  destruct (stf_deletedAt s); simpl; intuition congruence.
Qed.

Lemma serviceWhere_spec tenantId id (s : Service) :
  serviceWhere tenantId id s = true
  <-> svc_id s = id /\ svc_tenantId s = tenantId /\ svc_active s = true
      /\ svc_deletedAt s = None.
Proof.
  unfold serviceWhere.
  rewrite !andb_true_iff, !String.eqb_eq, negb_true_iff.
  destruct (svc_deletedAt s); simpl; intuition congruence.
Qed.

Lemma assignedWhere_spec staffId serviceId (l : StaffService) :
  assignedWhere staffId serviceId l = true
  <-> ss_staffId l = staffId /\ ss_serviceId l = serviceId.
Proof. unfold assignedWhere. now rewrite andb_true_iff, !String.eqb_eq. Qed.

(** X2.  The reads by id are fenced: [getAppointment], [getService] and
    [getStaff] answer with a row of the table that has the id asked for and
    the tenant of the request (and, for a service or a staff member, is not
    deleted); they answer 404 exactly when the table has no such row. *)
Theorem reads_by_id_are_fenced :
  forall (req : Request unit) (db : Db),
    ((forall r, getAppointment req db = Ok r ->
                In (rs_data r) (appointments db)
                /\ ap_id (rs_data r) = req_id req
                /\ ap_tenantId (rs_data r) = req_tenantId req)
     /\ (getAppointment req db = Throw (ApiError 404 "Appointment not found")
         <-> forall a, In a (appointments db) ->
                       ~ (ap_id a = req_id req /\ ap_tenantId a = req_tenantId req)))
    /\ ((forall r, getService req db = Ok r ->
                   In (rs_data r) (services db)
                   /\ svc_id (rs_data r) = req_id req
                   /\ svc_tenantId (rs_data r) = req_tenantId req
                   /\ svc_deletedAt (rs_data r) = None)
        /\ (getService req db = Throw (ApiError 404 "Service not found")
            <-> forall s, In s (services db) ->
                          ~ (svc_id s = req_id req
                             /\ svc_tenantId s = req_tenantId req
                             /\ svc_deletedAt s = None)))
    /\ ((forall r, getStaff req db = Ok r ->
                   In (rs_data r) (staff db)
                   /\ stf_id (rs_data r) = req_id req
                   /\ stf_tenantId (rs_data r) = req_tenantId req
                   /\ stf_deletedAt (rs_data r) = None)
        /\ (getStaff req db = Throw (ApiError 404 "Staff not found")
            <-> forall s, In s (staff db) ->
                          ~ (stf_id s = req_id req
                             /\ stf_tenantId s = req_tenantId req
                             /\ stf_deletedAt s = None))).
Proof.
  intros req db. split; [|split].
  - unfold getAppointment.
    destruct (List.find _ (appointments db)) as [a|] eqn:Hf.
    + apply List.find_some in Hf as Hfound. destruct Hfound as [Hin Hp].
      apply andb_true_iff in Hp as [Hid Ht]. apply String.eqb_eq in Hid, Ht.
      split.
      * intros r [= <-]. now cbn.
      * split; [discriminate|]. intros H. now destruct (H a Hin).
    + split; [discriminate|]. split; [|reflexivity]. intros _ a Hin [Hid Ht].
      rewrite find_None_iff in Hf. specialize (Hf a Hin). cbn in Hf.
      apply String.eqb_eq in Hid, Ht. rewrite Hid, Ht in Hf. discriminate.
  - unfold getService.
    destruct (List.find _ (services db)) as [s|] eqn:Hf.
    + apply List.find_some in Hf as Hfound. destruct Hfound as [Hin Hp].
      apply liveServiceWhere_spec in Hp. split.
      * intros r [= <-]. cbn. tauto.
      * split; [discriminate|]. intros H. now destruct (H s Hin).
    + split; [discriminate|]. split; [|reflexivity]. intros _ s Hin Hs.
      rewrite find_None_iff in Hf. apply liveServiceWhere_spec in Hs.
      rewrite (Hf s Hin) in Hs. discriminate.
  - unfold getStaff.
    destruct (List.find _ (staff db)) as [s|] eqn:Hf.
    + apply List.find_some in Hf as Hfound. destruct Hfound as [Hin Hp].
      apply staffWhere_spec in Hp. split.
      * intros r [= <-]. cbn. tauto.
      * split; [discriminate|]. intros H. now destruct (H s Hin).
    + split; [discriminate|]. split; [|reflexivity]. intros _ s Hin Hs.
      rewrite find_None_iff in Hf. apply staffWhere_spec in Hs.
      rewrite (Hf s Hin) in Hs. discriminate.
Qed.

Lemma reads_by_id_are_fenced_witness :
  In Scenario.appt1 (appointments Scenario.db1)
  /\ ap_id Scenario.appt1 = "a1" /\ ap_tenantId Scenario.appt1 = "t1".
Proof.
  apply (proj1 (proj1 (reads_by_id_are_fenced (Scenario.cancel "t1" "a1")
                         Scenario.db1))
           (mkApiResponse 200 Scenario.appt1 "Appointment fetched successfully")).
  vm_compute. reflexivity.
Defined.

(** ** What a booking writes *)

(** X3.  A successful [createAppointment] appends one appointment and one
    notification, and touches no other table.  The appointment is PENDING,
    carries the tenant of the request, the price and the currency of the
    service, and the identifier the database gave it; the notification is
    queued for the client, in the same tenant, and names that appointment.
    A request that is refused writes nothing. *)
Theorem createAppointment_writes_pair :
  forall (Number : string -> JS.jsnum) (env : Env) (req : Request CreateBody)
         (db db' : Db) (out : outcome (ApiResponse Appointment)),
    createAppointment Number env req db = (db', out) ->
    match out with
    | Throw _ => db' = db
    | Ok resp =>
        let a := rs_data resp in
        exists service n,
          List.find (serviceWhere (req_tenantId req) (ap_serviceId a)) (services db)
          = Some service
          /\ db' = mkDb (services db) (staff db) (users db) (tenantUsers db)
                     (staffServices db) (availabilities db) (timeOffs db)
                     (appointments db ++ [a]) (notifications db ++ [n])
          /\ ap_id a = freshId env
          /\ ap_tenantId a = req_tenantId req
          /\ ap_status a = PENDING
          /\ ap_price a = svc_price service
          /\ ap_currency a = svc_currency service
          /\ ap_canceledAt a = None
          /\ nt_appointmentId n = ap_id a
          /\ nt_tenantId n = req_tenantId req
          /\ nt_userId n = Some (ap_clientId a)
          /\ nt_type n = "booking_created"
          /\ nt_status n = "queued"
          /\ rs_statusCode resp = 201
    end.
Proof.
  intros Number env req db db' [resp|err] H.
  - unfold createAppointment in H.
    destruct (createAppointment_resolve env req db) as [r|] eqn:Hres;
      cbn [bind] in H; [|discriminate].
    destruct (createAppointment_validate _ _ _ _) as [[]|];
      cbn [bind] in H; [|discriminate].
    injection H as <- <-.
    apply createAppointment_resolve_Ok_inv in Hres
      as (_ & _ & _ & _ & _ & _ & _ & Hsvc & _).
    cbn. eexists (r_service r), _. split; [exact Hsvc|].
    split; [reflexivity|]. repeat split.
  - now apply createAppointment_Throw_inv in H.
Qed.

Lemma createAppointment_writes_pair_witness :
  exists service n,
    List.find (serviceWhere "t1" "svc") (services Scenario.db0) = Some service
    /\ Scenario.db1
       = mkDb (services Scenario.db0) (staff Scenario.db0) (users Scenario.db0)
           (tenantUsers Scenario.db0) (staffServices Scenario.db0)
           (availabilities Scenario.db0) (timeOffs Scenario.db0)
           (appointments Scenario.db0 ++ [Scenario.appt1])
           (notifications Scenario.db0 ++ [n])
    /\ nt_appointmentId n = "a1".
Proof.
  pose proof (createAppointment_writes_pair JS.Number_digits Scenario.env0
                (Scenario.book "s1" "c1" Scenario.mon_0900 Scenario.mon_0930)
                Scenario.db0 Scenario.db1
                (Ok (mkApiResponse 201 Scenario.appt1
                       "Appointment created successfully")))
    as H.
  destruct H as (service & n & Hs & Hdb & Hid & _ & _ & _ & _ & _ & Hn & _).
  - vm_compute. reflexivity.
  - exists service, n. split; [exact Hs|]. split; [exact Hdb|].
    rewrite Hn. exact Hid.
Defined.

(** X4.  An appointment that [createAppointment] creates refers to rows
    that are there: a service of the tenant that is active and not deleted,
    a staff member of the tenant who is not deleted, a user who is not
    deleted, and a link that assigns the staff member to the service.  It
    starts at or after the time of the request and ends after it starts. *)
Theorem createAppointment_references_live_rows :
  forall (Number : string -> JS.jsnum) (env : Env) (req : Request CreateBody)
         (db db' : Db) (resp : ApiResponse Appointment),
    createAppointment Number env req db = (db', Ok resp) ->
    (exists sv, In sv (services db)
                /\ svc_id sv = ap_serviceId (rs_data resp)
                /\ svc_tenantId sv = ap_tenantId (rs_data resp)
                /\ svc_active sv = true /\ svc_deletedAt sv = None)
    /\ (exists st, In st (staff db)
                   /\ stf_id st = ap_staffId (rs_data resp)
                   /\ stf_tenantId st = ap_tenantId (rs_data resp)
                   /\ stf_deletedAt st = None)
    /\ (exists u, In u (users db)
                  /\ usr_id u = ap_clientId (rs_data resp)
                  /\ usr_deletedAt u = None)
    /\ (exists l, In l (staffServices db)
                  /\ ss_staffId l = ap_staffId (rs_data resp)
                  /\ ss_serviceId l = ap_serviceId (rs_data resp))
    /\ now env <= ap_start (rs_data resp) < ap_end (rs_data resp).
Proof.
  intros Number env req db db' resp H.
  apply createAppointment_Ok_inv in H as (r & Hres & _ & -> & _).
  apply createAppointment_resolve_Ok_inv in Hres
    as (_ & _ & _ & _ & _ & Hlt & Hnow & Hsvc & (st & Hst) & (u & Hu) & (l & Hl)).
  cbn. repeat apply conj.
  - exists (r_service r). apply List.find_some in Hsvc as [Hin Hp].
    apply serviceWhere_spec in Hp. tauto.
  - exists st. apply List.find_some in Hst as [Hin Hp].
    apply staffWhere_spec in Hp. tauto.
  - exists u. apply List.find_some in Hu as [Hin Hp].
    apply clientWhere_spec in Hp. tauto.
  - exists l. apply List.find_some in Hl as [Hin Hp].
    apply assignedWhere_spec in Hp. tauto.
  - assumption.
  - assumption.
Qed.

Lemma createAppointment_references_live_rows_witness :
  exists l, In l (staffServices Scenario.db0)
            /\ ss_staffId l = "s1" /\ ss_serviceId l = "svc".
Proof.
  apply (createAppointment_references_live_rows JS.Number_digits Scenario.env0
           (Scenario.book "s1" "c1" Scenario.mon_0900 Scenario.mon_0930)
           Scenario.db0 Scenario.db1
           (mkApiResponse 201 Scenario.appt1 "Appointment created successfully")).
  vm_compute. reflexivity.
Defined.

(** ** Invariants of the appointments table *)

Lemma ForallOrdPairs_app {A} (R : A -> A -> Prop) (l1 l2 : list A) :
  List.ForallOrdPairs R (l1 ++ l2)
  <-> List.ForallOrdPairs R l1 /\ List.ForallOrdPairs R l2
      /\ (forall x y, In x l1 -> In y l2 -> R x y).
Proof.
  induction l1 as [|a l1 IH]; simpl.
  - split.
    + intros H. repeat split; [constructor|assumption|intros ? ? []].
    + tauto.
  - split.
    + intros H. inversion H as [|? ? Hall Hrest]; subst.
      apply IH in Hrest as (H1 & H2 & Hx).
      rewrite List.Forall_app in Hall. destruct Hall as [Ha1 Ha2].
      rewrite List.Forall_forall in Ha2.
      repeat split; [now constructor|assumption|].
      intros x y [<-|Hin] Hy; [now apply Ha2|now apply Hx].
    + intros (H1 & H2 & Hx). inversion H1 as [|? ? Hall Hrest]; subst.
      constructor.
      * apply List.Forall_app. split; [assumption|].
        apply List.Forall_forall. intros y Hy. apply Hx; [now left|assumption].
      * apply IH. repeat split; try assumption.
        intros x y Hin Hy. apply Hx; [now right|assumption].
Qed.

Lemma ForallOrdPairs_map {A} (R : A -> A -> Prop) (g : A -> A) (l : list A) :
  (forall a b, R a b -> R (g a) (g b)) ->
  List.ForallOrdPairs R l -> List.ForallOrdPairs R (List.map g l).
Proof.
  intros Hg. induction 1 as [|a l Hall Hrest IH]; simpl; constructor;
    [|assumption].
  apply List.Forall_forall. intros y Hy. apply List.in_map_iff in Hy as (x & <- & Hx).
  rewrite List.Forall_forall in Hall. now apply Hg, Hall.
Qed.

(** Replacing one row keeps a symmetric pairwise property when the new row
    has it with every other row. *)
Lemma ForallOrdPairs_replace {A} (R : A -> A -> Prop) (before after : list A)
    (a a' : A) :
  (forall x y, R x y -> R y x) ->
  List.ForallOrdPairs R (before ++ a :: after) ->
  (forall x, In x (before ++ after) -> R x a') ->
  List.ForallOrdPairs R (before ++ a' :: after).
Proof.
  intros Hsym H Hnew. apply ForallOrdPairs_app in H as (Hb & Ha & Hx).
  inversion Ha as [|? ? Hall Hrest]; subst.
  apply ForallOrdPairs_app. repeat split; [assumption| |].
  - constructor; [|assumption]. apply List.Forall_forall. intros y Hy.
    apply Hsym, Hnew, List.in_or_app. now right.
  - intros x y Hin [<-|Hy].
    + apply Hnew, List.in_or_app. now left.
    + apply Hx; [assumption|now right].
Qed.

Lemma doubleBooked_sym (a b : Appointment) :
  Invariant.doubleBooked a b -> Invariant.doubleBooked b a.
Proof.
  unfold Invariant.doubleBooked. intros (Ht & Hs & Ha & Hb & H1 & H2).
  repeat split; try assumption; try congruence.
  destruct Hs as [Hs|Hs]; [left|right]; congruence.
Qed.

Lemma not_doubleBooked_sym (a b : Appointment) :
  ~ Invariant.doubleBooked a b -> ~ Invariant.doubleBooked b a.
Proof. intros H Hba. now apply H, doubleBooked_sym. Qed.

(** A row that double-books with a candidate is a row the staff query or
    the client query finds. *)
Lemma doubleBooked_found (x a : Appointment) (exclude : option string) :
  Invariant.doubleBooked x a ->
  notId exclude x = true ->
  staffConflictWhere (ap_tenantId a) (ap_staffId a) exclude (ap_start a) (ap_end a) x
  = true
  \/ clientConflictWhere (ap_tenantId a) (ap_clientId a) exclude (ap_start a)
       (ap_end a) x = true.
Proof.
  intros (Ht & Hs & Hx & _ & H1 & H2) Hid.
  unfold staffConflictWhere, clientConflictWhere, overlapWhere.
  rewrite Hid, Hx. rewrite <- Ht, String.eqb_refl.
  assert (Ho : (ap_start x <? ap_end a) && (ap_end x >? ap_start a) = true).
  { apply andb_true_iff. split; [now apply Z.ltb_lt|apply Z.gtb_gt; lia]. }
  rewrite Ho. destruct Hs as [Hs|Hs]; rewrite Hs, String.eqb_refl; auto.
Qed.

(** A booking that runs alone keeps the table free of double bookings. *)
Lemma createAppointment_alone_noDoubleBooking :
  forall (Number : string -> JS.jsnum) (env : Env) (req : Request CreateBody)
         (db : Db),
    Invariant.noDoubleBooking (appointments db) ->
    Invariant.noDoubleBooking
      (appointments (fst (createAppointment Number env req db))).
Proof.
  intros Number env req db Hinv.
  destruct (createAppointment Number env req db) as [db' [resp|err]] eqn:Hrun.
  - cbn [fst]. apply createAppointment_Ok_inv in Hrun as (r & Hres & Hval & Hdata & ->).
    apply createAppointment_validate_Ok_inv in Hval as (_ & _ & Hstaff & Hclient).
    rewrite find_None_iff in Hstaff, Hclient.
    apply ForallOrdPairs_app. repeat split; [assumption|repeat constructor|].
    intros x y Hx [<-|[]] Hdb.
    destruct (doubleBooked_found x (rs_data resp) None Hdb eq_refl) as [H|H];
      rewrite Hdata in H; cbn in H.
    + rewrite (Hstaff x Hx) in H. discriminate.
    + rewrite (Hclient x Hx) in H. discriminate.
  - apply createAppointment_Throw_inv in Hrun as ->. exact Hinv.
Qed.

(** Among other requests, as long as the appointments table is, at the two
    double-booking queries, the table the transaction then writes to, the
    request does to it what it does on a store of its own. *)
Lemma createAppointment_interleaved_asOne Number env req (v : Views) :
  appointments (atStaffConflict v) = appointments (atWrite v) ->
  appointments (atClientConflict v) = appointments (atWrite v) ->
  appointments (fst (createAppointment_interleaved Number env req v))
  = appointments (fst (createAppointment Number env req (asOneStore v)))
  /\ snd (createAppointment_interleaved Number env req v)
     = snd (createAppointment Number env req (asOneStore v)).
Proof.
  intros H1 H2.
  unfold createAppointment_interleaved, createAppointment, createAppointment_checks,
    createAppointment_validate.
  rewrite H1, H2.
  change (createAppointment_resolve env req (asOneStore v))
    with (createAppointment_resolve env req (atLookups v)).
  change (validateStaffAvailabilityAndTimeOff Number (asOneStore v))
    with (validateStaffAvailabilityAndTimeOff Number (atLookups v)).
  change (appointments (asOneStore v)) with (appointments (atWrite v)).
  match goal with
  | |- context [match ?c with Ok _ => _ | Throw _ => _ end] => destruct c
  end; split; reflexivity.
Qed.

(** X5.  Bookings that do not overlap in time with other writers keep the
    table free of double bookings.  When the appointments table that the
    two double-booking queries of [createAppointment] read is the table
    its transaction then writes to, no other request having written to it
    in between, and no two rows of it book the same staff member or the same
    client of one tenant over overlapping intervals while both are PENDING
    or CONFIRMED, then no two rows do after the request, whatever its
    outcome and whatever the other tables were when it read them.  So it
    is for a request that runs alone. *)
Theorem createAppointment_keeps_noDoubleBooking :
  forall (Number : string -> JS.jsnum) (env : Env) (req : Request CreateBody),
    (forall v : Views,
       appointments (atStaffConflict v) = appointments (atWrite v) ->
       appointments (atClientConflict v) = appointments (atWrite v) ->
       Invariant.noDoubleBooking (appointments (atWrite v)) ->
       Invariant.noDoubleBooking
         (appointments (fst (createAppointment_interleaved Number env req v))))
    /\ (forall db : Db,
          createAppointment_interleaved Number env req (serial db)
          = createAppointment Number env req db
          /\ (Invariant.noDoubleBooking (appointments db) ->
              Invariant.noDoubleBooking
                (appointments (fst (createAppointment Number env req db))))).
Proof.
  intros Number env req. split.
  - intros v H1 H2 Hinv.
    rewrite (proj1 (createAppointment_interleaved_asOne Number env req v H1 H2)).
    now apply createAppointment_alone_noDoubleBooking.
  - intros db. split; [reflexivity|].
    apply createAppointment_alone_noDoubleBooking.
Qed.

Lemma scenario_db1_rows : appointments Scenario.db1 = [Scenario.appt1].
Proof. vm_compute. reflexivity. Qed.

Lemma createAppointment_keeps_noDoubleBooking_witness :
  Invariant.noDoubleBooking
    (appointments
       (fst (createAppointment_interleaved JS.Number_digits Scenario.env1
               (Scenario.book "s1" "c2" Scenario.mon_0930 Scenario.mon_1000)
               (mkViews Scenario.db0 Scenario.db1 Scenario.db1 Scenario.db1)))).
Proof.
  apply (proj1 (createAppointment_keeps_noDoubleBooking JS.Number_digits
                  Scenario.env1
                  (Scenario.book "s1" "c2" Scenario.mon_0930 Scenario.mon_1000))
           (mkViews Scenario.db0 Scenario.db1 Scenario.db1 Scenario.db1)
           eq_refl eq_refl).
  cbn [atWrite]. rewrite scenario_db1_rows. repeat constructor.
Defined.

Lemma NoDup_map_other {A B} (f : A -> B) (before after : list A) (a x : A) :
  List.NoDup (List.map f (before ++ a :: after)) ->
  In x (before ++ after) -> f x <> f a.
Proof.
  rewrite List.map_app. cbn [List.map]. intros Hnd Hin Heq.
  apply List.NoDup_remove_2 in Hnd. apply Hnd. rewrite <- Heq, <- List.map_app.
  now apply List.in_map.
Qed.

(** An update that runs alone keeps the table free of double bookings,
    unless it only sets the status to PENDING or CONFIRMED. *)
Lemma updateAppointment_alone_noDoubleBooking :
  forall (Number : string -> JS.jsnum) (env : Env) (req : Request UpdateBody)
         (db : Db),
    List.NoDup (List.map ap_id (appointments db)) ->
    Invariant.noDoubleBooking (appointments db) ->
    ub_start (req_body req) <> None
    \/ (forall st, ub_status (req_body req) = Some st -> activeStatus st = false) ->
    Invariant.noDoubleBooking
      (appointments (fst (updateAppointment Number env req db))).
Proof.
  intros Number env req db Hnd Hinv Hbody.
  destruct (updateAppointment Number env req db) as [db' [resp|err]] eqn:Hrun;
    [|apply updateAppointment_Throw_inv in Hrun as ->; exact Hinv].
  cbn [fst].
  apply updateAppointment_Ok_inv in Hrun
    as (appointment & newStart & newEnd & rows & _ & Hfind & Hchk & Hupd & ->).
  cbn [appointments set_appointments].
  apply updateUnique_Some_inv in Hupd
    as (before & a & after & Hl & Ha & _ & -> & _).
  apply List.find_some in Hfind as [Hin Hp].
  apply andb_true_iff in Hp as [Hid Htenant].
  apply String.eqb_eq in Hid, Htenant, Ha.
  assert (Hsame : a = appointment).
  { apply (NoDup_map_eq ap_id (appointments db)); try assumption; [|congruence].
    rewrite Hl. apply List.in_or_app. right. now left. }
  subst appointment. rewrite Hl in Hinv.
  apply (ForallOrdPairs_replace _ before after a); [|assumption|].
  { intros x y. apply not_doubleBooked_sym. }
  intros x Hx Hdb.
  assert (Hxin : In x (appointments db)).
  { rewrite Hl. apply List.in_app_or in Hx as [Hx|Hx]; apply List.in_or_app;
      [now left|right; now right]. }
  assert (Hxid : ap_id x <> ap_id a).
  { apply (NoDup_map_other ap_id before after); [now rewrite <- Hl|assumption]. }
  destruct (JS.truthy_obj (ub_start (req_body req))
            || JS.truthy_obj (ub_end (req_body req))) eqn:Htruthy.
  - apply updateAppointment_reschedule_Ok_inv in Hchk
      as (Hs & He & _ & _ & service & _ & _ & _ & Hstaff & Hclient).
    rewrite find_None_iff in Hstaff, Hclient.
    assert (Hnot : notId (Some (req_id req)) x = true).
    { cbn. apply negb_true_iff, String.eqb_neq. congruence. }
    destruct (doubleBooked_found x _ (Some (req_id req)) Hdb Hnot) as [H|H];
      unfold updateData in H; rewrite Hs in H; cbn in H; rewrite Htenant in H.
    + rewrite (Hstaff x Hxin) in H. discriminate.
    + rewrite (Hclient x Hxin) in H. discriminate.
  - apply orb_false_iff in Htruthy as [Hs0 He0]. injection Hchk as <- <-.
    assert (Hstart : ub_start (req_body req) = None)
      by (destruct (ub_start (req_body req)); [discriminate|reflexivity]).
    destruct Hbody as [Hb|Hb]; [contradiction|].
    destruct Hdb as (Ht & Hss & Hax & Haa & H1 & H2).
    unfold updateData in *. rewrite Hstart in *. cbn in *.
    destruct (ub_status (req_body req)) as [st|] eqn:Hst.
    + rewrite (Hb st eq_refl) in Haa. discriminate.
    + apply ForallOrdPairs_app in Hinv as (_ & Hafter & Hcross).
      inversion Hafter as [|? ? Hall _]; subst.
      rewrite List.Forall_forall in Hall.
      apply List.in_app_or in Hx as [Hx|Hx].
      * apply (Hcross x a Hx (or_introl eq_refl)). repeat split; assumption.
      * apply (Hall x Hx). apply doubleBooked_sym. repeat split; assumption.
Qed.

Lemma updateAppointment_interleaved_asOne Number env req (v : Views) :
  appointments (atLookups v) = appointments (atWrite v) ->
  appointments (atStaffConflict v) = appointments (atWrite v) ->
  appointments (atClientConflict v) = appointments (atWrite v) ->
  appointments (fst (updateAppointment_interleaved Number env req v))
  = appointments (fst (updateAppointment Number env req (asOneStore v)))
  /\ snd (updateAppointment_interleaved Number env req v)
     = snd (updateAppointment Number env req (asOneStore v)).
Proof.
  intros H0 H1 H2.
  unfold updateAppointment_interleaved, updateAppointment,
    updateAppointment_reschedule_interleaved, updateAppointment_reschedule.
  rewrite H0, H1, H2.
  change (services (asOneStore v)) with (services (atLookups v)).
  change (validateStaffAvailabilityAndTimeOff Number (asOneStore v))
    with (validateStaffAvailabilityAndTimeOff Number (atLookups v)).
  change (appointments (asOneStore v)) with (appointments (atWrite v)).
  match goal with
  | |- context [match ?c with Ok _ => _ | Throw _ => _ end] =>
      destruct c as [[newStart newEnd]|]
  end; [|split; reflexivity].
  destruct (updateUnique _ _ _) as [[rows updated]|]; split; reflexivity.
Qed.

(** X6.  Updates that do not overlap in time with other writers keep the
    table free of double bookings.  When the appointments table that the
    queries of [updateAppointment] read is the table its [update] then
    writes to, no other request having written to it in between, its ids
    are unique and it is free of double bookings, then so it is after the
    request, provided the body moves the appointment to a new interval or
    the status it supplies, if any, is not PENDING or CONFIRMED.  So it is
    for a request that runs alone.  (The update that only sets the status
    to PENDING or CONFIRMED is the one left out: nothing is checked on that
    path.) *)
Theorem updateAppointment_keeps_noDoubleBooking :
  forall (Number : string -> JS.jsnum) (env : Env) (req : Request UpdateBody),
    ub_start (req_body req) <> None
    \/ (forall st, ub_status (req_body req) = Some st -> activeStatus st = false) ->
    (forall v : Views,
       appointments (atLookups v) = appointments (atWrite v) ->
       appointments (atStaffConflict v) = appointments (atWrite v) ->
       appointments (atClientConflict v) = appointments (atWrite v) ->
       List.NoDup (List.map ap_id (appointments (atWrite v))) ->
       Invariant.noDoubleBooking (appointments (atWrite v)) ->
       Invariant.noDoubleBooking
         (appointments (fst (updateAppointment_interleaved Number env req v))))
    /\ (forall db : Db,
          updateAppointment_interleaved Number env req (serial db)
          = updateAppointment Number env req db
          /\ (List.NoDup (List.map ap_id (appointments db)) ->
              Invariant.noDoubleBooking (appointments db) ->
              Invariant.noDoubleBooking
                (appointments (fst (updateAppointment Number env req db))))).
Proof.
  intros Number env req Hbody. split.
  - intros v H0 H1 H2 Hnd Hinv.
    rewrite (proj1 (updateAppointment_interleaved_asOne Number env req v H0 H1 H2)).
    now apply updateAppointment_alone_noDoubleBooking.
  - intros db. split; [reflexivity|]. intros Hnd Hinv.
    now apply updateAppointment_alone_noDoubleBooking.
Qed.

Lemma updateAppointment_keeps_noDoubleBooking_witness :
  Invariant.noDoubleBooking
    (appointments
       (fst (updateAppointment_interleaved JS.Number_digits Scenario.env1
               (Scenario.reschedule "a1" Scenario.mon_0915 Scenario.mon_0945)
               (mkViews Scenario.db1 Scenario.db1 Scenario.db1 Scenario.db1)))).
Proof.
  assert (Hbody : ub_start (req_body (Scenario.reschedule "a1" Scenario.mon_0915
                                        Scenario.mon_0945)) <> None
                  \/ (forall st,
                        ub_status (req_body (Scenario.reschedule "a1"
                                               Scenario.mon_0915 Scenario.mon_0945))
                        = Some st -> activeStatus st = false))
    by (left; discriminate).
  pose proof (proj1 (updateAppointment_keeps_noDoubleBooking JS.Number_digits
                       Scenario.env1
                       (Scenario.reschedule "a1" Scenario.mon_0915 Scenario.mon_0945)
                       Hbody)
                (mkViews Scenario.db1 Scenario.db1 Scenario.db1 Scenario.db1)) as H.
  cbn [atLookups atStaffConflict atClientConflict atWrite] in H.
  apply H; try reflexivity; rewrite scenario_db1_rows.
  - constructor; [intros []|constructor].
  - repeat constructor.
Defined.

(** The path X6 leaves out does break the invariant: with one slot booked
    by a CONFIRMED appointment and by a CANCELLED one, setting the status of
    the second to CONFIRMED succeeds. *)
Example status_only_update_can_double_book :
  let a2 :=
    mkAppointment "a2" "t1" "svc" "s1" "c2" Scenario.mon_0900 Scenario.mon_0930
      CANCELLED 50 "USD" None Scenario.sun_1000 None in
  let db := set_appointments (appointments Scenario.db1 ++ [a2]) Scenario.db1 in
  Invariant.noDoubleBooking (appointments db)
  /\ exists db' r,
       updateAppointment JS.Number_digits Scenario.env1
         (Scenario.setStatus "a2" CONFIRMED) db = (db', Ok r)
       /\ ~ Invariant.noDoubleBooking (appointments db').
Proof.
  cbv zeta. cbn [appointments set_appointments]. rewrite scenario_db1_rows.
  split.
  - constructor; [|repeat constructor]. constructor; [|constructor].
    intros (_ & _ & _ & H & _). discriminate H.
  - eexists _, _. split; [vm_compute; reflexivity|].
    cbn [appointments]. intros H. inversion H as [|? ? Hall _]; subst.
    inversion Hall as [|? ? Hab _]; subst. apply Hab.
    repeat split; try reflexivity. left. reflexivity.
Qed.

(** ** Two bookings at the same time *)

(** X26.  Nothing keeps two bookings that run at the same time from
    double-booking.  Take two requests of one tenant for the same staff
    member, or the same client, over intervals that strictly overlap, each
    of which the handler accepts on the store as it is.  When the second
    request has run its queries before the transaction of the first
    commits, and writes after it (under an id of its own), the second is
    accepted too: both
    appointments are in the table, they double-book, and the table is no
    longer free of double bookings.  Had the second request run after the
    first, it would have been refused. *)
Theorem interleaved_bookings_double_book :
  forall (Number : string -> JS.jsnum) (env1 env2 : Env)
         (req1 req2 : Request CreateBody) (db db1 db2 : Db)
         (resp1 resp2 : ApiResponse Appointment),
    createAppointment Number env1 req1 db = (db1, Ok resp1) ->
    createAppointment Number env2 req2 db = (db2, Ok resp2) ->
    freshId env1 <> freshId env2 ->
    req_tenantId req1 = req_tenantId req2 ->
    cb_staffId (req_body req1) = cb_staffId (req_body req2)
    \/ cb_clientId (req_body req1) = cb_clientId (req_body req2) ->
    ap_start (rs_data resp1) < ap_end (rs_data resp2) ->
    ap_start (rs_data resp2) < ap_end (rs_data resp1) ->
    exists db12,
      createAppointment_interleaved Number env2 req2 (mkViews db db db db1)
      = (db12, Ok resp2)
      /\ appointments db12 = appointments db ++ [rs_data resp1; rs_data resp2]
      /\ Invariant.doubleBooked (rs_data resp1) (rs_data resp2)
      /\ ~ Invariant.noDoubleBooking (appointments db12)
      /\ exists err, createAppointment Number env2 req2 db1 = (db1, Throw err).
Proof.
  intros Number env1 env2 req1 req2 db db1 db2 resp1 resp2 Hrun1 Hrun2 _ Htenant
    Hsame Hlt1 Hlt2.
  unfold createAppointment in Hrun1, Hrun2.
  destruct (createAppointment_resolve env1 req1 db) as [r1|] eqn:Hres1;
    cbn [bind] in Hrun1; [|discriminate].
  destruct (createAppointment_validate Number (req_tenantId req1) r1 db)
    as [[]|] eqn:Hval1; cbn [bind] in Hrun1; [|discriminate].
  destruct (createAppointment_resolve env2 req2 db) as [r2|] eqn:Hres2;
    cbn [bind] in Hrun2; [|discriminate].
  destruct (createAppointment_validate Number (req_tenantId req2) r2 db)
    as [[]|] eqn:Hval2; cbn [bind] in Hrun2; [|discriminate].
  injection Hrun1 as <- <-. injection Hrun2 as <- <-.
  cbn [rs_data] in *.
  set (a1 := newAppointment env1 (req_tenantId req1) r1 (cb_notes (req_body req1)))
    in *.
  set (a2 := newAppointment env2 (req_tenantId req2) r2 (cb_notes (req_body req2)))
    in *.
  assert (Hdb : Invariant.doubleBooked a1 a2).
  { apply createAppointment_resolve_Ok_inv in Hres1 as (_ & Hs1 & Hc1 & _).
    apply createAppointment_resolve_Ok_inv in Hres2 as (_ & Hs2 & Hc2 & _).
    unfold Invariant.doubleBooked. subst a1 a2. cbn in *.
    split; [assumption|]. split; [|repeat split; assumption].
    destruct Hsame as [H|H]; [left|right]; congruence. }
  eexists. split; [|split; [|split; [exact Hdb|split]]].
  - unfold createAppointment_interleaved. cbn [atLookups atWrite].
    rewrite Hres2. cbn [bind].
    change (createAppointment_checks Number (req_tenantId req2) r2
              (mkViews db db db _))
      with (createAppointment_validate Number (req_tenantId req2) r2 db).
    rewrite Hval2. cbn [bind]. reflexivity.
  - cbn. now rewrite <- List.app_assoc.
  - cbn. rewrite <- List.app_assoc. intros H.
    apply ForallOrdPairs_app in H as (_ & H & _).
    inversion H as [|? ? Hall _]; subst.
    inversion Hall as [|? ? Hab _]; subst. now apply Hab.
  - match goal with
    | |- exists err, ?run = (?d, Throw err) =>
        destruct run as [db' [resp|err]] eqn:Hrun
    end.
    + exfalso.
      apply createAppointment_Ok_inv in Hrun as (r & Hres & Hval & _).
      change (createAppointment_resolve env2 req2 db = Ok r) in Hres.
      rewrite Hres2 in Hres. injection Hres as <-.
      apply createAppointment_validate_Ok_inv in Hval as (_ & _ & Hstaff & Hclient).
      rewrite find_None_iff in Hstaff, Hclient.
      assert (Hin : In a1 (appointments db ++ [a1]))
        by (apply List.in_or_app; right; now left).
      destruct (doubleBooked_found a1 a2 None Hdb eq_refl) as [H|H];
        subst a2; cbn in H.
      * rewrite (Hstaff a1 Hin) in H. discriminate.
      * rewrite (Hclient a1 Hin) in H. discriminate.
    + apply createAppointment_Throw_inv in Hrun as ->. now exists err.
Qed.

Lemma interleaved_bookings_double_book_witness :
  exists db12,
    createAppointment_interleaved JS.Number_digits Scenario.env1
      (Scenario.book "s1" "c2" Scenario.mon_0900 Scenario.mon_0930)
      (mkViews Scenario.db0 Scenario.db0 Scenario.db0 Scenario.db1)
    = (db12,
       Ok (mkApiResponse 201
             (mkAppointment "a2" "t1" "svc" "s1" "c2" Scenario.mon_0900
                Scenario.mon_0930 PENDING 50 "USD" None Scenario.sun_1030 None)
             "Appointment created successfully"))
    /\ ~ Invariant.noDoubleBooking (appointments db12).
Proof.
  assert (Hids : freshId Scenario.env0 <> freshId Scenario.env1) by discriminate.
  destruct (interleaved_bookings_double_book JS.Number_digits
              Scenario.env0 Scenario.env1
              (Scenario.book "s1" "c1" Scenario.mon_0900 Scenario.mon_0930)
              (Scenario.book "s1" "c2" Scenario.mon_0900 Scenario.mon_0930)
              Scenario.db0 Scenario.db1 _
              (mkApiResponse 201 Scenario.appt1 "Appointment created successfully")
              _ ltac:(vm_compute; reflexivity) ltac:(vm_compute; reflexivity)
              Hids eq_refl (or_introl eq_refl) eq_refl eq_refl)
    as (db12 & Hrun & _ & _ & Hbad & _).
  exists db12. split; assumption.
Defined.

Lemma cancelAppointment_rows env req db :
  appointments (fst (cancelAppointment env req db))
  = List.map (fun a => if cancelWhere (req_tenantId req) (req_id req) a
                       then cancelData env a else a) (appointments db).
Proof.
  rewrite cancelAppointment_unfold. cbv zeta. now destruct (_ =? 0).
Qed.

Lemma cancelAppointment_frame env req db :
  let db' := fst (cancelAppointment env req db) in
  services db' = services db /\ staff db' = staff db /\ users db' = users db
  /\ tenantUsers db' = tenantUsers db /\ staffServices db' = staffServices db
  /\ availabilities db' = availabilities db /\ timeOffs db' = timeOffs db
  /\ notifications db' = notifications db.
Proof.
  rewrite cancelAppointment_unfold. cbv zeta. destruct (_ =? 0); cbn; repeat split.
Qed.

(** The rows of a store after [updateAppointment]: the rows before, or the
    rows before with one row rewritten by the [data] of the update. *)
Lemma updateAppointment_rows Number env req db :
  appointments (fst (updateAppointment Number env req db)) = appointments db
  \/ exists before a after newStart newEnd,
       appointments db = before ++ a :: after
       /\ ap_id a = req_id req
       /\ appointments (fst (updateAppointment Number env req db))
          = before ++ updateData env (req_body req) newStart newEnd a :: after
       /\ (JS.truthy_obj (ub_start (req_body req)) = true -> newStart < newEnd).
Proof.
  destruct (updateAppointment Number env req db) as [db' [resp|err]] eqn:Hrun;
    [|apply updateAppointment_Throw_inv in Hrun as ->; now left].
  right. cbn [fst].
  apply updateAppointment_Ok_inv in Hrun
    as (appointment & newStart & newEnd & rows & _ & _ & Hchk & Hupd & ->).
  apply updateUnique_Some_inv in Hupd
    as (before & a & after & Hl & Ha & _ & -> & _).
  apply String.eqb_eq in Ha.
  exists before, a, after, newStart, newEnd. repeat split; try assumption.
  intros Ht. rewrite Ht in Hchk. cbn [orb] in Hchk.
  now apply updateAppointment_reschedule_Ok_inv in Hchk as (_ & _ & Hlt & _).
Qed.

Lemma updateAppointment_frame Number env req db :
  let db' := fst (updateAppointment Number env req db) in
  services db' = services db /\ staff db' = staff db /\ users db' = users db
  /\ tenantUsers db' = tenantUsers db /\ staffServices db' = staffServices db
  /\ availabilities db' = availabilities db /\ timeOffs db' = timeOffs db
  /\ notifications db' = notifications db.
Proof.
  cbv zeta.
  destruct (updateAppointment Number env req db) as [db' [resp|err]] eqn:Hrun.
  - apply updateAppointment_Ok_inv in Hrun as (? & ? & ? & rows & _ & _ & _ & _ & ->).
    cbn. repeat split.
  - apply updateAppointment_Throw_inv in Hrun as ->. cbn. repeat split.
Qed.

(** X7.  [cancelAppointment] keeps the table free of double bookings,
    whatever its outcome. *)
Theorem cancelAppointment_keeps_noDoubleBooking :
  forall (env : Env) (req : Request unit) (db : Db),
    Invariant.noDoubleBooking (appointments db) ->
    Invariant.noDoubleBooking (appointments (fst (cancelAppointment env req db))).
Proof.
  intros env req db Hinv. rewrite cancelAppointment_rows.
  apply ForallOrdPairs_map; [|exact Hinv].
  intros a b Hab (Ht & Hs & Ha & Hb & H1 & H2). apply Hab.
  destruct (cancelWhere _ _ a); [discriminate Ha|].
  destruct (cancelWhere _ _ b); [discriminate Hb|].
  repeat split; assumption.
Qed.

Lemma cancelAppointment_keeps_noDoubleBooking_witness :
  Invariant.noDoubleBooking
    (appointments
       (fst (cancelAppointment Scenario.env1 (Scenario.cancel "t1" "a1")
               Scenario.db1))).
Proof.
  apply cancelAppointment_keeps_noDoubleBooking.
  rewrite scenario_db1_rows. repeat constructor.
Defined.

(** X8.  Updates and cancellations never add or remove a row, and never
    rewrite the id, tenant, service, staff member, client, price or currency
    of a row; they touch no table but the appointments. *)
Theorem update_and_cancel_keep_identity :
  forall (Number : string -> JS.jsnum) (env : Env) (db : Db),
    (forall req,
       let db' := fst (updateAppointment Number env req db) in
       List.map Invariant.identity (appointments db')
       = List.map Invariant.identity (appointments db)
       /\ db' = set_appointments (appointments db') db)
    /\ (forall req,
          let db' := fst (cancelAppointment env req db) in
          List.map Invariant.identity (appointments db')
          = List.map Invariant.identity (appointments db)
          /\ db' = set_appointments (appointments db') db).
Proof.
  intros Number env db. split; intros req; cbv zeta; split.
  - destruct (updateAppointment_rows Number env req db)
      as [->|(before & a & after & s & e & Hl & _ & -> & _)]; [reflexivity|].
    rewrite Hl, !List.map_app. reflexivity.
  - pose proof (updateAppointment_frame Number env req db) as H. cbv zeta in H.
    destruct (fst (updateAppointment Number env req db)). cbn in *.
    destruct H as (-> & -> & -> & -> & -> & -> & -> & ->). now destruct db.
  - rewrite cancelAppointment_rows, List.map_map. apply List.map_ext.
    intros a. now destruct (cancelWhere _ _ a).
  - pose proof (cancelAppointment_frame env req db) as H. cbv zeta in H.
    destruct (fst (cancelAppointment env req db)). cbn in *.
    destruct H as (-> & -> & -> & -> & -> & -> & -> & ->). now destruct db.
Qed.

(** X9.  Every handler that writes appointments keeps them well formed:
    when every row ends after it starts, so does every row after
    [createAppointment], [updateAppointment] or [cancelAppointment]. *)
Theorem handlers_keep_intervals_well_formed :
  forall (Number : string -> JS.jsnum) (env : Env) (db : Db),
    Invariant.wellFormed (appointments db) ->
    (forall req,
       Invariant.wellFormed (appointments (fst (createAppointment Number env req db))))
    /\ (forall req,
          Invariant.wellFormed
            (appointments (fst (updateAppointment Number env req db))))
    /\ (forall req,
          Invariant.wellFormed (appointments (fst (cancelAppointment env req db)))).
Proof.
  intros Number env db Hwf. unfold Invariant.wellFormed in *. repeat split; intros req.
  - destruct (createAppointment Number env req db) as [db' [resp|err]] eqn:Hrun.
    + cbn [fst]. apply createAppointment_Ok_inv in Hrun as (r & Hres & _ & Hd & ->).
      apply createAppointment_resolve_Ok_inv in Hres
        as (_ & _ & _ & _ & _ & Hlt & _).
      apply List.Forall_app. split; [assumption|]. constructor; [|constructor].
      now rewrite Hd.
    + now apply createAppointment_Throw_inv in Hrun as ->.
  - destruct (updateAppointment_rows Number env req db)
      as [->|(before & a & after & s & e & Hl & _ & -> & Hlt)]; [assumption|].
    rewrite Hl in Hwf. apply List.Forall_app in Hwf as [Hb Ha].
    inversion Ha as [|? ? Haa Hafter]; subst.
    apply List.Forall_app. split; [assumption|]. constructor; [|assumption].
    unfold updateData. cbn. destruct (JS.truthy_obj _); [now apply Hlt|assumption].
  - rewrite cancelAppointment_rows. apply List.Forall_map.
    eapply List.Forall_impl; [|exact Hwf]. intros a Ha.
    now destruct (cancelWhere _ _ a).
Qed.

Lemma handlers_keep_intervals_well_formed_witness :
  Invariant.wellFormed
    (appointments
       (fst (updateAppointment JS.Number_digits Scenario.env1
               (Scenario.reschedule "a1" Scenario.mon_0915 Scenario.mon_0945)
               Scenario.db1))).
Proof.
  apply (handlers_keep_intervals_well_formed JS.Number_digits Scenario.env1
           Scenario.db1).
  rewrite scenario_db1_rows. repeat constructor.
Defined.

(** X10.  No appointment is left without its notification: when every
    appointment has a notification that names it, every appointment has one
    after [createAppointment], [updateAppointment] or [cancelAppointment]. *)
Theorem handlers_keep_appointments_notified :
  forall (Number : string -> JS.jsnum) (env : Env) (db : Db),
    Invariant.notified db ->
    (forall req, Invariant.notified (fst (createAppointment Number env req db)))
    /\ (forall req, Invariant.notified (fst (updateAppointment Number env req db)))
    /\ (forall req, Invariant.notified (fst (cancelAppointment env req db))).
Proof.
  intros Number env db Hinv.
  assert (Hkeep : forall db' : Db,
             List.map ap_id (appointments db') = List.map ap_id (appointments db) ->
             notifications db' = notifications db -> Invariant.notified db').
  { intros db' Hids Hn a Hin. rewrite Hn.
    assert (Hid : In (ap_id a) (List.map ap_id (appointments db)))
      by (rewrite <- Hids; now apply List.in_map).
    apply List.in_map_iff in Hid as (a0 & Hid & Hin0).
    destruct (Hinv a0 Hin0) as (n & Hn1 & Hn2). exists n. split; congruence. }
  repeat split; intros req.
  - unfold createAppointment.
    destruct (createAppointment_resolve env req db) as [r|];
      cbn [bind fst]; [|exact Hinv].
    destruct (createAppointment_validate _ _ _ _) as [[]|];
      cbn [bind fst]; [|exact Hinv].
    intros a Hin. cbn in Hin |- *. apply List.in_app_or in Hin as [Hin|[<-|[]]].
    + destruct (Hinv a Hin) as (n & Hn1 & Hn2). exists n.
      split; [apply List.in_or_app; now left|assumption].
    + eexists. split; [apply List.in_or_app; right; now left|reflexivity].
  - apply Hkeep.
    + destruct (updateAppointment_rows Number env req db)
        as [->|(before & a & after & s & e & Hl & _ & -> & _)]; [reflexivity|].
      rewrite Hl, !List.map_app. reflexivity.
    + apply updateAppointment_frame.
  - apply Hkeep.
    + rewrite cancelAppointment_rows, List.map_map. apply List.map_ext.
      intros a. now destruct (cancelWhere _ _ a).
    + apply cancelAppointment_frame.
Qed.

Lemma handlers_keep_appointments_notified_witness :
  Invariant.notified Scenario.db1.
Proof.
  apply (proj1 (handlers_keep_appointments_notified JS.Number_digits Scenario.env0
                  Scenario.db0 (fun a (H : In a []) => match H with end))
           (Scenario.book "s1" "c1" Scenario.mon_0900 Scenario.mon_0930)).
Defined.

(** ** The weekly test, again *)

Lemma getUTCDay_weeks (t k : Z) :
  JS.getUTCDay (t + k * (7 * JS.msPerDay)) = JS.getUTCDay t.
Proof.
  unfold JS.getUTCDay, JS.msPerDay.
  replace (t + k * (7 * 86400000)) with (t + (k * 7) * 86400000) by ring.
  rewrite Z.div_add by discriminate.
  replace (t / 86400000 + k * 7 + 4) with (t / 86400000 + 4 + k * 7) by ring.
  apply Z_mod_plus_full.
Qed.

Lemma getUTCHours_weeks (t k : Z) :
  JS.getUTCHours (t + k * (7 * JS.msPerDay)) = JS.getUTCHours t.
Proof.
  unfold JS.getUTCHours, JS.msPerDay, JS.msPerHour.
  replace (t + k * (7 * 86400000)) with (t + (k * 7 * 24) * 3600000) by ring.
  rewrite Z.div_add by discriminate.
  replace (k * 7 * 24) with ((k * 7) * 24) by ring.
  apply Z_mod_plus_full.
Qed.

Lemma getUTCMinutes_weeks (t k : Z) :
  JS.getUTCMinutes (t + k * (7 * JS.msPerDay)) = JS.getUTCMinutes t.
Proof.
  unfold JS.getUTCMinutes, JS.msPerDay, JS.msPerMinute.
  replace (t + k * (7 * 86400000)) with (t + (k * 7 * 1440) * 60000) by ring.
  rewrite Z.div_add by discriminate.
  replace (k * 7 * 1440) with ((k * 7 * 24) * 60) by ring.
  apply Z_mod_plus_full.
Qed.

(** X11.  The test of a RECURRING record does recur: moving both ends of
    the candidate by a whole number of weeks, forwards or backwards, does
    not change its answer. *)
Theorem recurring_test_is_weekly :
  forall (Number : string -> JS.jsnum) (av : Availability) (s e k : Z),
    isWithinRecurringAvailability Number av
      (s + k * (7 * JS.msPerDay)) (e + k * (7 * JS.msPerDay))
    = isWithinRecurringAvailability Number av s e.
Proof.
  intros Number av s e k. unfold isWithinRecurringAvailability.
  now rewrite getUTCDay_weeks, !getUTCHours_weeks, !getUTCMinutes_weeks.
Qed.

(** *** Strings that are not of the form HH:MM *)

Lemma split_colon_no_colon (s : string) :
  ~ In ":"%char (list_ascii_of_string s) -> JS.split_colon s = [s].
Proof.
  induction s as [|c r IH]; simpl; [reflexivity|]. intros Hno.
  destruct (Ascii.eqb c ":") eqn:Hc.
  - apply Ascii.eqb_eq in Hc. exfalso. apply Hno. now left.
  - rewrite IH; [reflexivity|]. intros H. apply Hno. now right.
Qed.

Lemma split_colon_app (h r : string) :
  ~ In ":"%char (list_ascii_of_string h) ->
  JS.split_colon (h +:+ String ":" r) = h :: JS.split_colon r.
Proof.
  induction h as [|c h IH]; simpl; [reflexivity|]. intros Hno.
  destruct (Ascii.eqb c ":") eqn:Hc.
  - apply Ascii.eqb_eq in Hc. exfalso. apply Hno. now left.
  - rewrite IH; [reflexivity|]. intros H. apply Hno. now right.
Qed.

Lemma hhmmToMinutes_no_colon Number (s : string) :
  ~ In ":"%char (list_ascii_of_string s) ->
  hhmmToMinutes Number (Some s) = None
  \/ hhmmToMinutes Number (Some s) = Some JS.JNaN.
Proof.
  intros Hno. unfold hhmmToMinutes. destruct s as [|c r]; [now left|].
  rewrite (split_colon_no_colon _ Hno). cbn.
  destruct (Number (String c r)) as [| |q]; cbn; auto.
Qed.

(** X12.  A time string without a colon, such as ["0900"], never yields a
    number of minutes: [hhmmToMinutes] answers [null] or NaN, and a
    RECURRING record that has such a string as [startTime] or [endTime]
    matches no interval.  What follows a second colon is ignored:
    ["HH:MM:SS"] is read as ["HH:MM"]. *)
Theorem hhmm_edge_cases :
  forall (Number : string -> JS.jsnum),
    (forall t,
       ~ In ":"%char (list_ascii_of_string t) ->
       (hhmmToMinutes Number (Some t) = None
        \/ hhmmToMinutes Number (Some t) = Some JS.JNaN)
       /\ (forall av s e,
             av_startTime av = Some t \/ av_endTime av = Some t ->
             isWithinRecurringAvailability Number av s e = false))
    /\ (forall h m rest,
          ~ In ":"%char (list_ascii_of_string h) ->
          ~ In ":"%char (list_ascii_of_string m) ->
          hhmmToMinutes Number (Some (h +:+ String ":" (m +:+ String ":" rest)))
          = hhmmToMinutes Number (Some (h +:+ String ":" m))).
Proof.
  intros Number. split.
  - intros t Hno. split; [now apply hhmmToMinutes_no_colon|].
    intros av s e Ht. apply recurring_unparsed_never_matches.
    destruct Ht as [Ht|Ht]; rewrite Ht;
      destruct (hhmmToMinutes_no_colon Number t Hno) as [H|H]; rewrite H; auto.
  - intros h m rest Hh Hm. unfold hhmmToMinutes.
    rewrite !(split_colon_app h) by assumption.
    rewrite (split_colon_app m) by assumption.
    rewrite (split_colon_no_colon m) by assumption.
    destruct h; reflexivity.
Qed.

Lemma hhmm_edge_cases_witness :
  isWithinRecurringAvailability JS.Number_digits
    (mkAvailability "av" "t1" "s1" RECURRING (Some 1) (Some "0900") (Some "12:00")
       None None None)
    Scenario.mon_0900 Scenario.mon_0930 = false
  /\ hhmmToMinutes JS.Number_digits (Some "09:30:59")
     = hhmmToMinutes JS.Number_digits (Some "09:30").
Proof.
  split.
  - apply (proj2 (proj1 (hhmm_edge_cases JS.Number_digits) "0900"
                    ltac:(cbn; intuition discriminate))).
    left. reflexivity.
  - apply (proj2 (hhmm_edge_cases JS.Number_digits) "09" "30" "59");
      cbn; intuition discriminate.
Defined.

(** ** Services *)

Lemma truthy_str_spec (x : option string) :
  JS.truthy_str x = true <-> exists s, x = Some s /\ s <> "".
Proof.
  destruct x as [[|c r]|]; simpl.
  - split; [discriminate|]. intros (s & [= <-] & H). now destruct H.
  - split; [|reflexivity]. intros _. now eexists.
  - split; [discriminate|]. intros (s & H & _). discriminate.
Qed.

Lemma truthy_int_spec (x : option Z) :
  JS.truthy_int x = true <-> exists n, x = Some n /\ n <> 0.
Proof.
  destruct x as [[| |]|]; simpl.
  - split; [discriminate|]. intros (n & [= <-] & H). now destruct H.
  - split; [|reflexivity]. intros _. now eexists.
  - split; [|reflexivity]. intros _. now eexists.
  - split; [discriminate|]. intros (n & H & _). discriminate.
Qed.

Lemma positive_price (q : Q) :
  JS.Qis_zero q = false -> Qle_bool 0 q = true -> (0 < q)%Q.
Proof.
  unfold JS.Qis_zero. intros Hz Hle. rewrite Hle, andb_true_r in Hz.
  apply Qnot_le_lt. intros H. apply Qle_bool_iff in H. congruence.
Qed.

Lemma orElse_truthy (x y : option string) :
  JS.truthy_str y = true -> JS.truthy_str (orElse x y) = true.
Proof. unfold orElse. now destruct (JS.truthy_str x) eqn:E. Qed.

(** X13.  [createService] accepts a request iff its user is an OWNER or an
    ADMIN, its title is not empty, its duration is positive and fits the
    INTEGER column (at most 2147483647) and its price is positive: a price
    of 0 is taken for a missing price.  It then appends
    one service, of the tenant of the request, active, not deleted, with a
    currency that is not empty, and touches nothing else; a refused request
    writes nothing. *)
Theorem createService_accepts_iff :
  forall (trim : string -> string) (env : Env) (currency : option string)
         (req : Request CreateServiceBody) (db : Db),
    ((exists db' resp, createService trim env currency req db = (db', Ok resp))
     <-> requireTenantRole (req_user req) ["OWNER"; "ADMIN"] = Ok tt
         /\ exists title duration price,
              csb_title (req_body req) = Some title /\ title <> ""
              /\ csb_duration (req_body req) = Some duration
              /\ 0 < duration <= 2147483647
              /\ csb_price (req_body req) = Some price /\ (0 < price)%Q)
    /\ (forall db' out,
          createService trim env currency req db = (db', out) ->
          match out with
          | Throw _ => db' = db
          | Ok resp =>
              db' = set_services (services db ++ [rs_data resp]) db
              /\ svc_id (rs_data resp) = freshId env
              /\ svc_tenantId (rs_data resp) = req_tenantId req
              /\ svc_active (rs_data resp) = true
              /\ svc_deletedAt (rs_data resp) = None
              /\ Some (svc_duration (rs_data resp)) = csb_duration (req_body req)
              /\ Some (svc_price (rs_data resp)) = csb_price (req_body req)
              /\ 0 < svc_duration (rs_data resp) <= 2147483647
              /\ (0 < svc_price (rs_data resp))%Q
              /\ svc_currency (rs_data resp) <> ""
          end)
    /\ (requireTenantRole (req_user req) ["OWNER"; "ADMIN"] = Ok tt ->
        forall price,
          csb_price (req_body req) = Some price -> (price == 0)%Q ->
          createService trim env currency req db
          = (db, Throw (ApiError 400
                          "Missing required fields: title, duration, price"))).
Proof.
  intros trim env currency req db. unfold createService.
  destruct (requireTenantRole (req_user req) ["OWNER"; "ADMIN"]) as [[]|e] eqn:Hrole;
    cbn [bind].
  2: { split; [split|split].
       - intros (db' & resp & H). discriminate H.
       - intros (H & _). discriminate H.
       - intros db' out [= <- <-]. reflexivity.
       - intros H. discriminate H. }
  destruct (JS.truthy_str (csb_title (req_body req))) eqn:Ht.
  2: { cbn. split; [split|split].
       - intros (db' & resp & H). discriminate H.
       - intros (_ & t & d & p & Hs & Hne & _).
         assert (JS.truthy_str (csb_title (req_body req)) = true)
           by (apply truthy_str_spec; eauto).
         congruence.
       - intros db' out [= <- <-]. reflexivity.
       - intros; reflexivity. }
  destruct (JS.truthy_int (csb_duration (req_body req))) eqn:Hd.
  2: { cbn. split; [split|split].
       - intros (db' & resp & H). discriminate H.
       - intros (_ & t & d & p & _ & _ & Hs & Hpos & _).
         assert (JS.truthy_int (csb_duration (req_body req)) = true)
           by (apply truthy_int_spec; exists d; split; [assumption|lia]).
         congruence.
       - intros db' out [= <- <-]. reflexivity.
       - intros; reflexivity. }
  apply truthy_str_spec in Ht as (title & Ht & Hne).
  apply truthy_int_spec in Hd as (duration & Hd & Hdne).
  rewrite Ht, Hd.
  destruct (csb_price (req_body req)) as [price|] eqn:Hp.
  2: { cbn. split; [split|split].
       - intros (db' & resp & H). discriminate H.
       - intros (_ & t & d & p & _ & _ & _ & _ & H & _). discriminate H.
       - intros db' out [= <- <-]. reflexivity.
       - intros _ price H. discriminate H. }
  cbn [truthy_price]. destruct (JS.Qis_zero price) eqn:Hz.
  { cbn. split; [split|split].
    - intros (db' & resp & H). discriminate H.
    - intros (_ & t & d & p & _ & _ & _ & _ & [= <-] & Hpos). exfalso.
      unfold JS.Qis_zero in Hz. apply andb_true_iff in Hz as [Hz _].
      apply Qle_bool_iff in Hz. now apply (Qlt_not_le _ _ Hpos).
    - intros db' out [= <- <-]. reflexivity.
    - intros; reflexivity. }
  cbn [negb orb throwIf bind].
  destruct (duration <=? 0) eqn:Hle.
  { cbn. split; [split|split].
    - intros (db' & resp & H). discriminate H.
    - intros (_ & t & d & p & _ & _ & [= <-] & Hpos & _).
      apply Z.leb_le in Hle. lia.
    - intros db' out [= <- <-]. reflexivity.
    - intros _ p [= <-] Hzero. exfalso. unfold JS.Qis_zero in Hz.
      assert (Qle_bool price 0 = true) by (apply Qle_bool_iff; rewrite Hzero; apply Qle_refl).
      assert (Qle_bool 0 price = true) by (apply Qle_bool_iff; rewrite Hzero; apply Qle_refl).
      rewrite H, H0 in Hz. discriminate. }
  apply Z.leb_gt in Hle. cbn [throwIf bind].
  destruct (Qle_bool 0 price) eqn:Hq.
  2: { cbn. split; [split|split].
       - intros (db' & resp & H). discriminate H.
       - intros (_ & t & d & p & _ & _ & _ & _ & [= <-] & Hpos).
         assert (Qle_bool 0 price = true)
           by (apply Qle_bool_iff; now apply Qlt_le_weak).
         congruence.
       - intros db' out [= <- <-]. reflexivity.
       - intros _ p [= <-] Hzero. exfalso.
         assert (Qle_bool 0 price = true)
           by (apply Qle_bool_iff; rewrite Hzero; apply Qle_refl).
         congruence. }
  cbn [negb throwIf bind]. pose proof (positive_price price Hz Hq) as Hpos.
  destruct (fitsInt4 duration) eqn:Hfit.
  2: { cbn. split; [split|split].
       - intros (db' & resp & H). discriminate H.
       - intros (_ & t & d & p & _ & _ & [= <-] & Hfits & _).
         unfold fitsInt4, int4Max in Hfit.
         apply andb_false_iff in Hfit as [H|H]; apply Z.leb_gt in H; lia.
       - intros db' out [= <- <-]. reflexivity.
       - intros _ p [= <-] Hzero. exfalso. rewrite Hzero in Hpos.
         now apply (Qlt_irrefl 0). }
  assert (Hmax : duration <= 2147483647).
  { unfold fitsInt4, int4Max in Hfit. apply andb_true_iff in Hfit as [_ H].
    now apply Z.leb_le in H. }
  cbn [negb throwIf bind].
  split; [split|split].
  - intros _. split; [reflexivity|]. exists title, duration, price.
    repeat apply conj; try reflexivity; assumption.
  - intros _. now eexists _, _.
  - intros db' out [= <- <-]. cbn.
    repeat apply conj; try reflexivity; try assumption.
    intros Hc. pose proof (orElse_truthy
                             (orElse (csb_currency (req_body req)) currency)
                             (Some "USD") eq_refl) as H.
    destruct (orElse _ (Some "USD")) as [[|c r]|]; cbn in *; discriminate.
  - intros _ p [= <-] Hzero. exfalso. rewrite Hzero in Hpos.
    now apply (Qlt_irrefl 0).
Qed.

Lemma createService_accepts_iff_witness :
  (exists db' resp,
     createService (fun s => s) Scenario.env0 None
       (mkRequest "t1" Scenario.owner ""
          (mkCreateServiceBody (Some "Massage") None (Some 45) (Some 80%Q) None))
       Scenario.db0 = (db', Ok resp))
  /\ createService (fun s => s) Scenario.env0 None
       (mkRequest "t1" Scenario.owner ""
          (mkCreateServiceBody (Some "Free trial") None (Some 45) (Some 0%Q) None))
       Scenario.db0
     = (Scenario.db0,
        Throw (ApiError 400 "Missing required fields: title, duration, price")).
Proof.
  split.
  - apply (proj1 (createService_accepts_iff (fun s => s) Scenario.env0 None
                    (mkRequest "t1" Scenario.owner ""
                       (mkCreateServiceBody (Some "Massage") None (Some 45)
                          (Some 80%Q) None))
                    Scenario.db0)).
    split; [reflexivity|]. exists "Massage", 45, 80%Q.
    repeat split; try reflexivity; discriminate.
  - apply (proj2 (proj2 (createService_accepts_iff (fun s => s) Scenario.env0 None
                           (mkRequest "t1" Scenario.owner ""
                              (mkCreateServiceBody (Some "Free trial") None
                                 (Some 45) (Some 0%Q) None))
                           Scenario.db0))
             eq_refl 0%Q eq_refl).
    reflexivity.
Defined.

(** What [updateService] leaves in the store: the store as it was, or,
    once the checks on the body have passed, the services rewritten by
    [updateMany]. *)
Lemma updateService_store (req : Request UpdateServiceBody) (db : Db) :
  fst (updateService req db) = db
  \/ (requireTenantRole (req_user req) ["OWNER"; "ADMIN"] = Ok tt
      /\ (forall d, usb_duration (req_body req) = Some d -> 0 < d)
      /\ (forall p, usb_price (req_body req) = Some p -> (0 <= p)%Q)
      /\ fst (updateService req db)
         = set_services
             (List.map (fun s => if liveServiceWhere (req_tenantId req) (req_id req) s
                                 then updateServiceData (req_body req) s else s)
                (services db)) db).
Proof.
  unfold updateService.
  destruct (requireTenantRole _ _) as [[]|]; cbn [bind]; [|now left].
  match goal with
  | |- context [throwIf ?b (ApiError 400 "Duration must be positive")] =>
      destruct b eqn:Hd
  end; cbn [throwIf bind]; [now left|].
  match goal with
  | |- context [throwIf ?b (ApiError 400 "Price must be >= 0")] =>
      destruct b eqn:Hp
  end; cbn [throwIf bind]; [now left|].
  match goal with
  | |- context [throwIf ?b outOfRange] => destruct b eqn:Hr
  end; cbn [throwIf]; [now left|].
  right. split; [reflexivity|]. split; [|split].
  - intros d Hd'. rewrite Hd' in Hd. now apply Z.leb_gt in Hd.
  - intros p Hp'. rewrite Hp' in Hp. apply negb_false_iff in Hp.
    now apply Qle_bool_iff in Hp.
  - unfold updateMany. now destruct (_ =? 0).
Qed.

Lemma deleteService_store (env : Env) (req : Request unit) (db : Db) :
  fst (deleteService env req db) = db
  \/ (requireTenantRole (req_user req) ["OWNER"; "ADMIN"] = Ok tt
      /\ fst (deleteService env req db)
         = set_services
             (List.map (fun s => if liveServiceWhere (req_tenantId req) (req_id req) s
                                 then deleteServiceData env s else s)
                (services db)) db).
Proof.
  unfold deleteService.
  destruct (requireTenantRole _ _) as [[]|]; [|now left].
  right. split; [reflexivity|]. unfold updateMany. now destruct (_ =? 0).
Qed.

Lemma createService_store trim env currency (req : Request CreateServiceBody) db :
  fst (createService trim env currency req db) = db
  \/ exists s,
       0 < svc_duration s /\ svc_tenantId s = req_tenantId req
       /\ svc_id s = freshId env
       /\ fst (createService trim env currency req db)
          = set_services (services db ++ [s]) db.
Proof.
  unfold createService.
  destruct (requireTenantRole _ _) as [[]|]; cbn [bind]; [|now left].
  destruct (_ || _ || _); cbn [throwIf bind]; [now left|].
  destruct (csb_title (req_body req)) as [title|]; [|now left].
  destruct (csb_duration (req_body req)) as [duration|]; [|now left].
  destruct (csb_price (req_body req)) as [price|]; [|now left].
  destruct (duration <=? 0) eqn:Hle; cbn [throwIf bind]; [now left|].
  destruct (Qle_bool 0 price); cbn [negb throwIf bind]; [|now left].
  destruct (fitsInt4 duration); cbn [negb throwIf bind]; [|now left].
  right. eexists. repeat apply conj; cycle 3.
  { reflexivity. }
  all: cbn; try reflexivity. now apply Z.leb_gt.
Qed.

(** X14.  Every service keeps a positive duration: when every service of
    the store lasts a positive number of minutes, so does every service
    after [createService], [updateService] or [deleteService], whatever the
    request and its outcome. *)
Theorem service_handlers_keep_durations_positive :
  forall (trim : string -> string) (env : Env) (db : Db),
    Invariant.positiveDurations (services db) ->
    (forall currency req,
       Invariant.positiveDurations
         (services (fst (createService trim env currency req db))))
    /\ (forall req,
          Invariant.positiveDurations (services (fst (updateService req db))))
    /\ (forall req,
          Invariant.positiveDurations (services (fst (deleteService env req db)))).
Proof.
  intros trim env db Hinv. unfold Invariant.positiveDurations in *.
  split; [|split].
  - intros currency req.
    destruct (createService_store trim env currency req db)
      as [->|(s & Hpos & _ & _ & ->)]; [assumption|].
    cbn. apply List.Forall_app. split; [assumption|]. now repeat constructor.
  - intros req. destruct (updateService_store req db) as [->|(_ & Hd & _ & ->)];
      [assumption|].
    cbn. apply List.Forall_map. eapply List.Forall_impl; [|exact Hinv].
    intros s Hs. destruct (liveServiceWhere _ _ s); [|assumption].
    cbn. destruct (usb_duration (req_body req)) as [d|]; cbn; [now apply Hd|assumption].
  - intros req. destruct (deleteService_store env req db) as [->|(_ & ->)];
      [assumption|].
    cbn. apply List.Forall_map. eapply List.Forall_impl; [|exact Hinv].
    intros s Hs. now destruct (liveServiceWhere _ _ s).
Qed.

Lemma service_handlers_keep_durations_positive_witness :
  Invariant.positiveDurations
    (services
       (fst (updateService
               (mkRequest "t1" Scenario.owner "svc"
                  (mkUpdateServiceBody None None (Some 60) None None None))
               Scenario.db0))).
Proof.
  apply (service_handlers_keep_durations_positive (fun s => s) Scenario.env0
           Scenario.db0).
  unfold Invariant.positiveDurations. cbn. repeat constructor.
Defined.

Lemma Forall2_map_if {A} (p : A -> bool) (f : A -> A) (l : list A) :
  List.Forall2 (fun x x' => x' = x \/ (p x = true /\ x' = f x)) l
    (List.map (fun x => if p x then f x else x) l).
Proof.
  induction l as [|x l IH]; simpl; constructor; [|assumption].
  destruct (p x); auto.
Qed.

Lemma Forall2_same {A} (R : A -> A -> Prop) (l : list A) :
  (forall x, R x x) -> List.Forall2 R l l.
Proof. intros H. induction l; constructor; auto. Qed.

Lemma updateMany_count_zero {A} (p : A -> bool) (f : A -> A) (l : list A) :
  (snd (updateMany p f l) =? 0) = true <-> (forall x, In x l -> p x = false).
Proof.
  unfold updateMany. cbn [snd]. rewrite Z.eqb_eq, <- filter_nil_iff.
  destruct (List.filter p l); cbn; split; try reflexivity; try discriminate; lia.
Qed.

(** X15.  [updateService] is fenced: it rewrites only services that have
    the id asked for, belong to the tenant of the request and are not
    deleted, it never changes the id, the tenant or the deletion stamp of a
    row, and it touches no other table.  It does not succeed when there is
    no such service, and when it succeeds it answers with a service of that
    id and tenant. *)
Theorem updateService_is_fenced :
  forall (req : Request UpdateServiceBody) (db : Db),
    fst (updateService req db)
    = set_services (services (fst (updateService req db))) db
    /\ List.Forall2
         (fun s s' =>
            s' = s
            \/ (liveServiceWhere (req_tenantId req) (req_id req) s = true
                /\ s' = updateServiceData (req_body req) s))
         (services db) (services (fst (updateService req db)))
    /\ List.map (fun s => (svc_id s, svc_tenantId s, svc_deletedAt s))
         (services (fst (updateService req db)))
       = List.map (fun s => (svc_id s, svc_tenantId s, svc_deletedAt s)) (services db)
    /\ ((forall s, In s (services db) ->
                   ~ (svc_id s = req_id req /\ svc_tenantId s = req_tenantId req
                      /\ svc_deletedAt s = None)) ->
        forall r, snd (updateService req db) <> Ok r)
    /\ (forall r,
          snd (updateService req db) = Ok r ->
          exists s, rs_data r = Some s
                    /\ In s (services (fst (updateService req db)))
                    /\ svc_id s = req_id req /\ svc_tenantId s = req_tenantId req).
Proof.
  intros req db. split; [|split; [|split; [|split]]].
  - destruct (updateService_store req db) as [->|(_ & _ & _ & ->)];
      [now destruct db|reflexivity].
  - destruct (updateService_store req db) as [->|(_ & _ & _ & ->)].
    + apply Forall2_same. auto.
    + apply Forall2_map_if.
  - destruct (updateService_store req db) as [->|(_ & _ & _ & ->)]; [reflexivity|].
    cbn. rewrite List.map_map. apply List.map_ext. intros s.
    now destruct (liveServiceWhere _ _ s).
  - intros Hnone r. unfold updateService.
    destruct (bind _ _) as [[]|]; [|discriminate].
    destruct (updateMany _ _ _) as [rows count] eqn:Hupd.
    assert (Hc : (count =? 0) = true).
    { change count with (snd (rows, count)). rewrite <- Hupd.
      apply updateMany_count_zero. intros s Hin. apply not_true_is_false.
      intros H. apply liveServiceWhere_spec in H. now apply (Hnone s). }
    rewrite Hc. discriminate.
  - intros r. unfold updateService.
    destruct (bind _ _) as [[]|]; [|discriminate].
    destruct (updateMany _ _ _) as [rows count] eqn:Hupd.
    destruct (count =? 0) eqn:Hc; [discriminate|]. cbn [fst snd].
    intros [= <-]. cbn [rs_data services set_services].
    assert (Hex : exists x, In x (services db)
                            /\ liveServiceWhere (req_tenantId req) (req_id req) x = true).
    { destruct (List.filter (liveServiceWhere (req_tenantId req) (req_id req))
                  (services db)) as [|x xs] eqn:Hf.
      - exfalso. unfold updateMany in Hupd. rewrite Hf in Hupd.
        injection Hupd as _ <-. discriminate.
      - exists x. apply List.filter_In. rewrite Hf. now left. }
    destruct Hex as (x & Hin & Hx).
    assert (Hrows : rows = List.map (fun s => if liveServiceWhere (req_tenantId req)
                                                  (req_id req) s
                                              then updateServiceData (req_body req) s
                                              else s) (services db))
      by (unfold updateMany in Hupd; now injection Hupd as <- _).
    destruct (List.find _ rows) as [s|] eqn:Hfind.
    + exists s. apply List.find_some in Hfind as [Hs Hp].
      apply andb_true_iff in Hp as [H1 H2]. apply String.eqb_eq in H1, H2.
      repeat split; assumption.
    + exfalso. rewrite find_None_iff in Hfind.
      specialize (Hfind (updateServiceData (req_body req) x)).
      apply liveServiceWhere_spec in Hx as Hx'. destruct Hx' as (H1 & H2 & _).
      cbn in Hfind. rewrite H1, H2, !String.eqb_refl in Hfind.
      assert (In (updateServiceData (req_body req) x) rows).
      { rewrite Hrows. apply List.in_map_iff. exists x. now rewrite Hx. }
      specialize (Hfind H). discriminate.
Qed.

Lemma updateService_is_fenced_witness :
  exists s,
    In s (services
            (fst (updateService
                    (mkRequest "t1" Scenario.owner "svc"
                       (mkUpdateServiceBody (Some "Trim") None (Some 45) None None None))
                    Scenario.db0)))
    /\ svc_id s = "svc" /\ svc_tenantId s = "t1".
Proof.
  destruct (proj2 (proj2 (proj2 (proj2
             (updateService_is_fenced
                (mkRequest "t1" Scenario.owner "svc"
                   (mkUpdateServiceBody (Some "Trim") None (Some 45) None None None))
                Scenario.db0)))) _ eq_refl) as (s & _ & Hin & H1 & H2).
  exists s. split; [exact Hin|split; [exact H1|exact H2]].
Defined.

Lemma set_services_same (db : Db) : set_services (services db) db = db.
Proof. now destruct db. Qed.

Lemma set_staff_same (db : Db) : set_staff (staff db) db = db.
Proof. now destruct db. Qed.

Lemma serviceWhere_live tenantId id (s : Service) :
  serviceWhere tenantId id s = true -> liveServiceWhere tenantId id s = true.
Proof.
  rewrite serviceWhere_spec, liveServiceWhere_spec. tauto.
Qed.

(** After [updateMany] has stamped the matching rows, no row matches. *)
Lemma none_left_after_stamp {A} (p : A -> bool) (f : A -> A) (l : list A) :
  (forall x, p (f x) = false) ->
  forall y, In y (List.map (fun x => if p x then f x else x) l) -> p y = false.
Proof.
  intros Hf y Hy. apply List.in_map_iff in Hy as (x & <- & _).
  destruct (p x) eqn:Hx; [apply Hf|assumption].
Qed.

Lemma updateMany_Ok_rows {A} (p : A -> bool) (f : A -> A) (l : list A) :
  fst (updateMany p f l) = List.map (fun x => if p x then f x else x) l.
Proof. reflexivity. Qed.

(** X16.  A service that [deleteService] has deleted can no longer be
    booked or read in its tenant: every [createAppointment] of that tenant
    that names it is refused and writes nothing, [getService] answers 404,
    and deleting it again answers 404 and changes nothing.  The appointments
    already booked stay as they are. *)
Theorem deleted_service_cannot_be_booked :
  forall (env : Env) (req : Request unit) (db db' : Db)
         (resp : ApiResponse string),
    deleteService env req db = (db', Ok resp) ->
    (forall (Number : string -> JS.jsnum) env2 (req2 : Request CreateBody),
       req_tenantId req2 = req_tenantId req ->
       cb_serviceId (req_body req2) = Some (req_id req) ->
       exists err, createAppointment Number env2 req2 db' = (db', Throw err))
    /\ getService req db' = Throw (ApiError 404 "Service not found")
    /\ (forall env2,
          deleteService env2 req db'
          = (db', Throw (ApiError 404 "Service not found or already deleted")))
    /\ appointments db' = appointments db.
Proof.
  intros env req db db' resp Hrun.
  assert (Hrole : requireTenantRole (req_user req) ["OWNER"; "ADMIN"] = Ok tt).
  { unfold deleteService in Hrun.
    destruct (requireTenantRole _ _) as [[]|]; [reflexivity|discriminate]. }
  assert (Hdb : db' = set_services
                        (List.map (fun s => if liveServiceWhere (req_tenantId req)
                                                 (req_id req) s
                                            then deleteServiceData env s else s)
                           (services db)) db).
  { unfold deleteService in Hrun. rewrite Hrole in Hrun. unfold updateMany in Hrun.
    destruct (_ =? 0); now injection Hrun as <- _. }
  assert (Hnone : forall s, In s (services db') ->
                            liveServiceWhere (req_tenantId req) (req_id req) s = false).
  { rewrite Hdb. cbn [services set_services]. apply none_left_after_stamp.
    intros x. unfold liveServiceWhere. cbn. now rewrite andb_false_r. }
  split; [|split; [|split]].
  - intros Number env2 req2 Ht Hs.
    destruct (createAppointment Number env2 req2 db') as [db2 [r|err]] eqn:Hc.
    + exfalso. apply createAppointment_Ok_inv in Hc as (rr & Hres & _).
      apply createAppointment_resolve_Ok_inv in Hres
        as (Hsid & _ & _ & _ & _ & _ & _ & Hfind & _).
      rewrite Hs in Hsid. injection Hsid as Hsid. rewrite <- Hsid, Ht in Hfind.
      apply List.find_some in Hfind as [Hin Hp]. apply serviceWhere_live in Hp.
      rewrite (Hnone _ Hin) in Hp. discriminate.
    + exists err. now rewrite (createAppointment_Throw_inv _ _ _ _ _ _ Hc).
  - unfold getService.
    destruct (List.find _ (services db')) as [s|] eqn:Hf; [|reflexivity].
    apply List.find_some in Hf as [Hin Hp]. rewrite (Hnone _ Hin) in Hp. discriminate.
  - intros env2. unfold deleteService. rewrite Hrole. unfold updateMany.
    rewrite (map_if_none _ _ _ Hnone), set_services_same.
    apply filter_nil_iff in Hnone. now rewrite Hnone.
  - now rewrite Hdb.
Qed.

Lemma deleted_service_cannot_be_booked_witness :
  exists err,
    createAppointment JS.Number_digits Scenario.env0
      (Scenario.book "s1" "c1" Scenario.mon_0900 Scenario.mon_0930)
      (fst (deleteService Scenario.env0 (mkRequest "t1" Scenario.owner "svc" tt)
              Scenario.db0))
    = (fst (deleteService Scenario.env0 (mkRequest "t1" Scenario.owner "svc" tt)
              Scenario.db0),
       Throw err).
Proof.
  apply (proj1 (deleted_service_cannot_be_booked Scenario.env0
                  (mkRequest "t1" Scenario.owner "svc" tt) Scenario.db0
                  (fst (deleteService Scenario.env0
                          (mkRequest "t1" Scenario.owner "svc" tt) Scenario.db0))
                  (mkApiResponse 200 "svc" "Service deleted successfully")
                  eq_refl)
           JS.Number_digits Scenario.env0
           (Scenario.book "s1" "c1" Scenario.mon_0900 Scenario.mon_0930)
           eq_refl eq_refl).
Defined.

(** X17.  A staff member that [deleteStaff] has deleted can no longer be
    booked or read in the tenant: every [createAppointment] of that tenant
    that names the staff member is refused and writes nothing, [getStaff]
    answers 404, and deleting again answers 404 and changes nothing. *)
Theorem deleted_staff_cannot_be_booked :
  forall (env : Env) (req : Request unit) (db db' : Db)
         (resp : ApiResponse string),
    deleteStaff env req db = (db', Ok resp) ->
    (forall (Number : string -> JS.jsnum) env2 (req2 : Request CreateBody),
       req_tenantId req2 = req_tenantId req ->
       cb_staffId (req_body req2) = Some (req_id req) ->
       exists err, createAppointment Number env2 req2 db' = (db', Throw err))
    /\ getStaff req db' = Throw (ApiError 404 "Staff not found")
    /\ (forall env2,
          deleteStaff env2 req db'
          = (db', Throw (ApiError 404 "Staff not found or already deleted")))
    /\ appointments db' = appointments db.
Proof.
  intros env req db db' resp Hrun.
  assert (Hrole : requireTenantRole (req_user req) ["OWNER"; "ADMIN"] = Ok tt).
  { unfold deleteStaff in Hrun.
    destruct (requireTenantRole _ _) as [[]|]; [reflexivity|discriminate]. }
  assert (Hdb : db' = set_staff
                        (List.map (fun s => if staffWhere (req_tenantId req)
                                                 (req_id req) s
                                            then deleteStaffData env s else s)
                           (staff db)) db).
  { unfold deleteStaff in Hrun. rewrite Hrole in Hrun. unfold updateMany in Hrun.
    destruct (_ =? 0); now injection Hrun as <- _. }
  assert (Hnone : forall s, In s (staff db') ->
                            staffWhere (req_tenantId req) (req_id req) s = false).
  { rewrite Hdb. cbn [staff set_staff]. apply none_left_after_stamp.
    intros x. unfold staffWhere. cbn. now rewrite andb_false_r. }
  split; [|split; [|split]].
  - intros Number env2 req2 Ht Hs.
    destruct (createAppointment Number env2 req2 db') as [db2 [r|err]] eqn:Hc.
    + exfalso. apply createAppointment_Ok_inv in Hc as (rr & Hres & _).
      apply createAppointment_resolve_Ok_inv in Hres
        as (_ & Hsid & _ & _ & _ & _ & _ & _ & (st & Hfind) & _).
      rewrite Hs in Hsid. injection Hsid as Hsid. rewrite <- Hsid, Ht in Hfind.
      apply List.find_some in Hfind as [Hin Hp].
      rewrite (Hnone _ Hin) in Hp. discriminate.
    + exists err. now rewrite (createAppointment_Throw_inv _ _ _ _ _ _ Hc).
  - unfold getStaff.
    destruct (List.find _ (staff db')) as [s|] eqn:Hf; [|reflexivity].
    apply List.find_some in Hf as [Hin Hp]. rewrite (Hnone _ Hin) in Hp. discriminate.
  - intros env2. unfold deleteStaff. rewrite Hrole. unfold updateMany.
    rewrite (map_if_none _ _ _ Hnone), set_staff_same.
    apply filter_nil_iff in Hnone. now rewrite Hnone.
  - now rewrite Hdb.
Qed.

Lemma deleted_staff_cannot_be_booked_witness :
  getStaff (mkRequest "t1" Scenario.owner "s1" tt)
    (fst (deleteStaff Scenario.env0 (mkRequest "t1" Scenario.owner "s1" tt)
            Scenario.db0))
  = Throw (ApiError 404 "Staff not found").
Proof.
  apply (proj1 (proj2 (deleted_staff_cannot_be_booked Scenario.env0
                         (mkRequest "t1" Scenario.owner "s1" tt) Scenario.db0
                         (fst (deleteStaff Scenario.env0
                                 (mkRequest "t1" Scenario.owner "s1" tt)
                                 Scenario.db0))
                         (mkApiResponse 200 "s1" "Staff deleted successfully")
                         eq_refl))).
Defined.

(** ** What a reschedule reads *)





(** ** Assignments of staff to services *)

Lemma required_str_Ok (x : option string) (e : Error) (s : string) :
  required_str x e = Ok s <-> x = Some s /\ s <> "".
Proof.
  destruct x as [[|c r]|]; simpl.
  - split; [discriminate|]. intros [[= <-] H]. now destruct H.
  - split.
    + intros [= <-]. split; [reflexivity|discriminate].
    + now intros [[= <-] _].
  - split; [discriminate|]. intros [H _]. discriminate.
Qed.

Lemma existsb_assigned_false staffId serviceId (l : list StaffService) :
  List.existsb (assignedWhere staffId serviceId) l = false
  <-> (forall x, In x l -> ~ (ss_staffId x = staffId /\ ss_serviceId x = serviceId)).
Proof.
  split.
  - intros H x Hin Hx. apply assignedWhere_spec in Hx.
    assert (List.existsb (assignedWhere staffId serviceId) l = true)
      by (apply List.existsb_exists; now exists x).
    congruence.
  - intros H. apply not_true_is_false. intros Hex.
    apply List.existsb_exists in Hex as (x & Hin & Hx).
    apply assignedWhere_spec in Hx. now apply (H x).
Qed.

Lemma find_live_service tenantId id (l : list Service) :
  (exists s, List.find (liveServiceWhere tenantId id) l = Some s)
  <-> (exists s, In s l /\ svc_id s = id /\ svc_tenantId s = tenantId
                 /\ svc_deletedAt s = None).
Proof.
  rewrite find_Some_iff. split; intros (s & Hin & H); exists s; split;
    try assumption; now apply liveServiceWhere_spec.
Qed.

Lemma find_live_staff tenantId id (l : list Staff) :
  (exists s, List.find (staffWhere tenantId id) l = Some s)
  <-> (exists s, In s l /\ stf_id s = id /\ stf_tenantId s = tenantId
                 /\ stf_deletedAt s = None).
Proof.
  rewrite find_Some_iff. split; intros (s & Hin & H); exists s; split;
    try assumption; now apply staffWhere_spec.
Qed.

(** X19.  [assignStaff] accepts a request iff its user is an OWNER or an
    ADMIN, the service and the staff member named are both rows of the
    tenant of the request that are not deleted, and the pair is not linked
    yet.  It then appends the link and touches nothing else, so that the
    assignment lookup of [createAppointment] finds it.  When all holds but
    the pair is already linked, the answer is the 409 error; a refused
    request writes nothing. *)
Theorem assignStaff_accepts_iff :
  forall (req : Request AssignStaffBody) (db : Db),
    ((exists db' resp, assignStaff req db = (db', Ok resp))
     <-> requireTenantRole (req_user req) ["OWNER"; "ADMIN"] = Ok tt
         /\ exists staffId,
              asb_staffId (req_body req) = Some staffId /\ staffId <> ""
              /\ (exists sv, In sv (services db) /\ svc_id sv = req_id req
                             /\ svc_tenantId sv = req_tenantId req
                             /\ svc_deletedAt sv = None)
              /\ (exists st, In st (staff db) /\ stf_id st = staffId
                             /\ stf_tenantId st = req_tenantId req
                             /\ stf_deletedAt st = None)
              /\ (forall l, In l (staffServices db) ->
                            ~ (ss_staffId l = staffId /\ ss_serviceId l = req_id req)))
    /\ (forall db' out,
          assignStaff req db = (db', out) ->
          match out with
          | Throw _ => db' = db
          | Ok resp =>
              asb_staffId (req_body req) = Some (ss_staffId (rs_data resp))
              /\ ss_serviceId (rs_data resp) = req_id req
              /\ db' = set_staffServices (staffServices db ++ [rs_data resp]) db
              /\ exists l,
                   List.find (assignedWhere (ss_staffId (rs_data resp)) (req_id req))
                     (staffServices db') = Some l
          end)
    /\ (requireTenantRole (req_user req) ["OWNER"; "ADMIN"] = Ok tt ->
        forall staffId,
          asb_staffId (req_body req) = Some staffId -> staffId <> "" ->
          (exists sv, In sv (services db) /\ svc_id sv = req_id req
                      /\ svc_tenantId sv = req_tenantId req
                      /\ svc_deletedAt sv = None) ->
          (exists st, In st (staff db) /\ stf_id st = staffId
                      /\ stf_tenantId st = req_tenantId req
                      /\ stf_deletedAt st = None) ->
          (exists l, In l (staffServices db)
                     /\ ss_staffId l = staffId /\ ss_serviceId l = req_id req) ->
          assignStaff req db
          = (db, Throw (ApiError 409 "Staff already assigned to this service"))).
Proof.
  intros req db. unfold assignStaff.
  destruct (requireTenantRole (req_user req) ["OWNER"; "ADMIN"]) as [[]|e] eqn:Hrole;
    cbn [bind].
  2: { split; [split|split].
       - intros (? & ? & H). discriminate H.
       - intros (H & _). discriminate H.
       - intros db' out [= <- <-]. reflexivity.
       - intros H. discriminate H. }
  destruct (required_str (asb_staffId (req_body req)) _) as [staffId|e] eqn:Hreq;
    cbn [bind].
  2: { split; [split|split].
       - intros (? & ? & H). discriminate H.
       - intros (_ & s & Hs & Hne & _).
         assert (H : required_str (asb_staffId (req_body req))
                       (ApiError 400 "staffId is required") = Ok s)
           by now apply required_str_Ok.
         congruence.
       - intros db' out [= <- <-]. reflexivity.
       - intros _ s Hs Hne.
         assert (H : required_str (asb_staffId (req_body req))
                       (ApiError 400 "staffId is required") = Ok s)
           by now apply required_str_Ok.
         congruence. }
  apply required_str_Ok in Hreq as [Hbody Hne]. rewrite Hbody.
  destruct (List.find (liveServiceWhere _ _) (services db)) as [sv|] eqn:Hsv;
    cbn [orThrow bind].
  2: { assert (Hno : ~ (exists s, In s (services db) /\ svc_id s = req_id req
                                  /\ svc_tenantId s = req_tenantId req
                                  /\ svc_deletedAt s = None)).
       { intros H. apply find_live_service in H as (s & H). congruence. }
       split; [split|split].
       - intros (? & ? & H). discriminate H.
       - intros (_ & s & _ & _ & H & _). contradiction.
       - intros db' out [= <- <-]. reflexivity.
       - intros _ s _ _ H. contradiction. }
  destruct (List.find (staffWhere _ _) (staff db)) as [st|] eqn:Hst;
    cbn [orThrow bind].
  2: { assert (Hno : ~ (exists s, In s (staff db) /\ stf_id s = staffId
                                  /\ stf_tenantId s = req_tenantId req
                                  /\ stf_deletedAt s = None)).
       { intros H. apply find_live_staff in H as (s & H). congruence. }
       split; [split|split].
       - intros (? & ? & H). discriminate H.
       - intros (_ & s & [= <-] & _ & _ & H & _). contradiction.
       - intros db' out [= <- <-]. reflexivity.
       - intros _ s [= <-] _ _ H. contradiction. }
  assert (Hsv' : exists s, In s (services db) /\ svc_id s = req_id req
                           /\ svc_tenantId s = req_tenantId req
                           /\ svc_deletedAt s = None)
    by (apply find_live_service; eauto).
  assert (Hst' : exists s, In s (staff db) /\ stf_id s = staffId
                           /\ stf_tenantId s = req_tenantId req
                           /\ stf_deletedAt s = None)
    by (apply find_live_staff; eauto).
  unfold createStaffService.
  destruct (List.existsb _ (staffServices db)) eqn:Hex; cbn.
  - split; [split|split].
    + intros (? & ? & H). discriminate H.
    + intros (_ & s & [= <-] & _ & _ & _ & H).
      apply (proj2 (existsb_assigned_false _ _ _)) in H. congruence.
    + intros db' out [= <- <-]. reflexivity.
    + reflexivity.
  - pose proof (proj1 (existsb_assigned_false _ _ _) Hex) as Hfree.
    split; [split|split].
    + intros _. split; [reflexivity|]. exists staffId. repeat apply conj; auto.
    + intros _. now eexists _, _.
    + intros db' out [= <- <-]. cbn. repeat apply conj; try reflexivity.
      apply find_Some_iff. exists (mkStaffService staffId (req_id req)). split.
      * apply List.in_or_app. right. now left.
      * apply assignedWhere_spec. now split.
    + intros _ s [= <-] _ _ _ (l & Hin & Hl). now destruct (Hfree l Hin).
Qed.

Lemma assignStaff_accepts_iff_witness :
  (exists db' resp,
     assignStaff (mkRequest "t1" Scenario.owner "svc90" (mkAssignStaffBody (Some "s1")))
       Scenario.db0 = (db', Ok resp))
  /\ assignStaff (mkRequest "t1" Scenario.owner "svc" (mkAssignStaffBody (Some "s1")))
       Scenario.db0
     = (Scenario.db0, Throw (ApiError 409 "Staff already assigned to this service")).
Proof.
  split.
  - apply (proj1 (assignStaff_accepts_iff
                    (mkRequest "t1" Scenario.owner "svc90"
                       (mkAssignStaffBody (Some "s1")))
                    Scenario.db0)).
    split; [reflexivity|]. exists "s1". split; [reflexivity|]. split; [discriminate|].
    split; [|split].
    + exists Scenario.svc90. split; [right; left; reflexivity|]. repeat split.
    + exists (mkStaff "s1" "t1" None). split; [left; reflexivity|]. repeat split.
    + intros l [<-|[<-|[<-|[]]]] [H1 H2]; cbn in *; discriminate.
  - apply (proj2 (proj2 (assignStaff_accepts_iff
                           (mkRequest "t1" Scenario.owner "svc"
                              (mkAssignStaffBody (Some "s1")))
                           Scenario.db0))
             eq_refl "s1" eq_refl).
    + discriminate.
    + exists Scenario.svc30. split; [left; reflexivity|]. repeat split.
    + exists (mkStaff "s1" "t1" None). split; [left; reflexivity|]. repeat split.
    + exists (mkStaffService "s1" "svc"). split; [left; reflexivity|]. repeat split.
Defined.

(** X20.  The two ways of assigning agree.  For a staff member and a
    service named by non-empty ids, [assignStaff] on the service and
    [assignService] on the staff member leave the same store, succeed
    together, and answer with the same link; they differ in the order of
    their lookups, hence in the error when both lookups fail. *)
Theorem assignStaff_assignService_agree :
  forall (tenantId : string) (user : option ReqUser) (staffId serviceId : string)
         (db : Db),
    staffId <> "" -> serviceId <> "" ->
    let viaService :=
      assignStaff (mkRequest tenantId user serviceId
                     (mkAssignStaffBody (Some staffId))) db in
    let viaStaff :=
      assignService (mkRequest tenantId user staffId
                       (mkAssignServiceBody (Some serviceId))) db in
    fst viaService = fst viaStaff
    /\ (forall link,
          (exists r, snd viaService = Ok r /\ rs_data r = link)
          <-> (exists r, snd viaStaff = Ok r /\ rs_data r = link)).
Proof.
  intros tenantId user staffId serviceId db Hst Hsv. cbv zeta.
  unfold assignStaff, assignService. cbn [req_user req_id req_body req_tenantId
    asb_staffId avb_serviceId].
  destruct (requireTenantRole user ["OWNER"; "ADMIN"]) as [[]|];
    cbn [bind fst snd].
  2: { split; [reflexivity|]. intros link.
       split; intros (r & H & _); discriminate H. }
  destruct staffId as [|c1 r1]; [now destruct Hst|].
  destruct serviceId as [|c2 r2]; [now destruct Hsv|].
  cbn [required_str bind].
  destruct (List.find (liveServiceWhere _ _) (services db)) as [sv|];
    destruct (List.find (staffWhere _ _) (staff db)) as [st|];
    cbn [orThrow bind fst snd];
    try (split; [reflexivity|]; intros link;
         split; intros (r & H & _); discriminate H).
  unfold createStaffService.
  destruct (List.existsb _ (staffServices db)); cbn.
  - split; [reflexivity|]. intros link. split; intros (r & H & _); discriminate H.
  - split; [reflexivity|]. intros link.
    split; intros (r & [= <-] & <-); eexists; split; reflexivity.
Qed.

Lemma assignStaff_assignService_agree_witness :
  fst (assignStaff (mkRequest "t1" Scenario.owner "svc90"
                      (mkAssignStaffBody (Some "s1"))) Scenario.db0)
  = fst (assignService (mkRequest "t1" Scenario.owner "s1"
                          (mkAssignServiceBody (Some "svc90"))) Scenario.db0).
Proof.
  apply (assignStaff_assignService_agree "t1" Scenario.owner "s1" "svc90"
           Scenario.db0); discriminate.
Defined.

Lemma deleteMany_count_zero {A} (p : A -> bool) (l : list A) :
  (snd (deleteMany p l) =? 0) = true <-> (forall x, In x l -> p x = false).
Proof.
  unfold deleteMany. cbn [snd]. rewrite Z.eqb_eq, <- filter_nil_iff.
  destruct (List.filter p l); cbn; split; try reflexivity; try discriminate; lia.
Qed.

Lemma filter_negb_none {A} (p : A -> bool) (l : list A) :
  (forall x, In x l -> p x = false) -> List.filter (fun x => negb (p x)) l = l.
Proof.
  induction l as [|x l IH]; simpl; [reflexivity|]. intros H.
  rewrite (H x (or_introl eq_refl)). cbn. rewrite IH; [reflexivity|].
  intros y Hy. apply H. now right.
Qed.

Lemma set_staffServices_same (db : Db) : set_staffServices (staffServices db) db = db.
Proof. now destruct db. Qed.

(** X21.  [unassignService] accepts a request iff its user is an OWNER or
    an ADMIN and the pair named is linked; the tenant of the request plays
    no part.  It then removes the links of that pair and nothing else.
    Assigning and then unassigning gives back the store one started from. *)
Theorem unassignService_removes_link :
  forall (req : Request AssignServiceBody) (db : Db),
    ((exists db' resp, unassignService req db = (db', Ok resp))
     <-> requireTenantRole (req_user req) ["OWNER"; "ADMIN"] = Ok tt
         /\ exists serviceId,
              avb_serviceId (req_body req) = Some serviceId /\ serviceId <> ""
              /\ exists l, In l (staffServices db)
                           /\ ss_staffId l = req_id req /\ ss_serviceId l = serviceId)
    /\ (forall db' resp,
          unassignService req db = (db', Ok resp) ->
          avb_serviceId (req_body req) = Some (snd (rs_data resp))
          /\ fst (rs_data resp) = req_id req
          /\ db' = set_staffServices (staffServices db') db
          /\ forall l, In l (staffServices db')
                       <-> In l (staffServices db)
                           /\ ~ (ss_staffId l = req_id req
                                 /\ ss_serviceId l = snd (rs_data resp)))
    /\ (forall db' err, unassignService req db = (db', Throw err) -> db' = db)
    /\ (forall db0 resp0,
          assignService req db0 = (db, Ok resp0) ->
          exists resp, unassignService req db = (db0, Ok resp)).
Proof.
  intros req db.
  assert (Hrun : forall serviceId,
            requireTenantRole (req_user req) ["OWNER"; "ADMIN"] = Ok tt ->
            avb_serviceId (req_body req) = Some serviceId -> serviceId <> "" ->
            unassignService req db
            = if List.existsb (assignedWhere (req_id req) serviceId) (staffServices db)
              then (set_staffServices
                      (List.filter (fun x => negb (assignedWhere (req_id req)
                                                     serviceId x))
                         (staffServices db)) db,
                    Ok (mkApiResponse 200 (req_id req, serviceId)
                          "Service unassigned from staff successfully"))
              else (db, Throw (ApiError 404 "Service not assigned to this staff"))).
  { intros serviceId Hrole Hbody Hne. unfold unassignService.
    rewrite Hrole, Hbody. cbn [bind]. destruct serviceId as [|c r]; [now destruct Hne|].
    cbn [required_str].
    destruct (deleteMany _ _) as [rows count] eqn:Hdel.
    pose proof (deleteMany_count_zero (assignedWhere (req_id req) (String c r))
                  (staffServices db)) as Hz.
    rewrite Hdel in Hz. cbn [snd] in Hz.
    assert (Hrows : rows = List.filter (fun x => negb (assignedWhere (req_id req)
                                                         (String c r) x))
                             (staffServices db))
      by (unfold deleteMany in Hdel; now injection Hdel as <- _).
    destruct (List.existsb _ _) eqn:Hex.
    - destruct (count =? 0) eqn:Hc; [|now rewrite Hrows].
      exfalso. apply List.existsb_exists in Hex as (x & Hin & Hx).
      rewrite (proj1 Hz eq_refl x Hin) in Hx. discriminate.
    - assert (Hnone : forall x, In x (staffServices db) ->
                                assignedWhere (req_id req) (String c r) x = false).
      { intros x Hin. apply not_true_is_false. intros Hx.
        assert (List.existsb (assignedWhere (req_id req) (String c r))
                  (staffServices db) = true)
          by (apply List.existsb_exists; now exists x).
        congruence. }
      rewrite (proj2 Hz Hnone), Hrows, (filter_negb_none _ _ Hnone).
      now rewrite set_staffServices_same. }
  assert (Hfail : forall db' out,
            unassignService req db = (db', out) ->
            (requireTenantRole (req_user req) ["OWNER"; "ADMIN"] = Ok tt
             /\ exists serviceId, avb_serviceId (req_body req) = Some serviceId
                                  /\ serviceId <> "")
            \/ (db' = db /\ exists err, out = Throw err)).
  { intros db' out. unfold unassignService.
    destruct (requireTenantRole _ _) as [[]|] eqn:Hrole; cbn [bind].
    - destruct (required_str _ _) as [serviceId|] eqn:Hreq.
      + intros _. left. split; [reflexivity|]. exists serviceId.
        now apply required_str_Ok in Hreq.
      + intros [= <- <-]. right. split; [reflexivity|now eexists].
    - intros [= <- <-]. right. split; [reflexivity|now eexists]. }
  split; [split|split; [|split]].
  - intros (db' & resp & H).
    destruct (Hfail _ _ H) as [(Hrole & serviceId & Hbody & Hne)|(_ & err & Herr)];
      [|discriminate].
    split; [assumption|]. exists serviceId. repeat apply conj; try assumption.
    rewrite (Hrun serviceId Hrole Hbody Hne) in H.
    destruct (List.existsb _ _) eqn:Hex; [|discriminate].
    apply List.existsb_exists in Hex as (l & Hin & Hl).
    apply assignedWhere_spec in Hl. exists l. tauto.
  - intros (Hrole & serviceId & Hbody & Hne & l & Hin & Hl1 & Hl2).
    rewrite (Hrun serviceId Hrole Hbody Hne).
    assert (Hex : List.existsb (assignedWhere (req_id req) serviceId)
                    (staffServices db) = true).
    { apply List.existsb_exists. exists l. split; [assumption|].
      now apply assignedWhere_spec. }
    rewrite Hex. now eexists _, _.
  - intros db' resp H.
    destruct (Hfail _ _ H) as [(Hrole & serviceId & Hbody & Hne)|(_ & err & Herr)];
      [|discriminate].
    rewrite (Hrun serviceId Hrole Hbody Hne) in H.
    destruct (List.existsb _ _); [|discriminate]. injection H as <- <-.
    cbn. repeat apply conj; try assumption; try reflexivity.
    intros l. rewrite List.filter_In, negb_true_iff, <- assignedWhere_spec.
    split; intros [H1 H2]; split; try assumption.
    + now rewrite H2.
    + now apply not_true_is_false.
  - intros db' err H.
    destruct (Hfail _ _ H) as [(Hrole & serviceId & Hbody & Hne)|(Hdb & _)];
      [|assumption].
    rewrite (Hrun serviceId Hrole Hbody Hne) in H.
    destruct (List.existsb _ _); [discriminate|]. now injection H as <- _.
  - intros db0 resp0 Hassign. unfold assignService in Hassign.
    destruct (requireTenantRole (req_user req) ["OWNER"; "ADMIN"]) as [[]|] eqn:Hrole;
      cbn [bind] in Hassign; [|discriminate].
    destruct (required_str _ _) as [serviceId|] eqn:Hreq;
      cbn [bind] in Hassign; [|discriminate].
    apply required_str_Ok in Hreq as [Hbody Hne].
    destruct (List.find _ (staff db0)); cbn [orThrow bind] in Hassign; [|discriminate].
    destruct (List.find _ (services db0)); cbn [orThrow bind] in Hassign;
      [|discriminate].
    unfold createStaffService in Hassign.
    destruct (List.existsb _ (staffServices db0)) eqn:Hex; cbn in Hassign;
      [discriminate|].
    injection Hassign as <- _.
    rewrite (Hrun serviceId eq_refl Hbody Hne). cbn [staffServices set_staffServices].
    assert (Hlink : assignedWhere (req_id req) serviceId
                      (mkStaffService (req_id req) serviceId) = true)
      by now apply assignedWhere_spec.
    assert (Hex2 : List.existsb (assignedWhere (req_id req) serviceId)
                     (staffServices db0 ++ [mkStaffService (req_id req) serviceId])
                   = true).
    { apply List.existsb_exists. eexists. split; [|exact Hlink].
      apply List.in_or_app. right. now left. }
    rewrite Hex2. eexists. f_equal.
    rewrite List.filter_app, filter_negb_none.
    + cbn [List.filter]. rewrite Hlink. cbn. rewrite List.app_nil_r. now destruct db0.
    + intros x Hin. apply not_true_is_false. intros Hx.
      assert (List.existsb (assignedWhere (req_id req) serviceId) (staffServices db0)
              = true)
        by (apply List.existsb_exists; now exists x).
      congruence.
Qed.

Lemma unassignService_removes_link_witness :
  exists resp,
    unassignService (mkRequest "t2" Scenario.owner "s1" (mkAssignServiceBody (Some "svc")))
      Scenario.db0
    = (set_staffServices [mkStaffService "s2" "svc90"; mkStaffService "s3" "svc"]
         Scenario.db0,
       Ok resp).
Proof.
  destruct (proj2 (proj1 (unassignService_removes_link
                            (mkRequest "t2" Scenario.owner "s1"
                               (mkAssignServiceBody (Some "svc")))
                            Scenario.db0)))
    as (db' & resp & H).
  - split; [reflexivity|]. exists "svc". split; [reflexivity|].
    split; [discriminate|]. exists (mkStaffService "s1" "svc").
    split; [left; reflexivity|]. split; reflexivity.
  - exists resp. rewrite H. f_equal.
    change db' with (fst (db', @Ok (ApiResponse (string * string)) resp)).
    rewrite <- H. reflexivity.
Defined.

(** ** Links stay within a tenant *)

Lemma links_kept (db db' : Db) :
  Invariant.linksWithinTenant db ->
  (forall st, In st (staff db) ->
              exists st', In st' (staff db') /\ stf_id st' = stf_id st
                          /\ stf_tenantId st' = stf_tenantId st) ->
  (forall sv, In sv (services db) ->
              exists sv', In sv' (services db') /\ svc_id sv' = svc_id sv
                          /\ svc_tenantId sv' = svc_tenantId sv) ->
  (forall l, In l (staffServices db') ->
             In l (staffServices db)
             \/ exists st sv,
                  In st (staff db') /\ In sv (services db')
                  /\ stf_id st = ss_staffId l /\ svc_id sv = ss_serviceId l
                  /\ stf_tenantId st = svc_tenantId sv) ->
  Invariant.linksWithinTenant db'.
Proof.
  intros Hinv Hst Hsv Hl l Hin. destruct (Hl l Hin) as [Hold|Hnew]; [|exact Hnew].
  destruct (Hinv l Hold) as (st & sv & Hs1 & Hs2 & H1 & H2 & H3).
  destruct (Hst st Hs1) as (st' & Hs1' & Hi1 & Ht1).
  destruct (Hsv sv Hs2) as (sv' & Hs2' & Hi2 & Ht2).
  exists st', sv'. repeat split; try assumption; congruence.
Qed.

Lemma kept_by_map {A} (g : A -> A) (l : list A) (P : A -> A -> Prop) :
  (forall x, P (g x) x) ->
  forall x, In x l -> exists x', In x' (List.map g l) /\ P x' x.
Proof. intros Hg x Hin. exists (g x). split; [now apply List.in_map|apply Hg]. Qed.

Lemma assignStaff_store (req : Request AssignStaffBody) (db : Db) :
  fst (assignStaff req db) = db
  \/ exists staffId sv st,
       In sv (services db) /\ In st (staff db)
       /\ svc_id sv = req_id req /\ stf_id st = staffId
       /\ svc_tenantId sv = req_tenantId req /\ stf_tenantId st = req_tenantId req
       /\ fst (assignStaff req db)
          = set_staffServices
              (staffServices db ++ [mkStaffService staffId (req_id req)]) db.
Proof.
  unfold assignStaff.
  destruct (requireTenantRole _ _) as [[]|]; cbn [bind]; [|now left].
  destruct (required_str _ _) as [staffId|]; cbn [bind]; [|now left].
  destruct (List.find (liveServiceWhere _ _) _) as [sv|] eqn:Hsv;
    cbn [orThrow bind]; [|now left].
  destruct (List.find (staffWhere _ _) _) as [st|] eqn:Hst;
    cbn [orThrow bind]; [|now left].
  unfold createStaffService. destruct (List.existsb _ _); cbn; [now left|].
  right. apply List.find_some in Hsv as [Hin1 H1], Hst as [Hin2 H2].
  apply liveServiceWhere_spec in H1. apply staffWhere_spec in H2.
  exists staffId, sv, st. tauto.
Qed.

Lemma assignService_store (req : Request AssignServiceBody) (db : Db) :
  fst (assignService req db) = db
  \/ exists serviceId sv st,
       In sv (services db) /\ In st (staff db)
       /\ svc_id sv = serviceId /\ stf_id st = req_id req
       /\ svc_tenantId sv = req_tenantId req /\ stf_tenantId st = req_tenantId req
       /\ fst (assignService req db)
          = set_staffServices
              (staffServices db ++ [mkStaffService (req_id req) serviceId]) db.
Proof.
  unfold assignService.
  destruct (requireTenantRole _ _) as [[]|]; cbn [bind]; [|now left].
  destruct (required_str _ _) as [serviceId|]; cbn [bind]; [|now left].
  destruct (List.find (staffWhere _ _) _) as [st|] eqn:Hst;
    cbn [orThrow bind]; [|now left].
  destruct (List.find (liveServiceWhere _ _) _) as [sv|] eqn:Hsv;
    cbn [orThrow bind]; [|now left].
  unfold createStaffService. destruct (List.existsb _ _); cbn; [now left|].
  right. apply List.find_some in Hsv as [Hin1 H1], Hst as [Hin2 H2].
  apply liveServiceWhere_spec in H1. apply staffWhere_spec in H2.
  exists serviceId, sv, st. tauto.
Qed.

Lemma unassignService_store (req : Request AssignServiceBody) (db : Db) :
  staff (fst (unassignService req db)) = staff db
  /\ services (fst (unassignService req db)) = services db
  /\ (forall l, In l (staffServices (fst (unassignService req db))) ->
                In l (staffServices db)).
Proof.
  unfold unassignService.
  destruct (bind _ _) as [serviceId|]; [|now repeat split].
  unfold deleteMany. destruct (_ =? 0); cbn; repeat split;
    intros l Hl; now apply List.filter_In in Hl.
Qed.

Lemma deleteStaff_store (env : Env) (req : Request unit) (db : Db) :
  fst (deleteStaff env req db) = db
  \/ fst (deleteStaff env req db)
     = set_staff
         (List.map (fun s => if staffWhere (req_tenantId req) (req_id req) s
                             then deleteStaffData env s else s) (staff db)) db.
Proof.
  unfold deleteStaff. destruct (requireTenantRole _ _) as [[]|]; [|now left].
  right. unfold updateMany. now destruct (_ =? 0).
Qed.

(** X22.  Links stay within a tenant: when every link of the store joins a
    staff member and a service that are rows of one same tenant, every link
    does after [assignStaff], [assignService], [unassignService],
    [createService], [updateService], [deleteService] or [deleteStaff],
    whatever the request and its outcome. *)
Theorem handlers_keep_links_within_tenant :
  forall (trim : string -> string) (env : Env) (db : Db),
    Invariant.linksWithinTenant db ->
    (forall req, Invariant.linksWithinTenant (fst (assignStaff req db)))
    /\ (forall req, Invariant.linksWithinTenant (fst (assignService req db)))
    /\ (forall req, Invariant.linksWithinTenant (fst (unassignService req db)))
    /\ (forall currency req,
          Invariant.linksWithinTenant (fst (createService trim env currency req db)))
    /\ (forall req, Invariant.linksWithinTenant (fst (updateService req db)))
    /\ (forall req, Invariant.linksWithinTenant (fst (deleteService env req db)))
    /\ (forall req, Invariant.linksWithinTenant (fst (deleteStaff env req db))).
Proof.
  intros trim env db Hinv.
  assert (Hself_st : forall st, In st (staff db) ->
             exists st', In st' (staff db) /\ stf_id st' = stf_id st
                         /\ stf_tenantId st' = stf_tenantId st) by eauto.
  assert (Hself_sv : forall sv, In sv (services db) ->
             exists sv', In sv' (services db) /\ svc_id sv' = svc_id sv
                         /\ svc_tenantId sv' = svc_tenantId sv) by eauto.
  repeat apply conj; intros.
  - destruct (assignStaff_store req db)
      as [->|(staffId & sv & st & Hsv & Hst & H1 & H2 & H3 & H4 & ->)];
      [assumption|].
    apply (links_kept db); try assumption. cbn.
    intros l Hl. apply List.in_app_or in Hl as [Hl|[<-|[]]]; [now left|].
    right. exists st, sv. cbn. repeat split; try assumption; congruence.
  - destruct (assignService_store req db)
      as [->|(serviceId & sv & st & Hsv & Hst & H1 & H2 & H3 & H4 & ->)];
      [assumption|].
    apply (links_kept db); try assumption. cbn.
    intros l Hl. apply List.in_app_or in Hl as [Hl|[<-|[]]]; [now left|].
    right. exists st, sv. cbn. repeat split; try assumption; congruence.
  - destruct (unassignService_store req db) as (Hst & Hsv & Hl).
    apply (links_kept db); try assumption.
    + now rewrite Hst.
    + now rewrite Hsv.
    + intros l Hin. left. now apply Hl.
  - destruct (createService_store trim env currency req db)
      as [->|(s & _ & _ & _ & ->)]; [assumption|].
    apply (links_kept db); try assumption; cbn.
    + intros sv Hin. exists sv. split; [apply List.in_or_app; now left|now split].
    + intros l Hl. now left.
  - destruct (updateService_store req db) as [->|(_ & _ & _ & ->)]; [assumption|].
    apply (links_kept db); try assumption; cbn.
    + apply kept_by_map. intros x. now destruct (liveServiceWhere _ _ x).
    + intros l Hl. now left.
  - destruct (deleteService_store env req db) as [->|(_ & ->)]; [assumption|].
    apply (links_kept db); try assumption; cbn.
    + apply kept_by_map. intros x. now destruct (liveServiceWhere _ _ x).
    + intros l Hl. now left.
  - destruct (deleteStaff_store env req db) as [->| ->]; [assumption|].
    apply (links_kept db); try assumption; cbn.
    + apply kept_by_map. intros x. now destruct (staffWhere _ _ x).
    + intros l Hl. now left.
Qed.

Lemma handlers_keep_links_within_tenant_witness :
  Invariant.linksWithinTenant
    (fst (assignStaff (mkRequest "t1" Scenario.owner "svc90"
                         (mkAssignStaffBody (Some "s1"))) Scenario.db0)).
Proof.
  apply (handlers_keep_links_within_tenant (fun s => s) Scenario.env0 Scenario.db0).
  intros l [<-|[<-|[<-|[]]]].
  - exists (mkStaff "s1" "t1" None), Scenario.svc30. cbn. tauto.
  - exists (mkStaff "s2" "t1" None), Scenario.svc90. cbn. tauto.
  - exists (mkStaff "s3" "t1" None), Scenario.svc30. cbn. tauto.
Defined.

(** ** Guards registered on the shared client *)

Lemma guard_where_action (tenantId m : string) (act : string)
    (a : TenantGuard.Args) :
  In m TenantGuard.tenantModels ->
  In act ["findMany"; "findFirst"; "findUnique";
          "update"; "delete"; "updateMany"; "deleteMany"] ->
  TenantGuard.prismaWithTenant tenantId (TenantGuard.mkParams (Some m) act (Some a))
  = Some (TenantGuard.mkParams (Some m) act
            (Some (TenantGuard.mkArgs
                     (Some (TenantGuard.spreadTenant (TenantGuard.args_where a)
                              tenantId))
                     (TenantGuard.args_data a) (TenantGuard.args_rest a)))).
Proof.
  intros Hm Hact. apply includes_In in Hm. unfold TenantGuard.prismaWithTenant.
  cbn [TenantGuard.model TenantGuard.action]. rewrite Hm.
  repeat (destruct Hact as [<-|Hact]; [reflexivity|]). destruct Hact.
Qed.

Lemma run_snoc (c : SharedClient.client) (tenantId : string)
    (p : TenantGuard.Params) :
  SharedClient.run (SharedClient.prismaWithTenant tenantId c) p
  = SharedClient.run c p ≫= TenantGuard.prismaWithTenant tenantId.
Proof.
  unfold SharedClient.run, SharedClient.prismaWithTenant.
  now rewrite List.fold_left_app.
Qed.

(** Whatever guards are registered, a query on a tenant-scoped model with
    arguments reaches the engine, its [where] agreeing with the caller's
    outside [tenantId]. *)
Lemma run_where_action (c : SharedClient.client) (m act : string)
    (a : TenantGuard.Args) :
  In m TenantGuard.tenantModels ->
  In act ["findMany"; "findFirst"; "findUnique";
          "update"; "delete"; "updateMany"; "deleteMany"] ->
  exists w,
    SharedClient.run c (TenantGuard.mkParams (Some m) act (Some a))
    = Some (TenantGuard.mkParams (Some m) act
              (Some (TenantGuard.mkArgs w (TenantGuard.args_data a)
                       (TenantGuard.args_rest a))))
    /\ (forall k, k <> "tenantId" ->
                  default ∅ w !! k = default ∅ (TenantGuard.args_where a) !! k).
Proof.
  intros Hm Hact. induction c as [|t c IH] using List.rev_ind.
  - exists (TenantGuard.args_where a). split; [now destruct a|reflexivity].
  - destruct IH as (w & Hrun & Hagree).
    change (c ++ [t]) with (SharedClient.prismaWithTenant t c).
    rewrite run_snoc, Hrun. cbn [mbind option_bind].
    rewrite (guard_where_action t m act _ Hm Hact). cbn.
    eexists. split; [reflexivity|]. intros k Hk. cbn.
    unfold TenantGuard.spreadTenant. rewrite lookup_insert_ne by congruence.
    now apply Hagree.
Qed.

(** X23.  The guards stack on the one shared client, and the last one
    registered wins: after [prismaWithTenant(t)], every findMany, findFirst,
    findUnique, update, delete, updateMany or deleteMany on a tenant-scoped
    model reaches the engine fenced to [t], whatever tenants were registered
    before (so also through a handle that an earlier call returned); the
    other fields of its [where] are the caller's. *)
Theorem last_registered_guard_wins :
  forall (c : SharedClient.client) (t m act : string) (a : TenantGuard.Args),
    In m TenantGuard.tenantModels ->
    In act ["findMany"; "findFirst"; "findUnique";
            "update"; "delete"; "updateMany"; "deleteMany"] ->
    exists w,
      SharedClient.run (SharedClient.prismaWithTenant t c)
        (TenantGuard.mkParams (Some m) act (Some a))
      = Some (TenantGuard.mkParams (Some m) act
                (Some (TenantGuard.mkArgs (Some w) (TenantGuard.args_data a)
                         (TenantGuard.args_rest a))))
      /\ w !! "tenantId" = Some (TenantGuard.VStr t)
      /\ (forall k, k <> "tenantId" ->
                    w !! k = default ∅ (TenantGuard.args_where a) !! k).
Proof.
  intros c t m act a Hm Hact.
  destruct (run_where_action c m act a Hm Hact) as (w0 & Hrun & Hagree).
  rewrite run_snoc, Hrun. cbn [mbind option_bind].
  rewrite (guard_where_action t m act _ Hm Hact). cbn.
  eexists. split; [reflexivity|]. unfold TenantGuard.spreadTenant. split.
  - apply lookup_insert_eq.
  - intros k Hk. rewrite lookup_insert_ne by congruence. now apply Hagree.
Qed.

Lemma last_registered_guard_wins_witness :
  exists w,
    SharedClient.run
      (SharedClient.prismaWithTenant "t2" (SharedClient.prismaWithTenant "t1" []))
      (TenantGuard.mkParams (Some "Appointment") "findMany"
         (Some (TenantGuard.mkArgs None None ∅)))
    = Some (TenantGuard.mkParams (Some "Appointment") "findMany"
              (Some (TenantGuard.mkArgs (Some w) None ∅)))
    /\ w !! "tenantId" = Some (TenantGuard.VStr "t2").
Proof.
  destruct (last_registered_guard_wins (SharedClient.prismaWithTenant "t1" [])
              "t2" "Appointment" "findMany" (TenantGuard.mkArgs None None ∅)
              (or_introl eq_refl) (or_introl eq_refl))
    as (w & Hrun & Ht & _).
  exists w. split; assumption.
Defined.

(** ** When a booking goes through *)

Lemma validate_Ok_within_day Number (db : Db) tenantId staffId (s e : Z) :
  s <= e -> s / JS.msPerDay = e / JS.msPerDay ->
  (forall av, In av (availabilities db) ->
              Spec.availabilityOf tenantId staffId av ->
              av_type av = RECURRING -> av_dayOfWeek av <> Some 0) ->
  validateStaffAvailabilityAndTimeOff Number db tenantId staffId s e = Ok tt
  <-> (forall tf, In tf (timeOffs db) -> ~ Spec.blocks tenantId staffId s e tf)
      /\ ((forall av, In av (availabilities db) ->
                      ~ Spec.availabilityOf tenantId staffId av)
          \/ (exists av, In av (availabilities db)
                         /\ Spec.availabilityOf tenantId staffId av
                         /\ Spec.contains Number s e av)).
Proof.
  intros Hle Hsame Hnz. split.
  - intros Hok.
    assert (Hoff : forall tf, In tf (timeOffs db) ->
                              ~ Spec.blocks tenantId staffId s e tf).
    { intros tf Hin Hb. apply timeOffWhere_spec in Hb.
      unfold validateStaffAvailabilityAndTimeOff in Hok.
      destruct (List.filter (timeOffWhere _ _ _ _) (timeOffs db)) eqn:Hf;
        [|discriminate].
      rewrite filter_nil_iff in Hf. rewrite (Hf tf Hin) in Hb. discriminate. }
    split; [assumption|].
    now apply (proj1 (availability_check_within_day Number db tenantId staffId s e
                        Hoff Hle Hsame Hnz)).
  - intros [Hoff Hav].
    now apply (proj1 (availability_check_within_day Number db tenantId staffId s e
                        Hoff Hle Hsame Hnz)).
Qed.

Lemma durationMismatch_false_iff (service : Service) (s e : Z) :
  durationMismatch service s e = false
  <-> e = s + svc_duration service * JS.msPerMinute
      /\ Z.abs e <= 8640000000000000.
Proof.
  unfold durationMismatch, JS.timeClip, JS.msPerMinute.
  rewrite negb_false_iff, bool_decide_eq_true.
  destruct (_ <=? _) eqn:Hle.
  - apply Z.leb_le in Hle. split.
    + intros [= <-]. now split.
    + now intros [-> _].
  - apply Z.leb_gt in Hle. split; [discriminate|]. intros [-> H]. lia.
Qed.

(** X24.  When a booking goes through, where the weekly test is sound: for
    an interval within one UTC day and a staff member without a RECURRING
    record for Sunday, a request that has passed the lookups of
    [createAppointment] is booked iff its end is the start plus the duration
    of the service (and a valid time value), no time off of the staff member
    blocks the interval, the staff member has no availability record or has
    one that contains the interval, and neither the staff member nor the
    client has a PENDING or CONFIRMED appointment of the tenant that
    strictly overlaps it. *)
Theorem booking_succeeds_iff :
  forall (Number : string -> JS.jsnum) (env : Env) (req : Request CreateBody)
         (db : Db) (r : Resolved),
    createAppointment_resolve env req db = Ok r ->
    r_startDate r / JS.msPerDay = r_endDate r / JS.msPerDay ->
    (forall av, In av (availabilities db) ->
                Spec.availabilityOf (req_tenantId req) (r_staffId r) av ->
                av_type av = RECURRING -> av_dayOfWeek av <> Some 0) ->
    (exists db' resp, createAppointment Number env req db = (db', Ok resp))
    <-> r_endDate r = r_startDate r + svc_duration (r_service r) * JS.msPerMinute
        /\ Z.abs (r_endDate r) <= 8640000000000000
        /\ (forall tf, In tf (timeOffs db) ->
                       ~ Spec.blocks (req_tenantId req) (r_staffId r)
                           (r_startDate r) (r_endDate r) tf)
        /\ ((forall av, In av (availabilities db) ->
                        ~ Spec.availabilityOf (req_tenantId req) (r_staffId r) av)
            \/ (exists av, In av (availabilities db)
                           /\ Spec.availabilityOf (req_tenantId req) (r_staffId r) av
                           /\ Spec.contains Number (r_startDate r) (r_endDate r) av))
        /\ (forall a, In a (appointments db) ->
                      ~ Spec.conflicts ap_staffId (req_tenantId req) (r_staffId r)
                          None (r_startDate r) (r_endDate r) a)
        /\ (forall a, In a (appointments db) ->
                      ~ Spec.conflicts ap_clientId (req_tenantId req) (r_clientId r)
                          None (r_startDate r) (r_endDate r) a).
Proof.
  intros Number env req db r Hres Hsame Hnz.
  assert (Hle : r_startDate r <= r_endDate r).
  { apply createAppointment_resolve_Ok_inv in Hres as (_ & _ & _ & _ & _ & H & _).
    lia. }
  pose proof (validate_Ok_within_day Number db (req_tenantId req) (r_staffId r)
                (r_startDate r) (r_endDate r) Hle Hsame Hnz) as Hvalid.
  split.
  - intros (db' & resp & Hrun).
    apply createAppointment_Ok_inv in Hrun as (r' & Hres' & Hval & _).
    rewrite Hres in Hres'. injection Hres' as <-.
    apply createAppointment_validate_Ok_inv in Hval as (Hd & Hv & Hs & Hc).
    apply durationMismatch_false_iff in Hd as [Hd1 Hd2].
    apply Hvalid in Hv as [Hoff Hav].
    rewrite find_None_iff in Hs, Hc.
    split; [assumption|]. split; [assumption|]. split; [assumption|].
    split; [assumption|]. split.
    + intros a Hin Hconf. apply staffConflictWhere_spec in Hconf.
      rewrite (Hs a Hin) in Hconf. discriminate.
    + intros a Hin Hconf. apply clientConflictWhere_spec in Hconf.
      rewrite (Hc a Hin) in Hconf. discriminate.
  - intros (Hd1 & Hd2 & Hoff & Hav & Hs & Hc).
    unfold createAppointment. rewrite Hres. cbn [bind].
    unfold createAppointment_validate.
    rewrite (proj2 (durationMismatch_false_iff _ _ _) (conj Hd1 Hd2)).
    cbn [throwIf bind].
    rewrite (proj2 Hvalid (conj Hoff Hav)).
    cbn [bind].
    assert (Hs' : List.find (staffConflictWhere (req_tenantId req) (r_staffId r) None
                               (r_startDate r) (r_endDate r)) (appointments db) = None).
    { apply find_None_iff. intros a Hin. apply not_true_is_false. intros H.
      apply staffConflictWhere_spec in H. now apply (Hs a). }
    assert (Hc' : List.find (clientConflictWhere (req_tenantId req) (r_clientId r)
                               None (r_startDate r) (r_endDate r)) (appointments db)
                  = None).
    { apply find_None_iff. intros a Hin. apply not_true_is_false. intros H.
      apply clientConflictWhere_spec in H. now apply (Hc a). }
    rewrite Hs', Hc'. cbn. now eexists _, _.
Qed.

Lemma booking_succeeds_iff_witness :
  exists db' resp,
    createAppointment JS.Number_digits Scenario.env0
      (Scenario.book "s1" "c1" Scenario.mon_0900 Scenario.mon_0930) Scenario.db0
    = (db', Ok resp).
Proof.
  apply (proj2 (booking_succeeds_iff JS.Number_digits Scenario.env0
                  (Scenario.book "s1" "c1" Scenario.mon_0900 Scenario.mon_0930)
                  Scenario.db0
                  (mkResolved "svc" "s1" "c1" Scenario.mon_0900 Scenario.mon_0930
                     Scenario.svc30)
                  ltac:(vm_compute; reflexivity)
                  ltac:(vm_compute; reflexivity)
                  ltac:(intros av [<-|[<-|[<-|[]]]] [Hst _] _;
                        vm_compute in Hst; try discriminate Hst;
                        vm_compute; discriminate))).
  cbn [r_endDate r_startDate r_service r_staffId r_clientId req_tenantId
       Scenario.book].
  split; [reflexivity|]. split; [vm_compute; discriminate|].
  split; [intros tf []|]. split.
  - right. exists Scenario.monday. split; [left; reflexivity|].
    split; [repeat split|]. right. split; [reflexivity|].
    exists 1, (JS.ofZ 540), (JS.ofZ 720).
    repeat apply conj; vm_compute; reflexivity.
  - split; intros a [].
Defined.

(** X25.  Time off blocks at its ends too, unlike an appointment: a
    booking that starts at the very instant a time off of the staff member
    ends, or ends at the instant it starts, is refused with the time-off
    error. *)
Theorem touching_time_off_blocks :
  forall (Number : string -> JS.jsnum) (db : Db) (tenantId staffId : string)
         (s e : Z) (tf : TimeOff),
    In tf (timeOffs db) ->
    to_staffId tf = staffId -> to_tenantId tf = tenantId ->
    to_start tf <= to_end tf -> s <= e ->
    to_end tf = s \/ to_start tf = e ->
    exists err,
      validateStaffAvailabilityAndTimeOff Number db tenantId staffId s e = Throw err
      /\ Spec.isTimeOffError err.
Proof.
  intros Number db tenantId staffId s e tf Hin Hst Ht Hwf Hse Htouch.
  assert (Hb : timeOffWhere tenantId staffId s e tf = true).
  { apply timeOffWhere_spec. repeat split; try assumption; lia. }
  unfold validateStaffAvailabilityAndTimeOff.
  destruct (List.filter (timeOffWhere _ _ _ _) (timeOffs db)) as [|first rest] eqn:Hf.
  - rewrite filter_nil_iff in Hf. rewrite (Hf tf Hin) in Hb. discriminate.
  - exists (timeOffError first). split; [reflexivity|].
    now exists (timeOffReason first).
Qed.

Lemma touching_time_off_blocks_witness :
  exists err,
    validateStaffAvailabilityAndTimeOff JS.Number_digits Scenario.dbOff "t1" "s1"
      Scenario.mon_1000 (Scenario.mon_1000 + 30 * JS.msPerMinute) = Throw err
    /\ Spec.isTimeOffError err.
Proof.
  apply (touching_time_off_blocks JS.Number_digits Scenario.dbOff "t1" "s1"
           Scenario.mon_1000 (Scenario.mon_1000 + 30 * JS.msPerMinute) Scenario.off).
  - left. reflexivity.
  - reflexivity.
  - reflexivity.
  - vm_compute. discriminate.
  - vm_compute. discriminate.
  - left. reflexivity.
Defined.
